(** * Incremental station-status loader: a shallow embedding

  The development follows [data_loading/prefect_load_station_status.py]
  (the orchestrated loader), [data_loading/load_station_status.py] (the
  plain loader) and the key naming of [cloud_function/main.py].

  Python values are modelled as follows: [str] is [string] (one
  character per byte: text outside Latin-1 is not modelled), a [set] of
  strings is a [gset string], a JSON document is the inductive [json],
  an exception is a constructor of [exn], and a call that may raise
  returns an [outcome].  Logging is a writer effect: the logger calls,
  the printed lines and the load jobs of a run are the [event]s of its
  trace.  The services of a run (the BigQuery client, the query, the
  listing, the reads, the load job) are the fields of an [Infra]: what
  each call gives in the run at hand. *)

From Stdlib Require Import Ascii String List Arith Lia Bool ZArith DecimalString.
From stdpp Require Import gmap strings.
Import ListNotations.

Set Warnings "-register-all,-clear-no-such-hyp".

#[local] Arguments String.append !s1 s2 : simpl nomatch.

Local Open Scope nat_scope.

(** ** Python string primitives *)

Module PyStr.

(** [s.split(sep)] for a one-character separator: never empty. *)
Fixpoint split (sep : ascii) (s : string) : list string :=
  match s with
  | EmptyString => [EmptyString]
  | String c s' =>
      if Ascii.eqb c sep then EmptyString :: split sep s'
      else match split sep s' with
           | [] => [String c EmptyString]
           | seg :: segs => String c seg :: segs
           end
  end.

(** [xs[-1]] on a list of strings ([IndexError] cannot occur on the
    result of [split], which is never empty). *)
Definition last_item (xs : list string) : string := List.last xs EmptyString.

(** [s.replace(old, new)] for a non-empty [old]: occurrences are found
    left to right and do not overlap.  [skip] counts the characters of
    the occurrence that is being stepped over. *)
Fixpoint replace_from (old new : string) (skip : nat) (s : string) : string :=
  match s with
  | EmptyString => EmptyString
  | String c s' =>
      match skip with
      | S k => replace_from old new k s'
      | O =>
          if String.prefix old s
          then new +:+ replace_from old new (String.length old - 1) s'
          else String c (replace_from old new 0 s')
      end
  end.

Definition replace (old new s : string) : string := replace_from old new 0 s.

(** [s.endswith(suffix)] *)
Fixpoint endswith (s suffix : string) : bool :=
  String.eqb s suffix ||
  match s with
  | EmptyString => false
  | String _ s' => endswith s' suffix
  end.

End PyStr.

(** ** Snapshot keys *)

(** [blob_name.split('/')[-1]] *)
Definition filename_of (blob_name : string) : string :=
  PyStr.last_item (PyStr.split "/"%char blob_name).

(** [filename.replace('status_', '').replace('.json', '')] *)
Definition timestamp_str_of (blob_name : string) : string :=
  PyStr.replace ".json" EmptyString
    (PyStr.replace "status_" EmptyString (filename_of blob_name)).

(** The collector's key:
    [f"raw/station_status/date={date_partition}/status_{timestamp}.json"] *)
Definition collector_blob_name (date_partition timestamp : string) : string :=
  "raw/station_status/date=" +:+ date_partition +:+ "/status_" +:+ timestamp +:+ ".json".

(** ** Exceptions and outcomes *)

(** The exceptions the loader can meet.  All of them derive from
    [Exception], so the [except Exception] clauses catch every one. *)
Inductive exn : Type :=
| ValueError          (* [datetime.strptime] on a string off the format *)
| AttributeError      (* [.get] on a value that is not a [dict] *)
| TypeError           (* [len] of a value that has no length *)
| JSONDecodeError     (* [json.loads] on a corrupt object *)
| NotFound            (* missing table or missing object *)
| ServiceUnavailable. (* a transient failure that outlived the retries *)

Inductive outcome (A : Type) : Type :=
| Returned (a : A)
| Raised (e : exn).
Arguments Returned {A} a.
Arguments Raised {A} e.

Definition returned {A} (o : outcome A) : bool :=
  match o with Returned _ => true | Raised _ => false end.

#[global] Instance outcome_ret : MRet outcome := fun A a => Returned a.
#[global] Instance outcome_bind : MBind outcome := fun A B k o =>
  match o with
  | Returned a => k a
  | Raised e => Raised e
  end.
#[global] Instance outcome_fmap : FMap outcome := fun A B f o =>
  match o with
  | Returned a => Returned (f a)
  | Raised e => Raised e
  end.

(** ** [datetime]

    A [datetime] is kept to the second: this is all [strptime] with the
    format of the file names can return, and all [strftime] with that
    format prints. *)

Record datetime : Type := mkDatetime {
  year : nat; month : nat; day : nat;
  hour : nat; minute : nat; second : nat
}.

Definition is_leap (y : nat) : bool :=
  (y mod 4 =? 0) && (negb (y mod 100 =? 0) || (y mod 400 =? 0)).

Definition days_in_month (y m : nat) : nat :=
  match m with
  | 2 => if is_leap y then 29 else 28
  | 4 | 6 | 9 | 11 => 30
  | _ => 31
  end.

(** [datetime.MAXYEAR], 9999 *)
Definition MAXYEAR : nat := 99 * 101.

(** What the constructors [date(y, m, d)] and [datetime(y, m, d, H, M, S)]
    accept; anything else is a [ValueError]. *)
Definition valid_datetime (t : datetime) : bool :=
  (1 <=? year t) && (year t <=? MAXYEAR) &&
  (1 <=? month t) && (month t <=? 12) &&
  (1 <=? day t) && (day t <=? days_in_month (year t) (month t)) &&
  (hour t <? 24) && (minute t <? 60) && (second t <? 60).

(** *** Formatting *)

Definition digit_char (n : nat) : ascii := ascii_of_nat (48 + n).

(** [%02d] and [%04d] on the values a [datetime] can hold. *)
Definition pad2 (n : nat) (k : string) : string :=
  String (digit_char (n / 10 mod 10)) (String (digit_char (n mod 10)) k).

Definition pad4 (n : nat) (k : string) : string :=
  String (digit_char (n / 1000 mod 10)) (String (digit_char (n / 100 mod 10))
    (pad2 n k)).

(** The directive [%Y] of [strftime].  CPython hands the format to the
    [strftime] of the C library, and the one of a Linux host (glibc)
    prints the year as a plain decimal number: a year before 1000 comes
    out with fewer than four digits, [999] and not [0999].  (The methods
    [isoformat] below do not go through the C library and always print
    four digits.) *)
Definition fmt_Y (y : nat) (k : string) : string :=
  if y <? 10 then String (digit_char (y mod 10)) k
  else if y <? 100 then pad2 y k
  else if y <? 1000 then String (digit_char (y / 100 mod 10)) (pad2 y k)
  else pad4 y k.

(** [t.strftime("%Y%m%d_%H%M%S")] *)
Definition strftime (t : datetime) : string :=
  fmt_Y (year t) (pad2 (month t) (pad2 (day t) (String "_"
    (pad2 (hour t) (pad2 (minute t) (pad2 (second t) EmptyString)))))).

(** [t.strftime("%Y-%m-%d")] *)
Definition strftime_date (t : datetime) : string :=
  fmt_Y (year t) (String "-" (pad2 (month t) (String "-" (pad2 (day t) EmptyString)))).

(** [t.date().isoformat()] *)
Definition date_isoformat (t : datetime) : string :=
  pad4 (year t) (String "-" (pad2 (month t) (String "-" (pad2 (day t) EmptyString)))).

(** [t.isoformat()] for a [datetime] without microseconds or time zone,
    which is what [strptime] with this format returns. *)
Definition isoformat (t : datetime) : string :=
  pad4 (year t) (String "-" (pad2 (month t) (String "-" (pad2 (day t)
    (String "T" (pad2 (hour t) (String ":" (pad2 (minute t)
      (String ":" (pad2 (second t) EmptyString)))))))))).

(** *** The values of a [TIMESTAMP] column

    The client hands a [TIMESTAMP] over as a [datetime] that carries
    microseconds (and the time zone UTC); [strftime] with the format of
    the file names prints it to the second and drops the rest. *)
Record bq_timestamp : Type := mkTimestamp {
  to_second : datetime;
  microsecond : nat
}.

(** *** Parsing: [datetime.strptime(s, "%Y%m%d_%H%M%S")]

    CPython turns the format into the regular expression

      (?P<Y>\d\d\d\d)(?P<m>1[0-2]|0[1-9]|[1-9])
      (?P<d>3[0-1]|[1-2]\d|0[1-9]|[1-9]| [1-9])_
      (?P<H>2[0-3]|[0-1]\d|\d)(?P<M>[0-5]\d|\d)(?P<S>6[0-1]|[0-5]\d|\d)

    matches it at the start of the string with a backtracking matcher,
    raises [ValueError] when there is no match or when the match stops
    before the end of the string, converts each group with [int], and
    raises [ValueError] when the fields are not a calendar date and time.
    The leading zero of every field but the year is therefore optional. *)

Definition char_class : Type := ascii -> bool.

Definition between (lo hi : ascii) : char_class :=
  fun c => (nat_of_ascii lo <=? nat_of_ascii c) && (nat_of_ascii c <=? nat_of_ascii hi).

Definition exactly (a : ascii) : char_class := fun c => Ascii.eqb c a.

Definition digit : char_class := between "0" "9".

(** One alternative of a group: a sequence of character classes. *)
Fixpoint match_classes (cs : list char_class) (s : string) : option (string * string) :=
  match cs with
  | [] => Some (EmptyString, s)
  | cl :: cs' =>
      match s with
      | EmptyString => None
      | String c s' =>
          if cl c then
            match match_classes cs' s' with
            | Some (txt, rest) => Some (String c txt, rest)
            | None => None
            end
          else None
      end
  end.

(** The ways a group can match at the start of [s], in the order the
    matcher tries them. *)
Fixpoint group_matches (alternatives : list (list char_class)) (s : string)
  : list (string * string) :=
  match alternatives with
  | [] => []
  | alt :: alts =>
      match match_classes alt s with
      | Some m => m :: group_matches alts s
      | None => group_matches alts s
      end
  end.

(** Backtracking: the first candidate on which the rest of the pattern
    matches. *)
Fixpoint first_success {A B : Type} (cands : list A) (k : A -> option B) : option B :=
  match cands with
  | [] => None
  | a :: cands' =>
      match k a with
      | Some b => Some b
      | None => first_success cands' k
      end
  end.

Definition re_Y : list (list char_class) := [[digit; digit; digit; digit]].
Definition re_m : list (list char_class) :=
  [[exactly "1"; between "0" "2"]; [exactly "0"; between "1" "9"]; [between "1" "9"]].
Definition re_d : list (list char_class) :=
  [[exactly "3"; between "0" "1"]; [between "1" "2"; digit];
   [exactly "0"; between "1" "9"]; [between "1" "9"]; [exactly " "; between "1" "9"]].
Definition re_H : list (list char_class) :=
  [[exactly "2"; between "0" "3"]; [between "0" "1"; digit]; [digit]].
Definition re_M : list (list char_class) := [[between "0" "5"; digit]; [digit]].
Definition re_S : list (list char_class) :=
  [[exactly "6"; between "0" "1"]; [between "0" "5"; digit]; [digit]].

(** [int(text)] on the text of a group: decimal digits, blanks ignored. *)
Fixpoint int_of_from (acc : nat) (txt : string) : nat :=
  match txt with
  | EmptyString => acc
  | String c txt' =>
      if digit c then int_of_from (10 * acc + (nat_of_ascii c - 48)) txt'
      else int_of_from acc txt'
  end.

Definition int_of (txt : string) : nat := int_of_from 0 txt.

(** The match of the whole pattern: the six fields and what is left of
    the string after the match. *)
Definition re_match_format (s : string) : option (datetime * string) :=
  first_success (group_matches re_Y s) (fun '(tY, s1) =>
  first_success (group_matches re_m s1) (fun '(tm, s2) =>
  first_success (group_matches re_d s2) (fun '(td, s3) =>
  match s3 with
  | String "_"%char s4 =>
      first_success (group_matches re_H s4) (fun '(tH, s5) =>
      first_success (group_matches re_M s5) (fun '(tM, s6) =>
      first_success (group_matches re_S s6) (fun '(tS, s7) =>
        Some (mkDatetime (int_of tY) (int_of tm) (int_of td)
                         (int_of tH) (int_of tM) (int_of tS), s7))))
  | _ => None
  end))).

Definition strptime (s : string) : outcome datetime :=
  match re_match_format s with
  | None => Raised ValueError
  | Some (t, EmptyString) => if valid_datetime t then Returned t else Raised ValueError
  | Some (_, String _ _) => Raised ValueError
  end.

(** ** The timestamp grammar [YYYYMMDD_HHMMSS]

    A string has the shape of a timestamp when it is eight digits, an
    underscore and six digits; it matches the grammar when, besides, the
    digits name a calendar date and a time of day. *)
Definition timestamp_layout : list char_class :=
  [digit; digit; digit; digit; digit; digit; digit; digit; exactly "_";
   digit; digit; digit; digit; digit; digit].

Definition timestamp_shaped (s : string) : bool :=
  match match_classes timestamp_layout s with
  | Some (_, EmptyString) => true
  | _ => false
  end.

Definition fields_of (s : string) : datetime :=
  mkDatetime (int_of (String.substring 0 4 s))
             (int_of (String.substring 4 2 s))
             (int_of (String.substring 6 2 s))
             (int_of (String.substring 9 2 s))
             (int_of (String.substring 11 2 s))
             (int_of (String.substring 13 2 s)).

Definition matches_YYYYMMDD_HHMMSS (s : string) : bool :=
  timestamp_shaped s && valid_datetime (fields_of s).

(** The string of the grammar that names a [datetime]: every field with
    all its digits, the year with four. *)
Definition timestamp_text (t : datetime) : string :=
  pad4 (year t) (pad2 (month t) (pad2 (day t) (String "_"
    (pad2 (hour t) (pad2 (minute t) (pad2 (second t) EmptyString)))))).

(** ** JSON documents *)

(** What [json.loads] returns: [None], [bool], [int], [float] (kept as
    the text [repr] prints, [nan], [inf] and [-inf] included: [json.loads]
    accepts [NaN], [Infinity] and [-Infinity]), [str], [list] and [dict].
    A [dict] is its list of entries; a key is looked up at its first
    entry. *)
Inductive json : Type :=
| JNull
| JBool (b : bool)
| JInt (n : Z)
| JFloat (repr : string)
| JStr (s : string)
| JList (items : list json)
| JDict (entries : list (string * json)).

Fixpoint assoc (k : string) (entries : list (string * json)) : option json :=
  match entries with
  | [] => None
  | (k', v) :: entries' => if String.eqb k k' then Some v else assoc k entries'
  end.

(** [d.get(k, default)]: only a [dict] has the method. *)
Definition py_get (d : json) (k : string) (default : json) : outcome json :=
  match d with
  | JDict entries =>
      Returned (match assoc k entries with Some v => v | None => default end)
  | _ => Raised AttributeError
  end.

(** *** [json.dumps] with its default separators and [ensure_ascii] *)

(** The double quote character. *)
Definition dquote : ascii := "034".

Definition hex_char (n : nat) : ascii :=
  if n <? 10 then ascii_of_nat (48 + n) else ascii_of_nat (87 + n).

Definition escape_char (c : ascii) : string :=
  let n := nat_of_ascii c in
  if Ascii.eqb c dquote then String "\" (String dquote EmptyString)
  else if Ascii.eqb c "\" then "\\"
  else if n =? 10 then "\n"
  else if n =? 13 then "\r"
  else if n =? 9 then "\t"
  else if n =? 8 then "\b"
  else if n =? 12 then "\f"
  else if (32 <=? n) && (n <=? 126) then String c EmptyString
  else "\u00" +:+ String (hex_char (n / 16)) (String (hex_char (n mod 16)) EmptyString).

Fixpoint escape (s : string) : string :=
  match s with
  | EmptyString => EmptyString
  | String c s' => escape_char c +:+ escape s'
  end.

Definition quoted (s : string) : string :=
  String dquote (escape s +:+ String dquote EmptyString).

Fixpoint join (sep : string) (parts : list string) : string :=
  match parts with
  | [] => EmptyString
  | [p] => p
  | p :: parts' => p +:+ sep +:+ join sep parts'
  end.

Definition Z_to_string (n : Z) : string :=
  DecimalString.NilZero.string_of_int (Z.to_int n).

(** A [float]: [repr] for a finite one, the JavaScript names otherwise. *)
Definition float_text (repr : string) : string :=
  if String.eqb repr "nan" then "NaN"
  else if String.eqb repr "inf" then "Infinity"
  else if String.eqb repr "-inf" then "-Infinity"
  else repr.

Fixpoint json_dumps (v : json) : string :=
  match v with
  | JNull => "null"
  | JBool true => "true"
  | JBool false => "false"
  | JInt n => Z_to_string n
  | JFloat repr => float_text repr
  | JStr s => quoted s
  | JList items => "[" +:+ join ", " (List.map json_dumps items) +:+ "]"
  | JDict entries =>
      "{" +:+ join ", " (List.map (fun kv => quoted (fst kv) +:+ ": " +:+ json_dumps (snd kv))
                                  entries) +:+ "}"
  end.

(** ** The destination row *)

Record Row : Type := mkRow {
  last_updated : json;
  ttl : json;
  version : json;
  data_fetched_at : string;
  date_partition : string;
  stations : string
}.

(** ** What a run does: log records, printed lines and load jobs *)

Inductive level : Type := INFO | WARNING | ERROR.

Inductive message : Type :=
(* prefect_load_station_status.py *)
| FoundLoadedTimestamps (n : nat)
| CouldNotQuery (e : exn)
| NewFileToLoad (filename : string)
| SkippingLoadedFile (filename : string)
| FoundNewFiles (n_new n_all : nat)
| FoundJsonFiles (n : nat)
| TransformedData (timestamp : datetime)
| LoadingRows (n : nat)
| LoadedRows (n : nat)
| StartingPipeline
| NoJsonFilesFound
| NoNewFiles
| FailedToProcess (blob_name : string) (e : exn)
| PipelineComplete (n : nat)
| NoRowsToLoad
(* load_station_status.py *)
| ProcessingFile (i : nat) (blob_name : string)
| ProcessedStations (n : nat)
| ErrorLine (e : exn).

Inductive event : Type :=
| Log (lvl : level) (msg : message)   (* a call of the run logger *)
| Print (msg : message)               (* a call of [print] *)
| LoadJob (rows : list Row).          (* a load job that completed: rows appended *)

(** A computation that logs, may append rows and may raise. *)
Record M (A : Type) : Type := mkM { trace : list event; result : outcome A }.
Arguments mkM {A} trace result.
Arguments trace {A} m.
Arguments result {A} m.

#[global] Instance M_ret : MRet M := fun A a => mkM [] (Returned a).
#[global] Instance M_bind : MBind M := fun A B k m =>
  match result m with
  | Returned a => mkM (trace m ++ trace (k a)) (result (k a))
  | Raised e => mkM (trace m) (Raised e)
  end.

Definition emit (ev : event) : M unit := mkM [ev] (Returned tt).
Definition lift {A} (o : outcome A) : M A := mkM [] o.

(** [try: body  except Exception as e: handler(e)] *)
Definition try_except {A} (body : M A) (handler : exn -> M A) : M A :=
  match result body with
  | Returned a => body
  | Raised e => mkM (trace body ++ trace (handler e)) (result (handler e))
  end.

(** ** The services a run talks to

    Each field is what the call gives in the run at hand.  A task that
    Prefect retries is taken as a whole: the field is the outcome of its
    last attempt, and the attempts before it are taken to have left
    nothing behind (no row, no log record).  The log record of the read
    task ([Downloaded ...]) is not part of the trace. *)
Record Infra : Type := mkInfra {
  (* [bigquery.Client()] and [bq_client.project] in the ledger reader:
     they come before its [try] *)
  bq_client : outcome unit;
  (* [bq_client.query(query)], [query_job.result()] and the fetching of
     the rows: the values of [SELECT DISTINCT data_fetched_at FROM table],
     [None] for NULL *)
  bq_select_distinct : outcome (list (option bq_timestamp));
  (* the names of [bucket.list_blobs(prefix=prefix)] *)
  gcs_list_blobs : outcome (list string);
  (* the task [read_json_from_gcs(bucket_name, blob_name)] as a whole:
     download, [json.loads], retries *)
  read_json_from_gcs : string -> outcome json;
  (* [load_table_from_json(rows, ...)] followed by [job.result()] *)
  bq_load_job : list Row -> outcome unit
}.

(** [len(x)] *)
Definition py_len (v : json) : outcome nat :=
  match v with
  | JList items => Returned (List.length items)
  | JDict entries => Returned (List.length entries)
  | JStr s => Returned (String.length s)
  | _ => Raised TypeError
  end.

(** ** The plain loader, [load_station_status.py] *)

Module Plain.

(** [list_json_files(bucket_name, prefix)] *)
Definition list_json_files (infra : Infra) : M (list string) :=
  names ← lift (gcs_list_blobs infra);
  let json_files := List.filter (fun name => PyStr.endswith name ".json") names in
  emit (Print (FoundJsonFiles (List.length json_files)));;
  mret json_files.

(** [transform_to_bigquery_row(json_data, blob_name)] *)
Definition transform_to_bigquery_row (json_data : json) (blob_name : string) : outcome Row :=
  let filename := filename_of blob_name in
  let timestamp_str :=
    PyStr.replace ".json" EmptyString (PyStr.replace "status_" EmptyString filename) in
  timestamp ← strptime timestamp_str;
  let date_partition := date_isoformat timestamp in
  v_last_updated ← py_get json_data "last_updated" JNull;
  v_ttl ← py_get json_data "ttl" JNull;
  v_version ← py_get json_data "version" JNull;
  v_data ← py_get json_data "data" (JDict []);
  v_stations ← py_get v_data "stations" (JList []);
  Returned (mkRow v_last_updated v_ttl v_version
                  (isoformat timestamp) date_partition (json_dumps v_stations)).

(** [load_to_bigquery(rows, dataset_id, table_id)] *)
Definition load_to_bigquery (infra : Infra) (rows : list Row) : M unit :=
  emit (Print (LoadingRows (List.length rows)));;
  lift (bq_load_job infra rows);;
  emit (LoadJob rows);;
  emit (Print (LoadedRows (List.length rows))).

(** The body of the [for] loop of [main]: [all_rows] is the list the
    loop appends to. *)
Definition process_file (infra : Infra) (i : nat) (blob_name : string)
    (all_rows : list Row) : M (list Row) :=
  emit (Print (ProcessingFile i blob_name));;
  match read_json_from_gcs infra blob_name with
  | Raised e => emit (Print (ErrorLine e));; mret all_rows
  | Returned json_data =>
      match transform_to_bigquery_row json_data blob_name with
      | Raised e => emit (Print (ErrorLine e));; mret all_rows
      | Returned row =>
          (* the row is appended before the line that reports it is built *)
          let all_rows := all_rows ++ [row] in
          match (v_data ← py_get json_data "data" (JDict []);
                 v_stations ← py_get v_data "stations" (JList []);
                 py_len v_stations) with
          | Raised e => emit (Print (ErrorLine e));; mret all_rows
          | Returned n => emit (Print (ProcessedStations n));; mret all_rows
          end
      end
  end.

Fixpoint process_files (infra : Infra) (i : nat) (json_files : list string)
    (all_rows : list Row) : M (list Row) :=
  match json_files with
  | [] => mret all_rows
  | blob_name :: rest =>
      all_rows ← process_file infra i blob_name all_rows;
      process_files infra (S i) rest all_rows
  end.

(** [main()] *)
Definition main (infra : Infra) : M unit :=
  emit (Print StartingPipeline);;
  json_files ← list_json_files infra;
  match json_files with
  | [] => emit (Print NoJsonFilesFound)
  | _ =>
      all_rows ← process_files infra 1 json_files [];
      match all_rows with
      | [] => emit (Print NoRowsToLoad)
      | _ => load_to_bigquery infra all_rows;;
             emit (Print (PipelineComplete (List.length all_rows)))
      end
  end.

End Plain.

(** ** The orchestrated loader, [prefect_load_station_status.py] *)

Module Prefect.

(** [row.data_fetched_at.strftime("%Y%m%d_%H%M%S")]: a NULL value is
    [None], which has no method [strftime]. *)
Definition row_timestamp_str (data_fetched_at : option bq_timestamp) : outcome string :=
  match data_fetched_at with
  | None => Raised AttributeError
  | Some value => Returned (strftime (to_second value))
  end.

(** The [for] loop of [get_already_loaded_timestamps];
    [loaded_timestamps] is the set the loop adds to. *)
Fixpoint add_loaded_timestamps (results : list (option bq_timestamp))
    (loaded_timestamps : gset string) : outcome (gset string) :=
  match results with
  | [] => Returned loaded_timestamps
  | row :: rest =>
      timestamp_str ← row_timestamp_str row;
      add_loaded_timestamps rest (loaded_timestamps ∪ {[ timestamp_str ]})
  end.

(** [get_already_loaded_timestamps(dataset_id, table_id)].  The client
    is built before the [try]: what that raises is not caught.  Whatever
    the query or the loop raises is. *)
Definition get_already_loaded_timestamps (infra : Infra) : M (gset string) :=
  lift (bq_client infra);;
  try_except
    (results ← lift (bq_select_distinct infra);
     loaded_timestamps ← lift (add_loaded_timestamps results ∅);
     emit (Log INFO (FoundLoadedTimestamps (size loaded_timestamps)));;
     mret loaded_timestamps)
    (fun e => emit (Log WARNING (CouldNotQuery e));; mret ∅).

(** The [for] loop of [filter_new_files]; [new_files] is the list the
    loop appends to. *)
Fixpoint filter_loop (files : list string) (loaded_timestamps : gset string)
    (new_files : list string) : M (list string) :=
  match files with
  | [] => mret new_files
  | blob_name :: rest =>
      let filename := filename_of blob_name in
      let timestamp_str :=
    PyStr.replace ".json" EmptyString (PyStr.replace "status_" EmptyString filename) in
      if bool_decide (timestamp_str ∉ loaded_timestamps) then
        emit (Log INFO (NewFileToLoad filename));;
        filter_loop rest loaded_timestamps (new_files ++ [blob_name])
      else
        emit (Log INFO (SkippingLoadedFile filename));;
        filter_loop rest loaded_timestamps new_files
  end.

(** [filter_new_files(all_files, loaded_timestamps)] *)
Definition filter_new_files (all_files : list string) (loaded_timestamps : gset string)
  : M (list string) :=
  new_files ← filter_loop all_files loaded_timestamps [];
  emit (Log INFO (FoundNewFiles (List.length new_files) (List.length all_files)));;
  mret new_files.

(** [list_json_files(bucket_name, prefix)] *)
Definition list_json_files (infra : Infra) : M (list string) :=
  names ← lift (gcs_list_blobs infra);
  let json_files := List.filter (fun name => PyStr.endswith name ".json") names in
  emit (Log INFO (FoundJsonFiles (List.length json_files)));;
  mret json_files.

(** [transform_to_bigquery_row(json_data, blob_name)] *)
Definition transform_to_bigquery_row (json_data : json) (blob_name : string) : M Row :=
  let filename := filename_of blob_name in
  let timestamp_str :=
    PyStr.replace ".json" EmptyString (PyStr.replace "status_" EmptyString filename) in
  timestamp ← lift (strptime timestamp_str);
  let date_partition := date_isoformat timestamp in
  v_last_updated ← lift (py_get json_data "last_updated" JNull);
  v_ttl ← lift (py_get json_data "ttl" JNull);
  v_version ← lift (py_get json_data "version" JNull);
  v_data ← lift (py_get json_data "data" (JDict []));
  v_stations ← lift (py_get v_data "stations" (JList []));
  let row := mkRow v_last_updated v_ttl v_version
                   (isoformat timestamp) date_partition (json_dumps v_stations) in
  emit (Log INFO (TransformedData timestamp));;
  mret row.

(** [load_to_bigquery(rows, dataset_id, table_id)] *)
Definition load_to_bigquery (infra : Infra) (rows : list Row) : M unit :=
  emit (Log INFO (LoadingRows (List.length rows)));;
  lift (bq_load_job infra rows);;
  emit (LoadJob rows);;
  emit (Log INFO (LoadedRows (List.length rows))).

(** The body of the [for] loop of the flow: read, transform and append,
    with the [except Exception] clause around the three.  [all_rows] is
    the list the loop appends to. *)
Definition process_file (infra : Infra) (blob_name : string) (all_rows : list Row)
  : M (list Row) :=
  try_except
    (json_data ← lift (read_json_from_gcs infra blob_name);
     row ← transform_to_bigquery_row json_data blob_name;
     mret (all_rows ++ [row]))
    (fun e => emit (Log ERROR (FailedToProcess blob_name e));; mret all_rows).

Fixpoint process_files (infra : Infra) (new_files : list string) (all_rows : list Row)
  : M (list Row) :=
  match new_files with
  | [] => mret all_rows
  | blob_name :: rest =>
      all_rows ← process_file infra blob_name all_rows;
      process_files infra rest all_rows
  end.

(** [load_station_status_flow()] *)
Definition load_station_status_flow (infra : Infra) : M unit :=
  emit (Log INFO StartingPipeline);;
  loaded_timestamps ← get_already_loaded_timestamps infra;
  all_files ← list_json_files infra;
  match all_files with
  | [] => emit (Log WARNING NoJsonFilesFound)
  | _ =>
      new_files ← filter_new_files all_files loaded_timestamps;
      match new_files with
      | [] => emit (Log INFO NoNewFiles)
      | _ =>
          all_rows ← process_files infra new_files [];
          match all_rows with
          | [] => emit (Log WARNING NoRowsToLoad)
          | _ => load_to_bigquery infra all_rows;;
                 emit (Log INFO (PipelineComplete (List.length all_rows)))
          end
      end
  end.

End Prefect.

(** ** What a run reports

    The flow returns nothing: what a run reports is what it logs.  The
    summary of a run reads the counts off its trace: the candidates are
    the files the filter was given, the loaded rows are those of the load
    jobs, and the skipped items are the items whose processing failed. *)

Definition loaded_rows (tr : list event) : list Row :=
  flat_map (fun ev => match ev with LoadJob rows => rows | _ => [] end) tr.

Definition failed_items (tr : list event) : list string :=
  flat_map (fun ev => match ev with
                      | Log ERROR (FailedToProcess blob_name _) => [blob_name]
                      | _ => []
                      end) tr.

Definition candidate_count (tr : list event) : nat :=
  list_sum (List.map (fun ev => match ev with
                                | Log INFO (FoundNewFiles _ n_all) => n_all
                                | _ => 0
                                end) tr).

Record Report : Type := mkReport { candidates : nat; loaded : nat; skipped : nat }.

Definition report_of (tr : list event) : Report :=
  mkReport (candidate_count tr) (List.length (loaded_rows tr)) (List.length (failed_items tr)).

(** ** The store and the destination table *)

Module System.

(** The snapshot store: the objects under the prefix, each with what
    reading it gives (the parsed document, or the exception of a corrupt
    object). *)
Definition Store : Type := list (string * outcome json).

Fixpoint read_object (store : Store) (blob_name : string) : outcome json :=
  match store with
  | [] => Raised NotFound
  | (name, content) :: store' =>
      if String.eqb name blob_name then content else read_object store' blob_name
  end.

(** The destination table: absent, or its rows.  The rows that load
    jobs appended are kept as the JSON rows that were loaded.  Of any
    other row of the table only the [data_fetched_at] value is kept (NULL
    or a timestamp, with its microseconds): it is the only column the
    loaders ever read. *)
Record Contents : Type := mkContents {
  other_values : list (option bq_timestamp);
  appended : list Row
}.

Definition Table : Type := option Contents.

Definition rows_in (table : Table) : list Row :=
  match table with
  | None => []
  | Some contents => appended contents
  end.

(** How a [TIMESTAMP] column reads the text [YYYY-MM-DDTHH:MM:SS]. *)
Definition parse_timestamp (s : string) : option datetime :=
  match match_classes [digit; digit; digit; digit; exactly "-"; digit; digit;
                       exactly "-"; digit; digit; exactly "T"; digit; digit;
                       exactly ":"; digit; digit; exactly ":"; digit; digit] s with
  | Some (_, EmptyString) =>
      let t := mkDatetime (int_of (String.substring 0 4 s))
                          (int_of (String.substring 5 2 s))
                          (int_of (String.substring 8 2 s))
                          (int_of (String.substring 11 2 s))
                          (int_of (String.substring 14 2 s))
                          (int_of (String.substring 17 2 s)) in
      if valid_datetime t then Some t else None
  | _ => None
  end.

#[global] Instance datetime_eq_dec : EqDecision datetime.
Proof. solve_decision. Defined.

#[global] Instance bq_timestamp_eq_dec : EqDecision bq_timestamp.
Proof. solve_decision. Defined.

(** The value the column holds for an appended row.  (A text that is
    not a timestamp cannot be loaded into the column; in a table given
    with such a row the row counts as one without a value.) *)
Definition value_of (row : Row) : option bq_timestamp :=
  (fun t => mkTimestamp t 0) <$> parse_timestamp (data_fetched_at row).

(** The [data_fetched_at] values of the table, row by row. *)
Definition values_in (table : Table) : list (option bq_timestamp) :=
  match table with
  | None => []
  | Some contents => other_values contents ++ (value_of <$> appended contents)
  end.

(** [SELECT DISTINCT data_fetched_at FROM table] *)
Definition select_distinct_data_fetched_at (table : Table)
  : outcome (list (option bq_timestamp)) :=
  match table with
  | None => Raised NotFound
  | Some _ => Returned (remove_dups (values_in table))
  end.

(** The services of a run in which nothing fails but what the store and
    the table make fail: a missing table, a NULL value, a corrupt
    object. *)
Definition infra_of (store : Store) (table : Table) : Infra :=
  mkInfra (Returned tt)
          (select_distinct_data_fetched_at table)
          (Returned (List.map fst store))
          (read_object store)
          (fun _ => Returned tt).

(** [WRITE_APPEND]: a load job creates the table when it is absent and
    appends to it otherwise. *)
Definition append_rows (table : Table) (rows : list Row) : Table :=
  match table with
  | None => Some (mkContents [] rows)
  | Some contents => Some (mkContents (other_values contents) (appended contents ++ rows))
  end.

Definition apply_trace (table : Table) (tr : list event) : Table :=
  foldl (fun tb ev => match ev with LoadJob rows => append_rows tb rows | _ => tb end)
        table tr.

(** One run of the flow against the store and the table: the trace of
    the run and the table it leaves. *)
Definition run (store : Store) (table : Table) : M unit * Table :=
  let m := Prefect.load_station_status_flow (infra_of store table) in
  (m, apply_trace table (trace m)).

End System.

(** ** Predicates used in the statements *)

Fixpoint all_chars (P : ascii -> bool) (s : string) : bool :=
  match s with
  | EmptyString => true
  | String c s' => P c && all_chars P s'
  end.

Definition is_not (a : ascii) : ascii -> bool := fun c => negb (Ascii.eqb c a).

Definition timestamp_char : ascii -> bool := fun c => digit c || exactly "_" c.

(** What processing one item gives: the row, or the exception of the read
    or of the transformation. *)
Definition item_outcome (infra : Infra) (blob_name : string) : outcome Row :=
  json_data ← read_json_from_gcs infra blob_name;
  Plain.transform_to_bigquery_row json_data blob_name.

Definition rows_of (outcomes : list (outcome Row)) : list Row :=
  flat_map (fun o => match o with Returned row => [row] | Raised _ => [] end) outcomes.

(** The ledger a run works with: what the ledger reader returns.  (A
    run whose reader raises stops there and works with none; the empty
    set stands for it.) *)
Definition ledger_of (infra : Infra) : gset string :=
  match result (Prefect.get_already_loaded_timestamps infra) with
  | Returned loaded_timestamps => loaded_timestamps
  | Raised _ => ∅
  end.

(** The files the lister keeps. *)
Definition json_files_of (names : list string) : list string :=
  List.filter (fun name => PyStr.endswith name ".json") names.

(** The item fails. *)
Definition fails (infra : Infra) (blob_name : string) : bool :=
  negb (returned (item_outcome infra blob_name)).

(** The WorkSet of a run: what the flow computes before it processes
    anything. *)
Definition work_set (infra : Infra) : M (list string) :=
  loaded_timestamps ← Prefect.get_already_loaded_timestamps infra;
  all_files ← Prefect.list_json_files infra;
  Prefect.filter_new_files all_files loaded_timestamps.

(** The flow from the WorkSet on: process every item, then load. *)
Definition load_phase (infra : Infra) (new_files : list string) : M unit :=
  all_rows ← Prefect.process_files infra new_files [];
  match all_rows with
  | [] => emit (Log WARNING NoRowsToLoad)
  | _ => Prefect.load_to_bigquery infra all_rows;;
         emit (Log INFO (PipelineComplete (List.length all_rows)))
  end.

(** An event that is neither a load job, nor the report of a failed
    item, nor the count of the candidates. *)
Definition silent (ev : event) : bool :=
  match ev with
  | LoadJob _ => false
  | Log ERROR (FailedToProcess _ _) => false
  | Log INFO (FoundNewFiles _ _) => false
  | _ => true
  end.

(** The key is new to the ledger. *)
Definition not_loaded (loaded_timestamps : gset string) (blob_name : string) : bool :=
  bool_decide (timestamp_str_of blob_name ∉ loaded_timestamps).

(** [d.get(k)] on the entries of a [dict]. *)
Definition get_or_null (entries : list (string * json)) (k : string) : json :=
  match assoc k entries with Some v => v | None => JNull end.

(** The [data] entry is absent or is itself a [dict]. *)
Definition data_is_dict (entries : list (string * json)) : bool :=
  match assoc "data" entries with
  | None | Some (JDict _) => true
  | Some _ => false
  end.

(** What [json_data.get("data", {}).get("stations", [])] gives when the
    [data] entry is absent or a [dict]. *)
Definition stations_of (entries : list (string * json)) : json :=
  match assoc "data" entries with
  | Some (JDict d) => match assoc "stations" d with Some v => v | None => JList [] end
  | _ => JList []
  end.

(** ** The collector, [cloud_function/main.py] *)

(** [bool(v)] for a value [json.loads] can return. *)
Definition truthy (v : json) : bool :=
  match v with
  | JNull => false
  | JBool b => b
  | JInt n => negb (Z.eqb n 0)
  | JFloat repr => negb (String.eqb repr "0.0" || String.eqb repr "-0.0")
  | JStr s => negb (String.eqb s EmptyString)
  | JList items => match items with [] => false | _ :: _ => true end
  | JDict entries => match entries with [] => false | _ :: _ => true end
  end.

Module Collector.

Definition bucket_name : string := "urban-mobility-data-lake-jol-dec-2025".
Definition station_status_url : string :=
  "https://gbfs.lyft.com/gbfs/2.3/bkn/en/station_status.json".

(** The lines the collector prints. *)
Inductive line : Type :=
| StartingCollection
| FetchingStatus
| ErrorFetching (url : string) (e : exn)
| UploadedData (blob_name bucket : string)
| ErrorUploading (e : exn)
| Collected (num_stations : nat) (timestamp : string).

Inductive event : Type :=
| Printed (l : line)
(* an [upload_from_string] that completed: the object is in the bucket *)
| Upload (bucket blob_name data : string).

(** The services of one call. *)
Record Services : Type := mkServices {
  (* [requests.get(url, timeout=20)], [raise_for_status()], [response.json()] *)
  http_get_json : string -> outcome json;
  (* [bucket.blob(blob_name).upload_from_string(data, ...)] *)
  upload_from_string : string -> string -> string -> outcome unit
}.

(** What the function returns: the success dictionary, or an error
    dictionary with the status 500. *)
Inductive response : Type :=
| Success (num_stations : nat) (timestamp : string)
| ServerError (message : string).

(** [fetch_station_data(url)]: the document, or [None] when anything
    raises. *)
Definition fetch_station_data (svc : Services) (url : string) : list event * json :=
  match http_get_json svc url with
  | Returned document => ([], document)
  | Raised e => ([Printed (ErrorFetching url e)], JNull)
  end.

(** [upload_to_gcs(bucket_name, data, blob_name)]: [True] when the
    object was written, [False] when anything raises. *)
Definition upload_to_gcs (svc : Services) (bucket : string) (data : json)
    (blob_name : string) : list event * bool :=
  match upload_from_string svc bucket blob_name (json_dumps data) with
  | Returned _ =>
      ([Upload bucket blob_name (json_dumps data); Printed (UploadedData blob_name bucket)],
       true)
  | Raised e => ([Printed (ErrorUploading e)], false)
  end.

(** [collect_bike_data(request)].  The clock is read twice: [now_1]
    gives the timestamp of the file name and [now_2] the date label of
    the path (each reading taken to the second, which is all the two
    formats print). *)
Definition collect_bike_data (svc : Services) (now_1 now_2 : datetime)
  : list event * outcome response :=
  let timestamp := strftime now_1 in
  let date_partition := strftime_date now_2 in
  let (tr_fetch, status_data) := fetch_station_data svc station_status_url in
  let tr := [Printed StartingCollection; Printed FetchingStatus] ++ tr_fetch in
  if truthy status_data then
    let blob_name := collector_blob_name date_partition timestamp in
    let (tr_upload, success) := upload_to_gcs svc bucket_name status_data blob_name in
    if success then
      match (v_data ← py_get status_data "data" (JDict []);
             v_stations ← py_get v_data "stations" (JList []);
             py_len v_stations) with
      | Returned num_stations =>
          (tr ++ tr_upload ++ [Printed (Collected num_stations timestamp)],
           Returned (Success num_stations timestamp))
      | Raised e => (tr ++ tr_upload, Raised e)
      end
    else (tr ++ tr_upload, Returned (ServerError "Failed to upload to Cloud Storage"))
  else (tr, Returned (ServerError "Failed to fetch data from API")).

(** The objects a call wrote. *)
Definition uploads (tr : list event) : list (string * string * string) :=
  flat_map (fun ev => match ev with
                      | Upload bucket blob_name data => [(bucket, blob_name, data)]
                      | Printed _ => []
                      end) tr.

End Collector.

(** ** More on runs *)

(** The batches of the load jobs of a trace, one per job. *)
Definition load_jobs (tr : list event) : list (list Row) :=
  flat_map (fun ev => match ev with LoadJob rows => [rows] | _ => [] end) tr.

(** The error lines the plain loader printed. *)
Definition error_lines (tr : list event) : list exn :=
  flat_map (fun ev => match ev with Print (ErrorLine e) => [e] | _ => [] end) tr.

(** One run of the plain loader against the store and the table. *)
Definition run_plain (store : System.Store) (table : System.Table) : M unit * System.Table :=
  let m := Plain.main (System.infra_of store table) in
  (m, System.apply_trace table (trace m)).

(** Two services agree on the reads of the given keys and on everything
    else. *)
Definition same_but_reads (infra1 infra2 : Infra) : Prop :=
  bq_client infra1 = bq_client infra2 /\
  bq_select_distinct infra1 = bq_select_distinct infra2 /\
  gcs_list_blobs infra1 = gcs_list_blobs infra2 /\
  (forall rows, bq_load_job infra1 rows = bq_load_job infra2 rows).

(** The WorkSet and the batch of a run, as functions of the listing. *)
Definition work_set_of (infra : Infra) (names : list string) : list string :=
  List.filter (not_loaded (ledger_of infra)) (json_files_of names).

Definition batch_of (infra : Infra) (names : list string) : list Row :=
  rows_of (List.map (item_outcome infra) (work_set_of infra names)).

(** ** Sample data *)

Definition key_1430 : string := collector_blob_name "2026-01-02" "20260102_143000".
Definition key_1500 : string := collector_blob_name "2026-01-02" "20260102_150000".
Definition key_1530 : string := collector_blob_name "2026-01-02" "20260102_153000".

Definition sample_document : json :=
  JDict [("data", JDict [("stations", JList [])]);
         ("last_updated", JInt 1767366000); ("ttl", JInt 60); ("version", JStr "2.3")].

(** Three snapshots, the second of which is corrupt; no table yet. *)
Definition sample_infra : Infra :=
  mkInfra (Returned tt) (Raised NotFound)
          (Returned [key_1430; key_1500; key_1530])
          (fun blob_name => if String.eqb blob_name key_1500 then Raised JSONDecodeError
                            else Returned sample_document)
          (fun _ => Returned tt).

(** One snapshot only, and it is corrupt. *)
Definition lone_corrupt_infra : Infra :=
  mkInfra (Returned tt) (Raised NotFound) (Returned [key_1500])
          (fun _ => Raised JSONDecodeError) (fun _ => Returned tt).

(** The same three snapshots as a store. *)
Definition sample_store : System.Store :=
  [(key_1430, Returned sample_document); (key_1500, Raised JSONDecodeError);
   (key_1530, Returned sample_document)].

(** A store with one key whose month and day are written [012] for
    [01] and [02]: off the grammar, yet [strptime] reads it as
    2026-01-02 (the leading zero of [%d] is optional when parsing). *)
Definition unpadded_store : System.Store :=
  [("raw/station_status/status_2026012_143000.json", Returned sample_document)].

(** A store with one key of the year 999, written with all its digits:
    the name follows the grammar. *)
Definition short_year_store : System.Store :=
  [("raw/station_status/status_09990102_143000.json", Returned sample_document)].

(** A store with one snapshot of the collector. *)
Definition one_key_store : System.Store := [(key_1430, Returned sample_document)].

(** A table whose only row has no [data_fetched_at]. *)
Definition null_table : System.Table := Some (System.mkContents [None] []).

(** One snapshot in a run whose ledger query fails. *)
Definition query_down_infra : Infra :=
  mkInfra (Returned tt) (Raised ServiceUnavailable) (Returned [key_1430])
          (fun _ => Returned sample_document) (fun _ => Returned tt).

(** * Properties *)

(** ** The monad *)

Lemma trace_bind {A B} (m : M A) (k : A -> M B) a :
  result m = Returned a -> trace (m ≫= k) = trace m ++ trace (k a).
Proof. intros H. unfold mbind, M_bind. now rewrite H. Qed.

Lemma result_bind {A B} (m : M A) (k : A -> M B) a :
  result m = Returned a -> result (m ≫= k) = result (k a).
Proof. intros H. unfold mbind, M_bind. now rewrite H. Qed.

Lemma bind_raised {A B} (m : M A) (k : A -> M B) e :
  result m = Raised e -> m ≫= k = mkM (trace m) (Raised e).
Proof. intros H. unfold mbind, M_bind. now rewrite H. Qed.

(** ** Strings *)

Lemma all_chars_app P s1 s2 :
  all_chars P (s1 +:+ s2) = all_chars P s1 && all_chars P s2.
Proof.
  induction s1 as [|c s1 IH]; simpl; [reflexivity|].
  now rewrite IH, andb_assoc.
Qed.

Lemma all_chars_impl (P Q : ascii -> bool) s :
  (forall c, P c = true -> Q c = true) -> all_chars P s = true -> all_chars Q s = true.
Proof.
  intros HPQ. induction s as [|c s IH]; simpl; [reflexivity|].
  intros [Hc Hs]%andb_prop. now rewrite (HPQ c Hc), IH.
Qed.

Lemma split_nonempty sep s : PyStr.split sep s <> [].
Proof.
  destruct s as [|c s]; simpl; [discriminate|].
  destruct (Ascii.eqb c sep); [discriminate|].
  destruct (PyStr.split sep s); discriminate.
Qed.

(** A string without the separator is its own single segment. *)
Lemma split_free sep s :
  all_chars (is_not sep) s = true -> PyStr.split sep s = [s].
Proof.
  induction s as [|c s IH]; simpl; [reflexivity|].
  unfold is_not at 1. intros [Hc Hs]%andb_prop.
  apply negb_true_iff in Hc. rewrite Hc, (IH Hs). reflexivity.
Qed.

(** Splitting [dir/name] gives segments of [dir] and then those of [name]. *)
Lemma split_app sep dir name :
  exists seg segs,
    PyStr.split sep (dir +:+ String sep name) = (seg :: segs) ++ PyStr.split sep name.
Proof.
  induction dir as [|c dir (seg & segs & IH)]; simpl.
  - rewrite Ascii.eqb_refl. now exists EmptyString, [].
  - rewrite IH. destruct (Ascii.eqb c sep).
    + now exists EmptyString, (seg :: segs).
    + now exists (String c seg), segs.
Qed.

Lemma last_item_app xs ys :
  ys <> [] -> PyStr.last_item (xs ++ ys) = PyStr.last_item ys.
Proof.
  intros Hys. unfold PyStr.last_item.
  induction xs as [|x xs IH]; simpl; [reflexivity|].
  rewrite IH. destruct (xs ++ ys) eqn:E; [|reflexivity].
  apply app_eq_nil in E as [_ ->]. contradiction.
Qed.

(** The last segment of [dir/name] is the last segment of [name]. *)
Lemma last_split_app sep dir name :
  PyStr.last_item (PyStr.split sep (dir +:+ String sep name)) =
  PyStr.last_item (PyStr.split sep name).
Proof.
  destruct (split_app sep dir name) as (seg & segs & ->).
  apply last_item_app, split_nonempty.
Qed.

Lemma filename_of_dir dir name :
  all_chars (is_not "/") name = true ->
  filename_of (dir +:+ String "/" name) = name.
Proof.
  intros H. unfold filename_of. rewrite last_split_app, (split_free _ _ H). reflexivity.
Qed.

Lemma filename_of_bare name :
  all_chars (is_not "/") name = true -> filename_of name = name.
Proof. intros H. unfold filename_of. now rewrite (split_free _ _ H). Qed.

(** [replace] leaves alone a stretch in which the first character of
    [old] does not occur. *)
Lemma replace_free a old new s rest :
  all_chars (is_not a) s = true ->
  PyStr.replace_from (String a old) new 0 (s +:+ rest) =
  s +:+ PyStr.replace_from (String a old) new 0 rest.
Proof.
  induction s as [|c s IH]; simpl; [reflexivity|].
  unfold is_not at 1. intros [Hc Hs]%andb_prop. apply negb_true_iff in Hc.
  destruct (ascii_dec a c) as [->|_].
  - now rewrite Ascii.eqb_refl in Hc.
  - now rewrite (IH Hs).
Qed.

(** ** Character classes *)

Lemma match_classes_sound (Q : ascii -> bool) cs :
  Forall (fun cl : char_class => forall c, cl c = true -> Q c = true) cs ->
  forall s txt rest,
    match_classes cs s = Some (txt, rest) ->
    s = txt +:+ rest /\ all_chars Q txt = true /\ String.length txt = List.length cs.
Proof.
  induction 1 as [|cl cs Hcl _ IH]; intros s txt rest Hm; simpl in Hm.
  - injection Hm as <- <-. auto.
  - destruct s as [|c s]; [discriminate|].
    destruct (cl c) eqn:Ec; [|discriminate].
    destruct (match_classes cs s) as [[txt' rest']|] eqn:E; [|discriminate].
    injection Hm as <- <-.
    destruct (IH _ _ _ E) as (-> & Hall & Hlen).
    simpl. rewrite (Hcl c Ec), Hall, Hlen. auto.
Qed.

Lemma timestamp_char_not (a : ascii) :
  timestamp_char a = false -> forall c, timestamp_char c = true -> is_not a c = true.
Proof.
  intros Ha c Hc. unfold is_not. apply negb_true_iff.
  destruct (Ascii.eqb c a) eqn:E; [|reflexivity].
  apply Ascii.eqb_eq in E. congruence.
Qed.

Lemma timestamp_shaped_chars t :
  timestamp_shaped t = true -> all_chars timestamp_char t = true.
Proof.
  unfold timestamp_shaped.
  destruct (match_classes timestamp_layout t) as [[txt [|]]|] eqn:E; try discriminate.
  intros _.
  apply (match_classes_sound timestamp_char) in E as (-> & Hall & _).
  - rewrite all_chars_app, Hall. reflexivity.
  - unfold timestamp_layout, timestamp_char.
    repeat constructor; intros c Hc; rewrite Hc; auto using orb_true_r.
Qed.

Lemma append_empty_r s : s +:+ EmptyString = s.
Proof. induction s as [|c s IH]; simpl; [reflexivity | now rewrite IH]. Qed.

Lemma append_assoc s1 s2 s3 : (s1 +:+ s2) +:+ s3 = s1 +:+ (s2 +:+ s3).
Proof. induction s1 as [|c s1 IH]; simpl; [reflexivity | now rewrite IH]. Qed.

Lemma prefix_empty s : String.prefix EmptyString s = true.
Proof. destruct s; reflexivity. Qed.

(** The extraction on a name built around a string of timestamp
    characters. *)
Lemma extract_status_name t :
  all_chars timestamp_char t = true ->
  PyStr.replace ".json" EmptyString
    (PyStr.replace "status_" EmptyString ("status_" +:+ t +:+ ".json")) = t.
Proof.
  intros Ht. unfold PyStr.replace. simpl.
  rewrite (replace_free "s" "tatus_" EmptyString t ".json").
  2:{ revert Ht. apply all_chars_impl, timestamp_char_not. reflexivity. }
  simpl. rewrite prefix_empty.
  rewrite (replace_free "." "json" EmptyString t ".json").
  2:{ revert Ht. apply all_chars_impl, timestamp_char_not. reflexivity. }
  simpl. apply append_empty_r.
Qed.

Lemma status_name_no_slash t :
  all_chars timestamp_char t = true ->
  all_chars (is_not "/") ("status_" +:+ t +:+ ".json") = true.
Proof.
  intros Ht. simpl. rewrite all_chars_app. simpl.
  rewrite andb_true_r. revert Ht. apply all_chars_impl, timestamp_char_not. reflexivity.
Qed.

(** C6. Filename grammar round trip: for every string [t] of the shape
    [YYYYMMDD_HHMMSS] (so for every timestamp that matches the grammar),
    the key [status_<t>.json], bare, under any directory path [dir/], or
    under the collector's path for any date label, gives back exactly [t]
    when its last path segment is stripped of [status_] and [.json]. *)
Theorem filename_grammar_round_trip (t : string) :
  timestamp_shaped t = true ->
  timestamp_str_of ("status_" +:+ t +:+ ".json") = t /\
  (forall dir, timestamp_str_of (dir +:+ "/status_" +:+ t +:+ ".json") = t) /\
  (forall date_label, timestamp_str_of (collector_blob_name date_label t) = t).
Proof.
  intros Ht%timestamp_shaped_chars.
  assert (Hdir : forall dir, timestamp_str_of (dir +:+ "/status_" +:+ t +:+ ".json") = t).
  { intros dir. unfold timestamp_str_of.
    change (dir +:+ "/status_" +:+ t +:+ ".json")
      with (dir +:+ String "/" ("status_" +:+ t +:+ ".json")).
    rewrite filename_of_dir by now apply status_name_no_slash.
    now apply extract_status_name. }
  split; [|split].
  - unfold timestamp_str_of.
    rewrite filename_of_bare by now apply status_name_no_slash.
    now apply extract_status_name.
  - exact Hdir.
  - intros date_label. unfold collector_blob_name.
    rewrite <- (Hdir ("raw/station_status/date=" +:+ date_label)) at 2.
    now rewrite append_assoc.
Qed.

Lemma filename_grammar_round_trip_witness :
  timestamp_shaped "20260102_143000" = true /\
  timestamp_str_of "raw/station_status/date=2026-01-02/status_20260102_143000.json"
  = "20260102_143000".
Proof.
  split; [reflexivity|].
  exact (proj2 (proj2 (filename_grammar_round_trip "20260102_143000" eq_refl)) "2026-01-02").
Defined.

(** ** Decimal digits *)

Lemma digit_cases (P : nat -> Prop) :
  P 0 -> P 1 -> P 2 -> P 3 -> P 4 -> P 5 -> P 6 -> P 7 -> P 8 -> P 9 ->
  forall n, n < 10 -> P n.
Proof.
  intros H0 H1 H2 H3 H4 H5 H6 H7 H8 H9 n Hn.
  do 10 (destruct n as [|n]; [assumption|]). lia.
Qed.

Lemma digit_digit_char n : n < 10 -> digit (digit_char n) = true.
Proof. revert n. apply digit_cases; reflexivity. Qed.

Lemma val_digit_char n : n < 10 -> nat_of_ascii (digit_char n) - 48 = n.
Proof. revert n. apply digit_cases; reflexivity. Qed.

Lemma digit_inv c : digit c = true -> exists n, n < 10 /\ c = digit_char n.
Proof.
  intros H. exists (nat_of_ascii c - 48).
  destruct c as [[] [] [] [] [] [] [] []]; try discriminate H;
    (split; [vm_compute; lia | reflexivity]).
Qed.

Lemma int_of_from_digit acc n rest :
  n < 10 -> int_of_from acc (String (digit_char n) rest) = int_of_from (10 * acc + n) rest.
Proof.
  intros Hn. cbn [int_of_from]. now rewrite digit_digit_char, val_digit_char.
Qed.

Lemma split2 n :
  n < 100 ->
  n / 10 mod 10 < 10 /\ n mod 10 < 10 /\ 10 * (n / 10 mod 10) + n mod 10 = n.
Proof.
  intros Hn.
  pose proof (Nat.div_mod_eq n 10). pose proof (Nat.mod_upper_bound n 10).
  pose proof (Nat.mod_upper_bound (n / 10) 10).
  assert (n / 10 < 10) by (apply Nat.Div0.div_lt_upper_bound; lia).
  rewrite (Nat.mod_small (n / 10) 10) by assumption. lia.
Qed.

Lemma int_of_pad2 n : n < 100 -> int_of (pad2 n EmptyString) = n.
Proof.
  intros Hn. destruct (split2 n Hn) as (Ha & Hb & Heq).
  unfold int_of, pad2. rewrite !int_of_from_digit by assumption.
  cbn [int_of_from]. lia.
Qed.

Lemma split4 n :
  n <= MAXYEAR ->
  n / 1000 mod 10 < 10 /\ n / 100 mod 10 < 10 /\ n / 10 mod 10 < 10 /\ n mod 10 < 10 /\
  1000 * (n / 1000 mod 10) + 100 * (n / 100 mod 10) + 10 * (n / 10 mod 10) + n mod 10 = n.
Proof.
  unfold MAXYEAR. intros Hn.
  assert (E1 : n / 10 / 10 = n / 100) by (now rewrite Nat.Div0.div_div).
  assert (E2 : n / 100 / 10 = n / 1000) by (now rewrite Nat.Div0.div_div).
  pose proof (Nat.mod_upper_bound (n / 1000) 10).
  pose proof (Nat.mod_upper_bound (n / 100) 10).
  pose proof (Nat.mod_upper_bound (n / 10) 10).
  pose proof (Nat.mod_upper_bound n 10).
  pose proof (Nat.div_mod_eq n 10).
  pose proof (Nat.div_mod_eq (n / 10) 10).
  pose proof (Nat.div_mod_eq (n / 100) 10).
  assert (n / 1000 < 10) by (apply Nat.Div0.div_lt_upper_bound; lia).
  rewrite (Nat.mod_small (n / 1000) 10) by assumption.
  rewrite E1, E2 in *. lia.
Qed.

Lemma int_of_pad4 n : n <= MAXYEAR -> int_of (pad4 n EmptyString) = n.
Proof.
  intros Hn. destruct (split4 n Hn) as (Ha & Hb & Hc & Hd & Heq).
  unfold int_of, pad4, pad2. rewrite !int_of_from_digit by assumption.
  cbn [int_of_from]. lia.
Qed.

(** ** [strptime] on zero-padded text *)

Lemma first_success_head {A B} (a : A) (l : list A) (k : A -> option B) b :
  k a = Some b -> first_success (a :: l) k = Some b.
Proof. intros H. simpl. now rewrite H. Qed.

Lemma pad2_digits a b k :
  a < 10 -> b < 10 ->
  pad2 (10 * a + b) k = String (digit_char a) (String (digit_char b) k).
Proof.
  intros Ha Hb. unfold pad2.
  assert ((10 * a + b) / 10 = a) as -> by (symmetry; apply (Nat.div_unique _ 10 a b); lia).
  assert ((10 * a + b) mod 10 = b) as -> by (symmetry; apply (Nat.mod_unique _ 10 a b); lia).
  now rewrite Nat.mod_small.
Qed.

Lemma pad4_digits a b c d k :
  a < 10 -> b < 10 -> c < 10 -> d < 10 ->
  pad4 (1000 * a + 100 * b + 10 * c + d) k =
  String (digit_char a) (String (digit_char b) (String (digit_char c) (String (digit_char d) k))).
Proof.
  intros Ha Hb Hc Hd. unfold pad4, pad2.
  set (n := 1000 * a + 100 * b + 10 * c + d).
  assert (n / 1000 = a) as ->
    by (symmetry; apply (Nat.div_unique n 1000 a (100 * b + 10 * c + d)); lia).
  assert (n / 100 = 10 * a + b) as ->
    by (symmetry; apply (Nat.div_unique n 100 (10 * a + b) (10 * c + d)); lia).
  assert (n / 10 = 100 * a + 10 * b + c) as ->
    by (symmetry; apply (Nat.div_unique n 10 (100 * a + 10 * b + c) d); lia).
  assert (n mod 10 = d) as ->
    by (symmetry; apply (Nat.mod_unique n 10 (100 * a + 10 * b + c) d); lia).
  assert ((10 * a + b) mod 10 = b) as ->
    by (symmetry; apply (Nat.mod_unique _ 10 a b); lia).
  assert ((100 * a + 10 * b + c) mod 10 = c) as ->
    by (symmetry; apply (Nat.mod_unique _ 10 (10 * a + b) c); lia).
  now rewrite Nat.mod_small.
Qed.

(** A two-digit field in range is taken whole by the first alternative
    of its group that matches. *)
Lemma pad2_group (re : list (list char_class)) (R : nat -> Prop) :
  (forall a, a < 10 -> forall b, b < 10 -> R (10 * a + b) -> forall k, exists tl,
      group_matches re (String (digit_char a) (String (digit_char b) k)) =
      (String (digit_char a) (String (digit_char b) EmptyString), k) :: tl) ->
  forall n k, n < 100 -> R n ->
    exists tl, group_matches re (pad2 n k) = (pad2 n EmptyString, k) :: tl.
Proof.
  intros H n k Hn HR. destruct (split2 n Hn) as (Ha & Hb & Heq).
  unfold pad2. apply H; auto. now rewrite Heq.
Qed.

Ltac by_two_digits :=
  refine (digit_cases _ _ _ _ _ _ _ _ _ _ _);
  refine (digit_cases _ _ _ _ _ _ _ _ _ _ _);
  intros ? ?; try lia; eexists; reflexivity.

Lemma group_Y_pad4 n k :
  n <= MAXYEAR -> group_matches re_Y (pad4 n k) = [(pad4 n EmptyString, k)].
Proof.
  intros (Ha & Hb & Hc & Hd & _)%split4.
  unfold pad4, pad2, re_Y. cbn [group_matches match_classes].
  now rewrite !digit_digit_char by assumption.
Qed.

Lemma group_m_pad2 n k :
  1 <= n <= 12 -> exists tl, group_matches re_m (pad2 n k) = (pad2 n EmptyString, k) :: tl.
Proof.
  intros Hr. apply (pad2_group re_m (fun n => 1 <= n <= 12)); [by_two_digits | lia | exact Hr].
Qed.

Lemma group_d_pad2 n k :
  1 <= n <= 31 -> exists tl, group_matches re_d (pad2 n k) = (pad2 n EmptyString, k) :: tl.
Proof.
  intros Hr. apply (pad2_group re_d (fun n => 1 <= n <= 31)); [by_two_digits | lia | exact Hr].
Qed.

Lemma group_H_pad2 n k :
  n < 24 -> exists tl, group_matches re_H (pad2 n k) = (pad2 n EmptyString, k) :: tl.
Proof.
  intros Hr. apply (pad2_group re_H (fun n => n < 24)); [by_two_digits | lia | exact Hr].
Qed.

Lemma group_M_pad2 n k :
  n < 60 -> exists tl, group_matches re_M (pad2 n k) = (pad2 n EmptyString, k) :: tl.
Proof.
  intros Hr. apply (pad2_group re_M (fun n => n < 60)); [by_two_digits | lia | exact Hr].
Qed.

Lemma group_S_pad2 n k :
  n < 60 -> exists tl, group_matches re_S (pad2 n k) = (pad2 n EmptyString, k) :: tl.
Proof.
  intros Hr. apply (pad2_group re_S (fun n => n < 60)); [by_two_digits | lia | exact Hr].
Qed.

Lemma valid_datetime_ranges t :
  valid_datetime t = true ->
  1 <= year t <= MAXYEAR /\ 1 <= month t <= 12 /\
  1 <= day t <= days_in_month (year t) (month t) /\
  hour t < 24 /\ minute t < 60 /\ second t < 60.
Proof.
  unfold valid_datetime. rewrite !andb_true_iff, !Nat.leb_le, !Nat.ltb_lt. tauto.
Qed.

Lemma days_in_month_le y m : days_in_month y m <= 31.
Proof.
  unfold days_in_month.
  do 12 (destruct m as [|m]; [try lia; destruct (is_leap y); lia|]). lia.
Qed.

Lemma re_match_timestamp_text t :
  valid_datetime t = true -> re_match_format (timestamp_text t) = Some (t, EmptyString).
Proof.
  intros (Hy & Hm & Hd & HH & HM & HS)%valid_datetime_ranges.
  pose proof (days_in_month_le (year t) (month t)) as Hdim.
  destruct t as [y m d H M S]; cbn [year month day hour minute second] in *.
  unfold re_match_format, timestamp_text; cbn [year month day hour minute second].
  rewrite group_Y_pad4 by lia. apply first_success_head.
  destruct (group_m_pad2 m (pad2 d (String "_" (pad2 H (pad2 M (pad2 S EmptyString))))))
    as [tl ->]; [lia|]. apply first_success_head.
  destruct (group_d_pad2 d (String "_" (pad2 H (pad2 M (pad2 S EmptyString)))))
    as [tl' ->]; [lia|]. apply first_success_head.
  destruct (group_H_pad2 H (pad2 M (pad2 S EmptyString))) as [tl1 ->]; [lia|].
  apply first_success_head.
  destruct (group_M_pad2 M (pad2 S EmptyString)) as [tl2 ->]; [lia|].
  apply first_success_head.
  destruct (group_S_pad2 S EmptyString) as [tl3 ->]; [lia|].
  apply first_success_head.
  rewrite int_of_pad4, !int_of_pad2 by lia. reflexivity.
Qed.

(** Parsing the string that names a [datetime] gives the [datetime]. *)
Lemma strptime_timestamp_text t : valid_datetime t = true -> strptime (timestamp_text t) = Returned t.
Proof.
  intros Hv. unfold strptime. now rewrite (re_match_timestamp_text t Hv), Hv.
Qed.

(** Whatever [strptime] returns is a [datetime] the constructor accepts. *)
Lemma strptime_valid s t : strptime s = Returned t -> valid_datetime t = true.
Proof.
  unfold strptime.
  destruct (re_match_format s) as [[t' [|c rest]]|]; try discriminate.
  destruct (valid_datetime t') eqn:E; [|discriminate].
  now intros [= <-].
Qed.

Lemma int_of_digits2 a b :
  a < 10 -> b < 10 ->
  int_of (String (digit_char a) (String (digit_char b) EmptyString)) = 10 * a + b.
Proof.
  intros Ha Hb. unfold int_of. rewrite !int_of_from_digit by assumption.
  cbn [int_of_from]. lia.
Qed.

Lemma int_of_digits4 a b c d :
  a < 10 -> b < 10 -> c < 10 -> d < 10 ->
  int_of (String (digit_char a) (String (digit_char b)
            (String (digit_char c) (String (digit_char d) EmptyString)))) =
  1000 * a + 100 * b + 10 * c + d.
Proof.
  intros Ha Hb Hc Hd. unfold int_of. rewrite !int_of_from_digit by assumption.
  cbn [int_of_from]. lia.
Qed.

(** A string of the shape of a timestamp is the string that names the
    fields read off it. *)
Lemma shaped_timestamp_text s : timestamp_shaped s = true -> timestamp_text (fields_of s) = s.
Proof.
  unfold timestamp_shaped, timestamp_layout. intros H.
  repeat (destruct s as [|?c s]; [discriminate H|];
          cbn [match_classes] in H;
          match type of H with
          | context [if digit ?c then _ else _] =>
              destruct (digit c) eqn:?Hc; [apply digit_inv in Hc as (? & ? & ->)|discriminate H]
          | context [if exactly ?a ?c then _ else _] =>
              destruct (exactly a c) eqn:?Hc; [apply Ascii.eqb_eq in Hc as ->|discriminate H]
          end).
  destruct s as [|? ?]; [|discriminate H]. clear H.
  unfold fields_of, timestamp_text. cbn [String.substring year month day hour minute second].
  rewrite int_of_digits4, !int_of_digits2 by assumption.
  rewrite pad4_digits, !pad2_digits by assumption. reflexivity.
Qed.

(** On a string that matches the grammar, [strptime] returns the fields
    read off it. *)
Lemma strptime_matches s :
  matches_YYYYMMDD_HHMMSS s = true ->
  strptime s = Returned (fields_of s) /\ timestamp_text (fields_of s) = s.
Proof.
  unfold matches_YYYYMMDD_HHMMSS. intros [Hs Hv]%andb_prop.
  pose proof (shaped_timestamp_text s Hs) as E. split; [|exact E].
  rewrite <- E at 1. now apply strptime_timestamp_text.
Qed.

Lemma decimal2 n : n < 100 -> exists a b, a < 10 /\ b < 10 /\ n = 10 * a + b.
Proof.
  intros (Ha & Hb & E)%split2. exists (n / 10 mod 10), (n mod 10). auto.
Qed.

Lemma decimal4 n :
  n <= MAXYEAR ->
  exists a b c d, a < 10 /\ b < 10 /\ c < 10 /\ d < 10 /\
                  n = 1000 * a + 100 * b + 10 * c + d.
Proof.
  intros (Ha & Hb & Hc & Hd & E)%split4.
  exists (n / 1000 mod 10), (n / 100 mod 10), (n / 10 mod 10), (n mod 10). auto.
Qed.

(** Spell out the digits of the six fields of a valid [datetime]. *)
Ltac spell_digits t :=
  let Hr := fresh "Hr" in let Hdim := fresh "Hdim" in
  match goal with
  | Hv : valid_datetime t = true |- _ =>
      pose proof (valid_datetime_ranges t Hv) as Hr;
      pose proof (days_in_month_le (year t) (month t)) as Hdim;
      destruct t as [y m d hh mi ss]; cbn [year month day hour minute second] in *;
      destruct Hr as (Hy & Hm & Hd & HH & HM & HS);
      destruct (decimal4 y) as (y3 & y2 & y1 & y0 & ? & ? & ? & ? & Ey); [lia|];
      destruct (decimal2 m) as (m1 & m0 & ? & ? & Em); [lia|];
      destruct (decimal2 d) as (d1 & d0 & ? & ? & Ed); [lia|];
      destruct (decimal2 hh) as (h1 & h0 & ? & ? & Eh); [lia|];
      destruct (decimal2 mi) as (i1 & i0 & ? & ? & Ei); [lia|];
      destruct (decimal2 ss) as (s1 & s0 & ? & ? & Es); [lia|];
      clear Hv Hy Hm Hd HH HM HS Hdim; subst y m d hh mi ss
  end.

Lemma matches_timestamp_text t :
  valid_datetime t = true -> matches_YYYYMMDD_HHMMSS (timestamp_text t) = true.
Proof.
  intros Hv. unfold matches_YYYYMMDD_HHMMSS.
  assert (E : timestamp_shaped (timestamp_text t) = true).
  { spell_digits t. unfold timestamp_shaped, timestamp_layout, timestamp_text.
    cbn [year month day hour minute second].
    rewrite pad4_digits, !pad2_digits by assumption.
    cbn [match_classes]. rewrite !digit_digit_char by assumption. reflexivity. }
  rewrite E. simpl.
  assert (Hf : fields_of (timestamp_text t) = t).
  { clear E. spell_digits t. unfold fields_of, timestamp_text.
    cbn [year month day hour minute second].
    rewrite pad4_digits, !pad2_digits by assumption.
    cbn [String.substring]. rewrite int_of_digits4, !int_of_digits2 by assumption.
    reflexivity. }
  now rewrite Hf.
Qed.

(** *** What [strftime] prints *)

Lemma fmt_Y_pad4 y k : 1000 <= y -> fmt_Y y k = pad4 y k.
Proof.
  intros Hy. unfold fmt_Y.
  destruct (Nat.ltb_spec y 10); [lia|].
  destruct (Nat.ltb_spec y 100); [lia|].
  destruct (Nat.ltb_spec y 1000); [lia | reflexivity].
Qed.

(** From the year 1000 on, [strftime] prints the string of the grammar. *)
Lemma strftime_padded t : 1000 <= year t -> strftime t = timestamp_text t.
Proof. intros Hy. unfold strftime, timestamp_text. now rewrite fmt_Y_pad4. Qed.

Lemma strftime_date_padded t : 1000 <= year t -> strftime_date t = date_isoformat t.
Proof. intros Hy. unfold strftime_date, date_isoformat. now rewrite fmt_Y_pad4. Qed.

Lemma strptime_strftime t :
  valid_datetime t = true -> 1000 <= year t -> strptime (strftime t) = Returned t.
Proof. intros Hv Hy. rewrite strftime_padded by exact Hy. now apply strptime_timestamp_text. Qed.

Lemma matches_strftime t :
  valid_datetime t = true -> 1000 <= year t -> matches_YYYYMMDD_HHMMSS (strftime t) = true.
Proof. intros Hv Hy. rewrite strftime_padded by exact Hy. now apply matches_timestamp_text. Qed.

Lemma strftime_injective t1 t2 :
  valid_datetime t1 = true -> 1000 <= year t1 ->
  valid_datetime t2 = true -> 1000 <= year t2 ->
  strftime t1 = strftime t2 -> t1 = t2.
Proof.
  intros Hv1 Hy1 Hv2 Hy2 E. pose proof (strptime_strftime t1 Hv1 Hy1) as E1.
  rewrite E, (strptime_strftime t2 Hv2 Hy2) in E1. now injection E1.
Qed.

Lemma length_pad2 n k : String.length (pad2 n k) = 2 + String.length k.
Proof. reflexivity. Qed.

Lemma length_fmt_Y y k :
  String.length (fmt_Y y k) =
  (if y <? 10 then 1 else if y <? 100 then 2 else if y <? 1000 then 3 else 4)
  + String.length k.
Proof.
  unfold fmt_Y. destruct (y <? 10); [reflexivity|]. destruct (y <? 100); [reflexivity|].
  destruct (y <? 1000); reflexivity.
Qed.

Lemma length_strftime t :
  String.length (strftime t) =
  (if year t <? 10 then 1 else if year t <? 100 then 2 else if year t <? 1000 then 3 else 4)
  + 11.
Proof. unfold strftime. now rewrite length_fmt_Y. Qed.

Lemma timestamp_shaped_length s : timestamp_shaped s = true -> String.length s = 15.
Proof.
  unfold timestamp_shaped.
  destruct (match_classes timestamp_layout s) as [[txt [|]]|] eqn:E; try discriminate.
  intros _. apply (match_classes_sound (fun _ => true)) in E as (-> & _ & Hlen).
  - rewrite append_empty_r. exact Hlen.
  - unfold timestamp_layout. repeat constructor.
Qed.

(** Before the year 1000 the print is too short for the grammar. *)
Lemma strftime_short_year t : year t < 1000 -> matches_YYYYMMDD_HHMMSS (strftime t) = false.
Proof.
  intros Hy. unfold matches_YYYYMMDD_HHMMSS.
  destruct (timestamp_shaped (strftime t)) eqn:E; [|reflexivity].
  apply timestamp_shaped_length in E. rewrite length_strftime in E.
  destruct (Nat.ltb_spec (year t) 10); [discriminate|].
  destruct (Nat.ltb_spec (year t) 100); [discriminate|].
  destruct (Nat.ltb_spec (year t) 1000); [discriminate | lia].
Qed.

Lemma matches_strftime_iff t :
  valid_datetime t = true ->
  matches_YYYYMMDD_HHMMSS (strftime t) = (1000 <=? year t).
Proof.
  intros Hv. destruct (Nat.leb_spec 1000 (year t)).
  - now apply matches_strftime.
  - now apply strftime_short_year.
Qed.





(** ** Traces *)

Lemma loaded_rows_app tr1 tr2 : loaded_rows (tr1 ++ tr2) = loaded_rows tr1 ++ loaded_rows tr2.
Proof. unfold loaded_rows. now rewrite flat_map_app. Qed.

Lemma failed_items_app tr1 tr2 :
  failed_items (tr1 ++ tr2) = failed_items tr1 ++ failed_items tr2.
Proof. unfold failed_items. now rewrite flat_map_app. Qed.

Lemma candidate_count_app tr1 tr2 :
  candidate_count (tr1 ++ tr2) = candidate_count tr1 + candidate_count tr2.
Proof. unfold candidate_count. now rewrite List.map_app, list_sum_app. Qed.

Lemma silent_trace tr :
  forallb silent tr = true ->
  loaded_rows tr = [] /\ failed_items tr = [] /\ candidate_count tr = 0.
Proof.
  induction tr as [|ev tr IH]; simpl; [auto|].
  intros [Hev Htr]%andb_prop. destruct (IH Htr) as (H1 & H2 & H3).
  unfold loaded_rows, failed_items, candidate_count in *. simpl.
  rewrite H1, H2, H3.
  destruct ev as [[] []| |]; simpl in *; try discriminate; auto.
Qed.

(** ** The ledger reader *)

(** One NULL value makes the loop raise. *)
Lemma add_loaded_timestamps_null results acc :
  In None results -> Prefect.add_loaded_timestamps results acc = Raised AttributeError.
Proof.
  revert acc. induction results as [|[value|] rest IH]; intros acc Hin.
  - contradiction.
  - destruct Hin as [[=]|Hin]. cbn. now apply IH.
  - reflexivity.
Qed.

(** Without NULL the loop returns the set with the print of every value
    added. *)
Lemma add_loaded_timestamps_values results acc :
  ~ In None results ->
  exists loaded : gset string,
    Prefect.add_loaded_timestamps results acc = Returned loaded /\
    forall s, s ∈ loaded <->
      s ∈ acc \/ exists value, In (Some value) results /\ s = strftime (to_second value).
Proof.
  revert acc. induction results as [|[value|] rest IH]; intros acc Hnull.
  - exists acc. split; [reflexivity|]. intros s. split; [auto|].
    intros [H|(v & [] & _)]. exact H.
  - destruct (IH (acc ∪ {[strftime (to_second value)]})) as (loaded & E & Hl).
    { intros H. apply Hnull. now right. }
    exists loaded. split; [exact E|]. intros s.
    rewrite Hl, elem_of_union, elem_of_singleton. split.
    + intros [[H | ->] | (v & Hv & ->)].
      * now left.
      * right. exists value. split; [now left | reflexivity].
      * right. exists v. split; [now right | reflexivity].
    + intros [H | (v & [[= ->]|Hv] & ->)].
      * left. now left.
      * left. now right.
      * right. now exists v.
  - exfalso. apply Hnull. now left.
Qed.

Lemma in_none_dec (results : list (option bq_timestamp)) :
  In None results \/ ~ In None results.
Proof.
  induction results as [|[value|] rest [IH|IH]]; auto.
  - left. now right.
  - right. intros [[=]|H]. contradiction.
  - left. now left.
  - left. now left.
Qed.

(** The reader, case by case. *)
Lemma get_already_loaded_timestamps_eq infra :
  Prefect.get_already_loaded_timestamps infra =
  match bq_client infra with
  | Raised e => mkM [] (Raised e)
  | Returned _ =>
      match (results ← bq_select_distinct infra;
             Prefect.add_loaded_timestamps results ∅) with
      | Returned loaded =>
          mkM [Log INFO (FoundLoadedTimestamps (size loaded))] (Returned loaded)
      | Raised e => mkM [Log WARNING (CouldNotQuery e)] (Returned ∅)
      end
  end.
Proof.
  unfold Prefect.get_already_loaded_timestamps.
  destruct (bq_client infra) as [[]|e]; [|reflexivity].
  destruct (bq_select_distinct infra) as [results|e]; [|reflexivity].
  cbn [mbind outcome_bind].
  destruct (Prefect.add_loaded_timestamps results ∅) as [loaded|e] eqn:E;
    unfold try_except, lift, emit, mret, M_ret, mbind, M_bind; cbn; rewrite E; reflexivity.
Qed.

Lemma ledger_of_eq infra :
  ledger_of infra =
  match bq_client infra with
  | Raised _ => ∅
  | Returned _ =>
      match (results ← bq_select_distinct infra;
             Prefect.add_loaded_timestamps results ∅) with
      | Returned loaded => loaded
      | Raised _ => ∅
      end
  end.
Proof.
  unfold ledger_of. rewrite get_already_loaded_timestamps_eq.
  destruct (bq_client infra); [|reflexivity].
  now destruct (results ← bq_select_distinct infra; Prefect.add_loaded_timestamps results ∅).
Qed.

(** When the query fails the ledger is empty. *)
Lemma ledger_of_query_raised infra e : bq_select_distinct infra = Raised e -> ledger_of infra = ∅.
Proof. intros H. rewrite ledger_of_eq, H. now destruct (bq_client infra). Qed.

(** When the client is built, the query returns and no value is NULL,
    the ledger is the set of the prints of the values. *)
Lemma ledger_of_values infra results :
  bq_client infra = Returned tt ->
  bq_select_distinct infra = Returned results ->
  ~ In None results ->
  forall s, s ∈ ledger_of infra <->
            exists value, In (Some value) results /\ s = strftime (to_second value).
Proof.
  intros Hc Hq Hnull s. rewrite ledger_of_eq, Hc, Hq. cbn [mbind outcome_bind].
  destruct (add_loaded_timestamps_values results ∅ Hnull) as (loaded & -> & Hl).
  rewrite Hl. split; [|auto]. intros [H|H]; [|exact H]. now apply not_elem_of_empty in H.
Qed.

(** C5, as the code has it.  What the ledger reader does, case by case.
    When the BigQuery client cannot be built the exception propagates:
    that statement comes before the [try].  Otherwise the reader never
    raises.  When the query raises, a missing table included, it logs a
    warning and returns the empty set.  When the query returns and one
    of the values is NULL, the loop raises [AttributeError] inside the
    [try], and the reader again logs a warning and returns the empty
    set, whatever the other values are.  When the query returns values
    none of which is NULL, the reader returns exactly the set of their
    prints by [strftime("%Y%m%d_%H%M%S")] and logs its size; a print
    matches [YYYYMMDD_HHMMSS] if and only if the year of the value is
    1000 or later. *)
Theorem ledger_reader_normalises_or_is_empty (infra : Infra) :
  let reader := Prefect.get_already_loaded_timestamps infra in
  match bq_client infra, bq_select_distinct infra with
  | Raised e, _ => reader = mkM [] (Raised e)
  | Returned _, Raised e => reader = mkM [Log WARNING (CouldNotQuery e)] (Returned ∅)
  | Returned _, Returned results =>
      (In None results ->
       reader = mkM [Log WARNING (CouldNotQuery AttributeError)] (Returned ∅)) /\
      (~ In None results ->
       exists loaded : gset string,
         reader = mkM [Log INFO (FoundLoadedTimestamps (size loaded))] (Returned loaded) /\
         (forall s, s ∈ loaded <->
            exists value, In (Some value) results /\ s = strftime (to_second value)) /\
         (forall value, In (Some value) results ->
            valid_datetime (to_second value) = true ->
            matches_YYYYMMDD_HHMMSS (strftime (to_second value))
              = (1000 <=? year (to_second value))))
  end.
Proof.
  cbn zeta. rewrite get_already_loaded_timestamps_eq.
  destruct (bq_client infra) as [[]|e]; [|reflexivity].
  destruct (bq_select_distinct infra) as [results|e]; [|reflexivity].
  cbn [mbind outcome_bind]. split.
  - intros Hnull. now rewrite (add_loaded_timestamps_null results ∅ Hnull).
  - intros Hnull.
    destruct (add_loaded_timestamps_values results ∅ Hnull) as (loaded & -> & Hl).
    exists loaded. split; [reflexivity|]. split.
    + intros s. rewrite Hl. split; [|auto]. intros [H|H]; [|exact H].
      now apply not_elem_of_empty in H.
    + intros value _ Hv. now apply matches_strftime_iff.
Qed.

(** C5, counterexample.  A value of the year 999 is normalised to
    [9990102_143000], which is not of the form [YYYYMMDD_HHMMSS]; and a
    result that holds a NULL beside a value gives the empty set, with a
    warning, although the query succeeded. *)
Lemma ledger_reader_short_year_and_null :
  valid_datetime (mkDatetime 999 1 2 14 30 0) = true /\
  Prefect.get_already_loaded_timestamps
    (mkInfra (Returned tt) (Returned [Some (mkTimestamp (mkDatetime 999 1 2 14 30 0) 0)])
             (Returned []) (fun _ => Raised NotFound) (fun _ => Returned tt))
  = mkM [Log INFO (FoundLoadedTimestamps 1)] (Returned {[ "9990102_143000" ]}) /\
  matches_YYYYMMDD_HHMMSS "9990102_143000" = false /\
  Prefect.get_already_loaded_timestamps
    (mkInfra (Returned tt)
             (Returned [Some (mkTimestamp (mkDatetime 2026 1 2 14 30 0) 0); None])
             (Returned []) (fun _ => Raised NotFound) (fun _ => Returned tt))
  = mkM [Log WARNING (CouldNotQuery AttributeError)] (Returned ∅).
Proof. repeat split; vm_compute; reflexivity. Qed.

(** ** The filter *)

Lemma filter_loop_cons blob_name rest loaded new_files :
  Prefect.filter_loop (blob_name :: rest) loaded new_files =
  if not_loaded loaded blob_name then
    emit (Log INFO (NewFileToLoad (filename_of blob_name)));;
    Prefect.filter_loop rest loaded (new_files ++ [blob_name])
  else
    emit (Log INFO (SkippingLoadedFile (filename_of blob_name)));;
    Prefect.filter_loop rest loaded new_files.
Proof. reflexivity. Qed.

Lemma filter_loop_eq files loaded new_files :
  exists tr,
    Prefect.filter_loop files loaded new_files =
      mkM tr (Returned (new_files ++ List.filter (not_loaded loaded) files)) /\
    Forall (fun ev => exists filename,
              ev = Log INFO (NewFileToLoad filename) \/
              ev = Log INFO (SkippingLoadedFile filename)) tr.
Proof.
  revert new_files. induction files as [|blob_name rest IH]; intros new_files.
  - exists []. simpl. rewrite app_nil_r. auto.
  - rewrite filter_loop_cons. cbn [List.filter].
    destruct (not_loaded loaded blob_name).
    + destruct (IH (new_files ++ [blob_name])) as (tr & -> & Htr).
      eexists. split.
      * unfold mbind, M_bind. cbn. rewrite <- app_assoc. reflexivity.
      * constructor; eauto.
    + destruct (IH new_files) as (tr & -> & Htr).
      eexists. split.
      * unfold mbind, M_bind. cbn. reflexivity.
      * constructor; eauto.
Qed.

Lemma filter_new_files_eq all_files loaded :
  exists tr,
    Prefect.filter_new_files all_files loaded =
      mkM (tr ++ [Log INFO (FoundNewFiles
                              (List.length (List.filter (not_loaded loaded) all_files))
                              (List.length all_files))])
          (Returned (List.filter (not_loaded loaded) all_files)) /\
    Forall (fun ev => exists filename,
              ev = Log INFO (NewFileToLoad filename) \/
              ev = Log INFO (SkippingLoadedFile filename)) tr.
Proof.
  unfold Prefect.filter_new_files.
  destruct (filter_loop_eq all_files loaded []) as (tr & -> & Htr).
  exists tr. split; [|exact Htr]. reflexivity.
Qed.

Lemma filter_new_files_result all_files loaded :
  result (Prefect.filter_new_files all_files loaded) =
  Returned (List.filter (not_loaded loaded) all_files).
Proof. destruct (filter_new_files_eq all_files loaded) as (tr & -> & _). reflexivity. Qed.

Lemma in_new_files all_files loaded blob_name :
  In blob_name (List.filter (not_loaded loaded) all_files) <->
  In blob_name all_files /\ timestamp_str_of blob_name ∉ loaded.
Proof. rewrite filter_In. unfold not_loaded. now rewrite bool_decide_eq_true. Qed.

(** C4, as the code has it.  The filter returns, in listing order, exactly
    the keys whose extracted timestamp string is not in the ledger; it
    never raises and it logs at level INFO only.  It does not check the
    name against the grammar: a key off the grammar is kept or dropped by
    the same test on whatever string the two replacements leave. *)
Theorem filter_is_difference_by_extracted_string
    (all_files : list string) (loaded_timestamps : gset string) :
  let run := Prefect.filter_new_files all_files loaded_timestamps in
  result run = Returned (List.filter (not_loaded loaded_timestamps) all_files) /\
  (forall new_files, result run = Returned new_files ->
     forall blob_name, In blob_name new_files <->
       In blob_name all_files /\ timestamp_str_of blob_name ∉ loaded_timestamps) /\
  Forall (fun ev => exists msg, ev = Log INFO msg) (trace run).
Proof.
  destruct (filter_new_files_eq all_files loaded_timestamps) as (tr & E & Htr).
  cbn zeta. rewrite E. cbn [result trace]. split; [reflexivity|]. split.
  - intros new_files [= <-] blob_name. apply in_new_files.
  - apply Forall_app. split.
    + eapply Forall_impl; [exact Htr|]. intros ev [filename [-> | ->]]; eauto.
    + repeat constructor. eauto.
Qed.

(** C4, counterexample: a key whose name is off the grammar is a new file
    for the filter, and no warning is recorded. *)
Lemma filter_keeps_key_off_grammar :
  matches_YYYYMMDD_HHMMSS (timestamp_str_of "raw/station_status/notes.json") = false /\
  Prefect.filter_new_files ["raw/station_status/notes.json"] ∅ =
    mkM [Log INFO (NewFileToLoad "notes.json"); Log INFO (FoundNewFiles 1 1)]
        (Returned ["raw/station_status/notes.json"]).
Proof. split; vm_compute; reflexivity. Qed.

(** ** The transformer *)

Lemma strptime_raises s e : strptime s = Raised e -> e = ValueError.
Proof.
  unfold strptime.
  destruct (re_match_format s) as [[t [|c rest]]|]; try (now intros [= <-]).
  destruct (valid_datetime t); [discriminate | now intros [= <-]].
Qed.

Lemma plain_transform_dict entries blob_name :
  Plain.transform_to_bigquery_row (JDict entries) blob_name =
  match strptime (timestamp_str_of blob_name) with
  | Raised e => Raised e
  | Returned t =>
      if data_is_dict entries then
        Returned (mkRow (get_or_null entries "last_updated") (get_or_null entries "ttl")
                        (get_or_null entries "version")
                        (isoformat t) (date_isoformat t) (json_dumps (stations_of entries)))
      else Raised AttributeError
  end.
Proof.
  unfold Plain.transform_to_bigquery_row, timestamp_str_of, data_is_dict, stations_of,
    get_or_null.
  destruct (strptime _) as [t|e]; [|reflexivity]. cbn.
  destruct (assoc "data" entries) as [[]|]; reflexivity.
Qed.

Lemma plain_transform_not_dict json_data blob_name :
  (forall entries, json_data <> JDict entries) ->
  Plain.transform_to_bigquery_row json_data blob_name =
  match strptime (timestamp_str_of blob_name) with
  | Raised e => Raised e
  | Returned _ => Raised AttributeError
  end.
Proof.
  intros Hnd. unfold Plain.transform_to_bigquery_row, timestamp_str_of.
  destruct (strptime _) as [t|e]; [|reflexivity].
  destruct json_data; try reflexivity. now destruct (Hnd entries).
Qed.

(** The task of the flow is the function of the plain loader, plus one
    log record when it returns. *)
Lemma prefect_transform_eq json_data blob_name :
  Prefect.transform_to_bigquery_row json_data blob_name =
  match Plain.transform_to_bigquery_row json_data blob_name,
        strptime (timestamp_str_of blob_name) with
  | Returned row, Returned t => mkM [Log INFO (TransformedData t)] (Returned row)
  | Returned row, Raised _ => mkM [] (Returned row)
  | Raised e, _ => mkM [] (Raised e)
  end.
Proof.
  unfold Prefect.transform_to_bigquery_row, Plain.transform_to_bigquery_row,
    timestamp_str_of.
  destruct (strptime _) as [t|e]; [|reflexivity].
  cbn. destruct json_data; try reflexivity.
  cbn. destruct (match assoc "data" entries with Some v => v | None => JDict [] end);
    reflexivity.
Qed.

Lemma prefect_transform_result json_data blob_name :
  result (Prefect.transform_to_bigquery_row json_data blob_name) =
  Plain.transform_to_bigquery_row json_data blob_name.
Proof.
  rewrite prefect_transform_eq.
  destruct (Plain.transform_to_bigquery_row _ _); [destruct (strptime _)|]; reflexivity.
Qed.

Lemma prefect_transform_silent json_data blob_name :
  forallb silent (trace (Prefect.transform_to_bigquery_row json_data blob_name)) = true.
Proof.
  rewrite prefect_transform_eq.
  destruct (Plain.transform_to_bigquery_row _ _); [destruct (strptime _)|]; reflexivity.
Qed.

(** C2, as the code has it.  On a key whose timestamp parses, the
    transformer returns a row both for a payload without the top-level
    [data] entry and for a payload whose station list is present and
    empty; in both cases the [stations] field is the text ["[]"].  No
    payload shape is rejected as malformed for lacking [data]. *)
Theorem transformer_accepts_missing_data_and_empty_stations
    (entries : list (string * json)) (blob_name : string) (t : datetime) :
  strptime (timestamp_str_of blob_name) = Returned t ->
  assoc "data" entries = None \/
  (exists d, assoc "data" entries = Some (JDict d) /\ assoc "stations" d = Some (JList [])) ->
  exists row,
    Plain.transform_to_bigquery_row (JDict entries) blob_name = Returned row /\
    result (Prefect.transform_to_bigquery_row (JDict entries) blob_name) = Returned row /\
    stations row = "[]" /\
    data_fetched_at row = isoformat t.
Proof.
  intros Ht Hdata. rewrite prefect_transform_result, plain_transform_dict, Ht.
  unfold data_is_dict, stations_of.
  destruct Hdata as [-> | (d & -> & ->)]; eexists; repeat split; reflexivity.
Qed.

Lemma transformer_accepts_missing_data_and_empty_stations_witness :
  exists row,
    Plain.transform_to_bigquery_row
      (JDict [("data", JDict [("stations", JList [])]); ("ttl", JInt 5)])
      "raw/station_status/date=2026-01-02/status_20260102_150000.json" = Returned row /\
    result (Prefect.transform_to_bigquery_row
      (JDict [("data", JDict [("stations", JList [])]); ("ttl", JInt 5)])
      "raw/station_status/date=2026-01-02/status_20260102_150000.json") = Returned row /\
    stations row = "[]" /\
    data_fetched_at row = isoformat (mkDatetime 2026 1 2 15 0 0).
Proof.
  apply (transformer_accepts_missing_data_and_empty_stations
           [("data", JDict [("stations", JList [])]); ("ttl", JInt 5)]
           "raw/station_status/date=2026-01-02/status_20260102_150000.json"
           (mkDatetime 2026 1 2 15 0 0)).
  - reflexivity.
  - right. exists [("stations", JList [])]. split; reflexivity.
Defined.

(** C2, counterexample: a payload without [data] is not rejected; the
    transformer returns a row for it. *)
Lemma transformer_does_not_reject_missing_data :
  assoc "data" [("last_updated", JInt 1767364200); ("ttl", JInt 60)] = None /\
  Plain.transform_to_bigquery_row
    (JDict [("last_updated", JInt 1767364200); ("ttl", JInt 60)])
    "raw/station_status/date=2026-01-02/status_20260102_143000.json"
  = Returned (mkRow (JInt 1767364200) (JInt 60) JNull
                    "2026-01-02T14:30:00" "2026-01-02" "[]") /\
  result (Prefect.transform_to_bigquery_row
    (JDict [("last_updated", JInt 1767364200); ("ttl", JInt 60)])
    "raw/station_status/date=2026-01-02/status_20260102_143000.json")
  = Returned (mkRow (JInt 1767364200) (JInt 60) JNull
                    "2026-01-02T14:30:00" "2026-01-02" "[]").
Proof. repeat split; vm_compute; reflexivity. Qed.






(** ** The loop over the WorkSet *)

Lemma process_file_eq infra blob_name all_rows :
  exists tr,
    Prefect.process_file infra blob_name all_rows =
      mkM tr (Returned (all_rows ++ rows_of [item_outcome infra blob_name])) /\
    loaded_rows tr = [] /\ candidate_count tr = 0 /\
    failed_items tr = if fails infra blob_name then [blob_name] else [].
Proof.
  unfold Prefect.process_file, fails, item_outcome.
  destruct (read_json_from_gcs infra blob_name) as [json_data|e].
  - cbn [mbind outcome_bind].
    pose proof (prefect_transform_eq json_data blob_name) as E.
    destruct (Plain.transform_to_bigquery_row json_data blob_name) as [row|e].
    + destruct (strptime (timestamp_str_of blob_name)) as [t|e];
        eexists; (split; [unfold try_except, lift, mbind, M_bind; cbn; rewrite E; cbn;
                          reflexivity | auto]).
    + eexists. split; [unfold try_except, lift, mbind, M_bind; cbn; rewrite E; cbn;
                       rewrite app_nil_r; reflexivity | auto].
  - eexists. split; [unfold try_except, lift, mbind, M_bind; cbn; rewrite app_nil_r;
                     reflexivity | auto].
Qed.

Lemma process_files_eq infra files all_rows :
  exists tr,
    Prefect.process_files infra files all_rows =
      mkM tr (Returned (all_rows ++ rows_of (List.map (item_outcome infra) files))) /\
    loaded_rows tr = [] /\ candidate_count tr = 0 /\
    failed_items tr = List.filter (fails infra) files.
Proof.
  revert all_rows. induction files as [|blob_name rest IH]; intros all_rows.
  - exists []. cbn. rewrite app_nil_r. auto.
  - cbn [Prefect.process_files].
    destruct (process_file_eq infra blob_name all_rows) as (tr1 & -> & L1 & C1 & F1).
    destruct (IH (all_rows ++ rows_of [item_outcome infra blob_name]))
      as (tr2 & E2 & L2 & C2 & F2).
    exists (tr1 ++ tr2). split; [|split; [|split]].
    + unfold mbind at 1, M_bind. cbn [result trace]. rewrite E2. cbn [result trace].
      unfold rows_of. cbn [List.map flat_map]. rewrite <- !app_assoc. reflexivity.
    + now rewrite loaded_rows_app, L1, L2.
    + now rewrite candidate_count_app, C1, C2.
    + rewrite failed_items_app, F1, F2. cbn [List.filter].
      now destruct (fails infra blob_name).
Qed.

(** ** The flow *)

(** When the client is built the reader logs one record and returns the
    ledger. *)
Lemma ledger_step infra :
  bq_client infra = Returned tt ->
  exists ev,
    Prefect.get_already_loaded_timestamps infra = mkM [ev] (Returned (ledger_of infra)) /\
    silent ev = true.
Proof.
  intros Hc. rewrite ledger_of_eq, get_already_loaded_timestamps_eq, Hc.
  destruct (results ← bq_select_distinct infra; Prefect.add_loaded_timestamps results ∅);
    eexists; split; reflexivity.
Qed.

Lemma client_raised infra e :
  bq_client infra = Raised e ->
  Prefect.get_already_loaded_timestamps infra = mkM [] (Raised e).
Proof. intros Hc. now rewrite get_already_loaded_timestamps_eq, Hc. Qed.

Lemma client_cases infra : bq_client infra = Returned tt \/ exists e, bq_client infra = Raised e.
Proof. destruct (bq_client infra) as [[]|e]; eauto. Qed.

Lemma work_set_result infra :
  result (work_set infra) =
  (bq_client infra;;
   names ← gcs_list_blobs infra;
   Returned (List.filter (not_loaded (ledger_of infra)) (json_files_of names))).
Proof.
  unfold work_set. destruct (client_cases infra) as [Hc | [e Hc]].
  - destruct (ledger_step infra Hc) as (ev & -> & _). rewrite Hc.
    unfold Prefect.list_json_files.
    destruct (gcs_list_blobs infra) as [names|e']; [|reflexivity].
    cbn; fold (json_files_of names).
    match goal with
    | |- context [Prefect.filter_new_files ?fs ?ld] =>
        destruct (filter_new_files_eq fs ld) as (tr & -> & _)
    end. reflexivity.
  - now rewrite (client_raised infra e Hc), Hc.
Qed.


(** A ledger that is not empty was returned by a reader whose client was
    built. *)
Lemma ledger_client infra s : s ∈ ledger_of infra -> bq_client infra = Returned tt.
Proof.
  rewrite ledger_of_eq. destruct (client_cases infra) as [Hc | [e Hc]]; [auto|].
  rewrite Hc. intros H. now apply not_elem_of_empty in H.
Qed.

(** When the client cannot be built the flow stops at the reader. *)
Lemma flow_client_raised infra e :
  bq_client infra = Raised e ->
  Prefect.load_station_status_flow infra = mkM [Log INFO StartingPipeline] (Raised e).
Proof.
  intros Hc. unfold Prefect.load_station_status_flow.
  now rewrite (client_raised infra e Hc).
Qed.

Lemma loaded_rows_silent ev tr : silent ev = true -> loaded_rows (ev :: tr) = loaded_rows tr.
Proof. destruct ev; [reflexivity | reflexivity | discriminate]. Qed.

Lemma failed_items_silent ev tr : silent ev = true -> failed_items (ev :: tr) = failed_items tr.
Proof. destruct ev as [[] []| |]; try reflexivity; discriminate. Qed.

Lemma candidate_count_silent ev tr :
  silent ev = true -> candidate_count (ev :: tr) = candidate_count tr.
Proof. destruct ev as [[] []| |]; try reflexivity; discriminate. Qed.

Lemma loaded_rows_job rows tr : loaded_rows (LoadJob rows :: tr) = rows ++ loaded_rows tr.
Proof. reflexivity. Qed.

Lemma failed_items_job rows tr : failed_items (LoadJob rows :: tr) = failed_items tr.
Proof. reflexivity. Qed.

Lemma candidate_count_job rows tr : candidate_count (LoadJob rows :: tr) = candidate_count tr.
Proof. reflexivity. Qed.

Lemma loaded_rows_found a b tr :
  loaded_rows (Log INFO (FoundNewFiles a b) :: tr) = loaded_rows tr.
Proof. reflexivity. Qed.

Lemma failed_items_found a b tr :
  failed_items (Log INFO (FoundNewFiles a b) :: tr) = failed_items tr.
Proof. reflexivity. Qed.

Lemma candidate_count_found a b tr :
  candidate_count (Log INFO (FoundNewFiles a b) :: tr) = b + candidate_count tr.
Proof. reflexivity. Qed.

Ltac run_monad :=
  unfold emit, lift, mret, M_ret, mbind, M_bind; cbn [trace result app].

Ltac summarise :=
  repeat first
    [ rewrite loaded_rows_app | rewrite failed_items_app | rewrite candidate_count_app
    | rewrite loaded_rows_job | rewrite failed_items_job | rewrite candidate_count_job
    | rewrite loaded_rows_found | rewrite failed_items_found | rewrite candidate_count_found
    | rewrite loaded_rows_silent by (reflexivity || assumption)
    | rewrite failed_items_silent by (reflexivity || assumption)
    | rewrite candidate_count_silent by (reflexivity || assumption) ].

(** What a run of the flow comes to: which items fail, how many
    candidates it counts, what it loads and how it ends. *)
Lemma flow_summary infra :
  bq_client infra = Returned tt ->
  let run := Prefect.load_station_status_flow infra in
  match gcs_list_blobs infra with
  | Raised e =>
      result run = Raised e /\ loaded_rows (trace run) = [] /\
      failed_items (trace run) = [] /\ candidate_count (trace run) = 0
  | Returned names =>
      let all_files := json_files_of names in
      let new_files := List.filter (not_loaded (ledger_of infra)) all_files in
      let rows := rows_of (List.map (item_outcome infra) new_files) in
      failed_items (trace run) = List.filter (fails infra) new_files /\
      candidate_count (trace run) = List.length all_files /\
      match rows with
      | [] => result run = Returned tt /\ loaded_rows (trace run) = []
      | _ :: _ =>
          match bq_load_job infra rows with
          | Returned _ => result run = Returned tt /\ loaded_rows (trace run) = rows
          | Raised e => result run = Raised e /\ loaded_rows (trace run) = []
          end
      end
  end.
Proof.
  intros Hc. cbn zeta. unfold Prefect.load_station_status_flow.
  destruct (ledger_step infra Hc) as (ev & -> & Hev).
  unfold Prefect.list_json_files.
  destruct (gcs_list_blobs infra) as [names|e].
  2:{ run_monad. summarise. repeat split; reflexivity. }
  unfold json_files_of. run_monad.
  destruct (List.filter (fun name => PyStr.endswith name ".json") names)
    as [|f fs] eqn:Efiles.
  { run_monad. summarise. repeat split; reflexivity. }
  destruct (filter_new_files_eq (f :: fs) (ledger_of infra)) as (trf & -> & Htrf).
  assert (Hsf : forallb silent trf = true).
  { clear -Htrf. induction Htrf as [|x l [fn [-> | ->]] _ IH]; cbn; auto. }
  apply silent_trace in Hsf as (Lf & Ff & Cf).
  destruct (List.filter (not_loaded (ledger_of infra)) (f :: fs)) as [|nf nfs] eqn:Enew.
  { run_monad. summarise. rewrite ?Lf, ?Ff, ?Cf.
    repeat split; rewrite ?app_nil_r; try reflexivity; cbn; lia. }
  run_monad.
  destruct (process_files_eq infra (nf :: nfs) []) as (trp & -> & Lp & Cp & Fp).
  cbn [app]. run_monad.
  destruct (rows_of (List.map (item_outcome infra) (nf :: nfs))) as [|r rs] eqn:Erows.
  { run_monad. summarise. rewrite ?Lf, ?Ff, ?Cf, ?Lp, ?Cp, ?Fp.
    repeat split; rewrite ?app_nil_r; try reflexivity; cbn; lia. }
  unfold Prefect.load_to_bigquery. run_monad.
  destruct (bq_load_job infra (r :: rs)) as [[]|e]; run_monad; summarise;
    rewrite ?Lf, ?Ff, ?Cf, ?Lp, ?Cp, ?Fp; repeat split; rewrite ?app_nil_r;
    try reflexivity; cbn; lia.
Qed.


Lemma rows_of_cons o os :
  rows_of (o :: os) = match o with Returned row => row :: rows_of os | Raised _ => rows_of os end.
Proof. destruct o; reflexivity. Qed.




(** C7. The concrete scenario.  The store lists two keys, one for
    [20260102_143000] and one for [20260102_150000], in either order; the
    ledger holds [20260102_143000]; the document of the second key is a
    [dict] with a well-formed [data] entry, and the load job succeeds.
    Then the run loads exactly one row, whose [data_fetched_at] is
    [2026-01-02T15:00:00], and its log gives candidates = 2, loaded = 1,
    skipped = 0. *)
Theorem concrete_scenario
    (infra : Infra) (k1 k2 : string) (document : list (string * json)) :
  ledger_of infra = {[ "20260102_143000" ]} ->
  gcs_list_blobs infra = Returned [k1; k2] \/ gcs_list_blobs infra = Returned [k2; k1] ->
  PyStr.endswith k1 ".json" = true ->
  PyStr.endswith k2 ".json" = true ->
  timestamp_str_of k1 = "20260102_143000" ->
  timestamp_str_of k2 = "20260102_150000" ->
  read_json_from_gcs infra k2 = Returned (JDict document) ->
  data_is_dict document = true ->
  (forall rows, bq_load_job infra rows = Returned tt) ->
  let run := Prefect.load_station_status_flow infra in
  result run = Returned tt /\
  (exists row, loaded_rows (trace run) = [row] /\
               data_fetched_at row = "2026-01-02T15:00:00" /\
               date_partition row = "2026-01-02") /\
  report_of (trace run) = mkReport 2 1 0.
Proof.
  intros Hledger Hlist Hj1 Hj2 Ht1 Ht2 Hread Hdata Hload. cbn zeta.
  assert (Hclient : bq_client infra = Returned tt).
  { apply (ledger_client infra "20260102_143000"). rewrite Hledger.
    now apply elem_of_singleton. }
  pose proof (flow_summary infra Hclient) as Hsum. cbn zeta in Hsum.
  assert (Hn1 : not_loaded (ledger_of infra) k1 = false).
  { unfold not_loaded. rewrite Hledger, Ht1. apply bool_decide_eq_false.
    intros Hnot. apply Hnot. now apply elem_of_singleton. }
  assert (Hn2 : not_loaded (ledger_of infra) k2 = true).
  { unfold not_loaded. rewrite Hledger, Ht2. apply bool_decide_eq_true.
    rewrite elem_of_singleton. discriminate. }
  assert (Hitem : item_outcome infra k2 =
                  Returned (mkRow (get_or_null document "last_updated")
                                  (get_or_null document "ttl")
                                  (get_or_null document "version")
                                  "2026-01-02T15:00:00" "2026-01-02"
                                  (json_dumps (stations_of document)))).
  { unfold item_outcome. rewrite Hread. cbn [mbind outcome_bind].
    rewrite plain_transform_dict, Ht2, Hdata. reflexivity. }
  assert (Hnew : exists names,
             gcs_list_blobs infra = Returned names /\
             List.length (json_files_of names) = 2 /\
             List.filter (not_loaded (ledger_of infra)) (json_files_of names) = [k2]).
  { destruct Hlist as [-> | ->]; eexists; (split; [reflexivity|]);
      unfold json_files_of; cbn [List.filter]; rewrite Hj1, Hj2; cbn [List.filter length];
      rewrite Hn1, Hn2; auto. }
  destruct Hnew as (names & Hnames & Hlen & Hfilter).
  rewrite Hnames, Hfilter, Hlen in Hsum. cbn [List.map List.filter] in Hsum.
  rewrite rows_of_cons, Hitem in Hsum. unfold fails in Hsum. rewrite Hitem in Hsum.
  cbn [returned negb rows_of flat_map] in Hsum. rewrite Hload in Hsum.
  destruct Hsum as (Hf & Hc & Hr & Hl).
  split; [exact Hr|]. split.
  - eexists. split; [exact Hl|]. split; reflexivity.
  - unfold report_of. now rewrite Hl, Hf, Hc.
Qed.

Lemma concrete_scenario_witness :
  let infra := mkInfra (Returned tt)
                       (Returned [Some (mkTimestamp (mkDatetime 2026 1 2 14 30 0) 0)])
                       (Returned [key_1500; key_1430])
                       (fun _ => Returned sample_document)
                       (fun _ => Returned tt) in
  let run := Prefect.load_station_status_flow infra in
  result run = Returned tt /\
  (exists row, loaded_rows (trace run) = [row] /\
               data_fetched_at row = "2026-01-02T15:00:00" /\
               date_partition row = "2026-01-02") /\
  report_of (trace run) = mkReport 2 1 0.
Proof.
  cbn zeta.
  apply (concrete_scenario _ key_1430 key_1500
           [("data", JDict [("stations", JList [])]);
            ("last_updated", JInt 1767366000); ("ttl", JInt 60); ("version", JStr "2.3")]).
  - vm_compute. reflexivity.
  - right. reflexivity.
  - reflexivity.
  - reflexivity.
  - reflexivity.
  - reflexivity.
  - reflexivity.
  - reflexivity.
  - reflexivity.
Defined.

(** ** The table as the ledger *)

Lemma parse_timestamp_isoformat t :
  valid_datetime t = true -> System.parse_timestamp (isoformat t) = Some t.
Proof.
  intros Hv. unfold System.parse_timestamp.
  assert (Hkeep : forall t', t' = t -> valid_datetime t' = true) by now intros ? ->.
  remember (isoformat t) as iso eqn:Eiso.
  spell_digits t. unfold isoformat in Eiso.
  cbn [year month day hour minute second] in Eiso.
  rewrite pad4_digits, !pad2_digits in Eiso by assumption. subst iso.
  cbn [match_classes]. rewrite !digit_digit_char by assumption.
  unfold exactly. rewrite !Ascii.eqb_refl. cbv beta iota. cbn [String.substring].
  rewrite int_of_digits4, !int_of_digits2 by assumption.
  now rewrite Hkeep.
Qed.

(** The column holds the timestamp the transformer stored, to the
    second. *)
Lemma value_of_isoformat row t :
  data_fetched_at row = isoformat t -> valid_datetime t = true ->
  System.value_of row = Some (mkTimestamp t 0).
Proof.
  intros Hiso Hv. unfold System.value_of. now rewrite Hiso, parse_timestamp_isoformat.
Qed.

Lemma in_remove_dups (results : list (option bq_timestamp)) x :
  In x (remove_dups results) <-> In x results.
Proof. now rewrite <- !list_elem_of_In, elem_of_remove_dups. Qed.

(** A table that is absent or holds a NULL value gives an empty
    ledger. *)
Lemma ledger_of_table_null store table :
  table = None \/ In None (System.values_in table) ->
  ledger_of (System.infra_of store table) = ∅.
Proof.
  intros [-> | Hnull]; [reflexivity|]. rewrite ledger_of_eq.
  destruct table as [contents|]; [|reflexivity].
  cbn [System.infra_of bq_client bq_select_distinct System.select_distinct_data_fetched_at
       mbind outcome_bind].
  rewrite add_loaded_timestamps_null; [reflexivity|]. now apply in_remove_dups.
Qed.

(** Without NULL values the ledger is the set of the prints of the
    values of the table. *)
Lemma ledger_of_table store table s :
  ~ In None (System.values_in table) ->
  s ∈ ledger_of (System.infra_of store table) <->
  exists value, In (Some value) (System.values_in table) /\ s = strftime (to_second value).
Proof.
  intros Hnull. destruct table as [contents|].
  - rewrite (ledger_of_values _ (remove_dups (System.values_in (Some contents))));
      [|reflexivity|reflexivity|now rewrite in_remove_dups].
    split; intros (value & Hin & ->); exists value; split; try reflexivity;
      now apply in_remove_dups.
  - rewrite ledger_of_table_null by now left. split.
    + intros H. now apply not_elem_of_empty in H.
    + intros (value & [] & _).
Qed.

Lemma rows_in_apply_trace table tr :
  System.rows_in (System.apply_trace table tr) = System.rows_in table ++ loaded_rows tr.
Proof.
  unfold System.apply_trace. revert table.
  induction tr as [|ev tr IH]; intros table; cbn [foldl].
  - cbn. now rewrite app_nil_r.
  - rewrite IH. destruct ev as [lvl msg|msg|rows]; try reflexivity.
    rewrite loaded_rows_job, app_assoc. f_equal. now destruct table.
Qed.

Lemma values_in_apply_trace table tr :
  System.values_in (System.apply_trace table tr) =
  System.values_in table ++ (System.value_of <$> loaded_rows tr).
Proof.
  unfold System.apply_trace. revert table.
  induction tr as [|ev tr IH]; intros table; cbn [foldl].
  - cbn. now rewrite app_nil_r.
  - rewrite IH. destruct ev as [lvl msg|msg|rows]; try reflexivity.
    rewrite loaded_rows_job, fmap_app, app_assoc. f_equal.
    destruct table as [contents|]; cbn; [|reflexivity].
    now rewrite fmap_app, app_assoc.
Qed.

Lemma item_row_timestamp infra blob_name row :
  item_outcome infra blob_name = Returned row ->
  exists t, strptime (timestamp_str_of blob_name) = Returned t /\
            data_fetched_at row = isoformat t.
Proof.
  unfold item_outcome. destruct (read_json_from_gcs infra blob_name) as [json_data|e];
    [|discriminate]. cbn [mbind outcome_bind].
  unfold Plain.transform_to_bigquery_row, timestamp_str_of.
  destruct (strptime _) as [t|e]; [|discriminate]. cbn.
  destruct json_data; try discriminate. cbn.
  destruct (match assoc "data" entries with Some v => v | None => JDict [] end);
    try discriminate.
  cbn. intros [= <-]. now exists t.
Qed.

Lemma rows_of_in infra blob_name row files :
  In blob_name files -> item_outcome infra blob_name = Returned row ->
  In row (rows_of (List.map (item_outcome infra) files)).
Proof.
  intros Hin Hrow. induction files as [|k files IH]; [contradiction|].
  cbn [List.map]. rewrite rows_of_cons. destruct Hin as [-> | Hin].
  - rewrite Hrow. now left.
  - specialize (IH Hin). destruct (item_outcome infra k); [now right | exact IH].
Qed.

Lemma rows_of_inv infra row files :
  In row (rows_of (List.map (item_outcome infra) files)) ->
  exists blob_name, In blob_name files /\ item_outcome infra blob_name = Returned row.
Proof.
  induction files as [|k files IH]; [contradiction|].
  cbn [List.map]. rewrite rows_of_cons.
  destruct (item_outcome infra k) as [row'|e] eqn:E.
  - intros [<- | Hin]; [exists k; split; [now left | exact E]|].
    destruct (IH Hin) as (b & Hb & Eb). exists b. split; [now right | exact Eb].
  - intros Hin. destruct (IH Hin) as (b & Hb & Eb). exists b. split; [now right | exact Eb].
Qed.

Lemma rows_of_all_raised infra files :
  Forall (fun k => returned (item_outcome infra k) = false) files ->
  rows_of (List.map (item_outcome infra) files) = [].
Proof.
  induction 1 as [|k files Hk _ IH]; [reflexivity|].
  cbn [List.map]. rewrite rows_of_cons. now destruct (item_outcome infra k).
Qed.

(** The rows of a batch all carry a timestamp the column can hold. *)
Lemma batch_values infra files :
  ~ In None (System.value_of <$> rows_of (List.map (item_outcome infra) files)).
Proof.
  rewrite <- list_elem_of_In, list_elem_of_fmap. intros (row & Hnone & Hin).
  apply list_elem_of_In, rows_of_inv in Hin as (k & _ & Hk).
  destruct (item_row_timestamp _ _ _ Hk) as (t & Hp & Hiso).
  rewrite (value_of_isoformat row t Hiso (strptime_valid _ _ Hp)) in Hnone. discriminate.
Qed.

(** A run against the store and the table ends normally and loads the
    rows of the items of its WorkSet that process. *)
Lemma system_run_summary store table :
  let infra := System.infra_of store table in
  let run := Prefect.load_station_status_flow infra in
  result run = Returned tt /\
  loaded_rows (trace run) =
    rows_of (List.map (item_outcome infra)
               (List.filter (not_loaded (ledger_of infra))
                            (json_files_of (List.map fst store)))).
Proof.
  cbn zeta. pose proof (flow_summary (System.infra_of store table) eq_refl) as Hsum.
  cbn zeta in Hsum. cbn [System.infra_of gcs_list_blobs bq_load_job] in Hsum.
  destruct Hsum as (_ & _ & Hrows).
  destruct (rows_of _) as [|r rs] in Hrows |- *; exact Hrows.
Qed.

(** A row the table holds keeps its key out of the WorkSet, provided no
    value of the table is NULL and the timestamp of the key prints back
    to the string it was parsed from. *)
Lemma loaded_key_not_new store table blob_name row t :
  ~ In None (System.values_in table) ->
  In row (System.rows_in table) ->
  strptime (timestamp_str_of blob_name) = Returned t ->
  data_fetched_at row = isoformat t ->
  strftime t = timestamp_str_of blob_name ->
  not_loaded (ledger_of (System.infra_of store table)) blob_name = false.
Proof.
  intros Hnull Hin Hp Hiso Hcanon. unfold not_loaded. apply bool_decide_eq_false.
  intros Hnot. apply Hnot, ledger_of_table; [exact Hnull|].
  exists (mkTimestamp t 0). split; [|exact (eq_sym Hcanon)].
  destruct table as [contents|]; [|contradiction]. cbn [System.values_in System.rows_in] in *.
  apply in_or_app. right. rewrite <- (value_of_isoformat row t Hiso (strptime_valid _ _ Hp)).
  now apply in_map.
Qed.

(** A key that follows the grammar and names a year from 1000 on prints
    back to its own timestamp. *)
Lemma matching_key_prints_back blob_name t :
  matches_YYYYMMDD_HHMMSS (timestamp_str_of blob_name) = true ->
  strptime (timestamp_str_of blob_name) = Returned t ->
  1000 <= year t ->
  strftime t = timestamp_str_of blob_name.
Proof.
  intros [Hp Hf]%strptime_matches Ht Hy. rewrite Hp in Ht. injection Ht as <-.
  now rewrite strftime_padded.
Qed.

(** C3, as the code has it.  Idempotence holds for every table none of
    whose [data_fetched_at] values is NULL (a missing table included)
    and for every store in which each key whose extracted timestamp
    parses carries that timestamp in the form [strftime] prints, that
    is, the parsed [datetime] prints back to the extracted string (every
    key [status_<YYYYMMDD_HHMMSS>.json] of a year from 1000 on does, see
    [matching_key_prints_back]).  Two runs in a row over the same store,
    with nothing failing but what the store and the table make fail: the
    second run ends normally, loads no row and leaves the rows of the
    table as the first run left them; every key of its WorkSet is a key
    whose processing fails, so none is a key the first run loaded. *)
Theorem second_run_loads_nothing (store : System.Store) (table : System.Table) :
  ~ In None (System.values_in table) ->
  (forall blob_name t,
      In blob_name (List.map fst store) ->
      strptime (timestamp_str_of blob_name) = Returned t ->
      strftime t = timestamp_str_of blob_name) ->
  let first := System.run store table in
  let second := System.run store first.2 in
  result second.1 = Returned tt /\
  loaded_rows (trace second.1) = [] /\
  System.rows_in second.2 = System.rows_in first.2 /\
  forall new_files,
    result (work_set (System.infra_of store first.2)) = Returned new_files ->
    Forall (fun k => returned (item_outcome (System.infra_of store table) k) = false)
           new_files.
Proof.
  intros Hnull Hcanon. cbn zeta. unfold System.run. cbn [fst snd].
  set (infra1 := System.infra_of store table).
  set (table1 := System.apply_trace table (trace (Prefect.load_station_status_flow infra1))).
  set (infra2 := System.infra_of store table1).
  destruct (system_run_summary store table) as [_ Hl1]. fold infra1 in Hl1.
  destruct (system_run_summary store table1) as [Hr2 Hl2]. fold infra2 in Hr2, Hl2.
  assert (Hvals1 : System.values_in table1 =
                   System.values_in table ++
                   (System.value_of <$>
                      rows_of (List.map (item_outcome infra1)
                                 (List.filter (not_loaded (ledger_of infra1))
                                              (json_files_of (List.map fst store)))))).
  { unfold table1. now rewrite values_in_apply_trace, Hl1. }
  assert (Hnull1 : ~ In None (System.values_in table1)).
  { rewrite Hvals1. intros [H|H]%in_app_or; [now apply Hnull|].
    now apply batch_values in H. }
  assert (Hfail : Forall (fun k => returned (item_outcome infra1 k) = false)
                    (List.filter (not_loaded (ledger_of infra2))
                                 (json_files_of (List.map fst store)))).
  { apply List.Forall_forall. intros k [Hk Hnew]%filter_In.
    destruct (item_outcome infra1 k) as [row|e] eqn:Hitem; [|reflexivity]. exfalso.
    destruct (item_row_timestamp _ _ _ Hitem) as (t & Hp & Hiso).
    assert (Hin : In k (List.map fst store))
      by (unfold json_files_of in Hk; now apply filter_In in Hk).
    pose proof (Hcanon k t Hin Hp) as Hc.
    unfold not_loaded in Hnew. apply bool_decide_eq_true in Hnew. apply Hnew.
    apply ledger_of_table; [exact Hnull1|]. rewrite Hvals1.
    destruct (not_loaded (ledger_of infra1) k) eqn:Hn1.
    - exists (mkTimestamp t 0). split; [|exact (eq_sym Hc)].
      apply in_or_app. right.
      rewrite <- (value_of_isoformat row t Hiso (strptime_valid _ _ Hp)).
      apply in_map, (rows_of_in infra1 k); [|exact Hitem]. apply filter_In. auto.
    - unfold not_loaded in Hn1. apply bool_decide_eq_false in Hn1.
      apply dec_stable in Hn1. apply ledger_of_table in Hn1; [|exact Hnull].
      destruct Hn1 as (value & Hvalue & Es). exists value.
      split; [apply in_or_app; now left | exact Es]. }
  assert (Hl2' : loaded_rows (trace (Prefect.load_station_status_flow infra2)) = []).
  { rewrite Hl2. now apply rows_of_all_raised. }
  split; [exact Hr2|]. split; [exact Hl2'|]. split.
  - now rewrite rows_in_apply_trace, Hl2', app_nil_r.
  - intros new_files. rewrite work_set_result.
    cbn [System.infra_of bq_client gcs_list_blobs mbind outcome_bind]. now intros [= <-].
Qed.

Lemma second_run_loads_nothing_witness :
  let first := System.run sample_store None in
  let second := System.run sample_store first.2 in
  List.length (loaded_rows (trace first.1)) = 2 /\
  result second.1 = Returned tt /\
  loaded_rows (trace second.1) = [] /\
  System.rows_in second.2 = System.rows_in first.2.
Proof.
  cbn zeta. split; [vm_compute; reflexivity|].
  destruct (second_run_loads_nothing sample_store None) as (H1 & H2 & H3 & _).
  - intros [].
  - intros blob_name t [<- | [<- | [<- | []]]]; vm_compute; intros [= <-]; reflexivity.
  - split; [exact H1|]. split; [exact H2 | exact H3].
Defined.

(** C3, counterexample: with a key that is off the zero-padded grammar
    but that [strptime] still parses, the first run loads its row under
    [2026-01-02T14:30:00], the ledger of the second run holds
    [20260102_143000], the key's own string [2026012_143000] is not in it,
    and the second run loads the same row again. *)
Lemma second_run_reloads_unpadded_key :
  let first := System.run unpadded_store None in
  let second := System.run unpadded_store first.2 in
  timestamp_str_of "raw/station_status/status_2026012_143000.json" = "2026012_143000" /\
  strptime "2026012_143000" = Returned (mkDatetime 2026 1 2 14 30 0) /\
  data_fetched_at <$> loaded_rows (trace first.1) = ["2026-01-02T14:30:00"] /\
  data_fetched_at <$> loaded_rows (trace second.1) = ["2026-01-02T14:30:00"] /\
  data_fetched_at <$> System.rows_in second.2 =
    ["2026-01-02T14:30:00"; "2026-01-02T14:30:00"].
Proof. cbn zeta. repeat split; vm_compute; reflexivity. Qed.

(** The same happens beside a row without a [data_fetched_at]: the
    reader gives up on the NULL value, the ledger is empty in every run,
    and a well-named snapshot is loaded again by the second run. *)
Example second_run_reloads_beside_null :
  let first := System.run one_key_store null_table in
  let second := System.run one_key_store first.2 in
  matches_YYYYMMDD_HHMMSS (timestamp_str_of key_1430) = true /\
  data_fetched_at <$> loaded_rows (trace first.1) = ["2026-01-02T14:30:00"] /\
  data_fetched_at <$> loaded_rows (trace second.1) = ["2026-01-02T14:30:00"] /\
  data_fetched_at <$> System.rows_in second.2 =
    ["2026-01-02T14:30:00"; "2026-01-02T14:30:00"].
Proof. cbn zeta. repeat split; vm_compute; reflexivity. Qed.

(** So does a key of a year before 1000, although its name follows the
    grammar: the ledger holds the year without its leading zero. *)
Example second_run_reloads_short_year_key :
  let first := System.run short_year_store None in
  let second := System.run short_year_store first.2 in
  matches_YYYYMMDD_HHMMSS
    (timestamp_str_of "raw/station_status/status_09990102_143000.json") = true /\
  data_fetched_at <$> loaded_rows (trace first.1) = ["0999-01-02T14:30:00"] /\
  data_fetched_at <$> loaded_rows (trace second.1) = ["0999-01-02T14:30:00"] /\
  data_fetched_at <$> System.rows_in second.2 =
    ["0999-01-02T14:30:00"; "0999-01-02T14:30:00"].
Proof. cbn zeta. repeat split; vm_compute; reflexivity. Qed.

(** C10, as the code has it.  For every string [t] that matches
    [YYYYMMDD_HHMMSS] and names a year from 1000 on, [strptime] returns
    a [datetime]; the transformer of the flow stores its ISO form as
    [data_fetched_at], and returns a row whenever the payload is a
    [dict] whose [data] entry is absent or a [dict]; the [TIMESTAMP]
    column reads that text back as the same [datetime]; and formatting
    it with [%Y%m%d_%H%M%S] gives [t] again.  Hence in every run in
    which the ledger reader builds its client, its query returns and
    none of the values is NULL, a value equal to that [datetime] to the
    second puts [t] in the set the reader returns, and the filter leaves
    every key whose timestamp is [t] out of the WorkSet; in particular
    so does every run against a table, free of NULL values, that holds
    the row. *)
Theorem stored_timestamp_normalises_back (t : string) :
  matches_YYYYMMDD_HHMMSS t = true ->
  1000 <= year (fields_of t) ->
  exists dt,
    strptime t = Returned dt /\
    System.parse_timestamp (isoformat dt) = Some dt /\
    strftime dt = t /\
    (forall blob_name entries,
       timestamp_str_of blob_name = t -> data_is_dict entries = true ->
       exists row,
         result (Prefect.transform_to_bigquery_row (JDict entries) blob_name) = Returned row /\
         data_fetched_at row = isoformat dt) /\
    (forall blob_name json_data row,
       timestamp_str_of blob_name = t ->
       result (Prefect.transform_to_bigquery_row json_data blob_name) = Returned row ->
       data_fetched_at row = isoformat dt) /\
    (forall infra results us,
       bq_client infra = Returned tt ->
       bq_select_distinct infra = Returned results ->
       ~ In None results ->
       In (Some (mkTimestamp dt us)) results ->
       exists loaded,
         result (Prefect.get_already_loaded_timestamps infra) = Returned loaded /\
         t ∈ loaded /\
         forall blob_name all_files new_files,
           timestamp_str_of blob_name = t ->
           result (Prefect.filter_new_files all_files loaded) = Returned new_files ->
           ~ In blob_name new_files) /\
    (forall store table blob_name row new_files,
       timestamp_str_of blob_name = t ->
       In row (System.rows_in table) ->
       data_fetched_at row = isoformat dt ->
       ~ In None (System.values_in table) ->
       result (work_set (System.infra_of store table)) = Returned new_files ->
       ~ In blob_name new_files).
Proof.
  intros Hm Hy. destruct (strptime_matches t Hm) as [Hp Hf].
  pose proof (strptime_valid _ _ Hp) as Hv.
  assert (Hback : strftime (fields_of t) = t) by now rewrite strftime_padded.
  exists (fields_of t). split; [exact Hp|]. split; [now apply parse_timestamp_isoformat|].
  split; [exact Hback|].
  assert (Hstored : forall blob_name json_data row,
             timestamp_str_of blob_name = t ->
             Plain.transform_to_bigquery_row json_data blob_name = Returned row ->
             data_fetched_at row = isoformat (fields_of t)).
  { intros blob_name json_data row Hts. unfold Plain.transform_to_bigquery_row.
    change (PyStr.replace ".json" EmptyString
              (PyStr.replace "status_" EmptyString (filename_of blob_name)))
      with (timestamp_str_of blob_name).
    rewrite Hts, Hp. cbn. destruct json_data; try discriminate. cbn.
    destruct (match assoc "data" entries with Some v => v | None => JDict [] end);
      try discriminate.
    cbn. now intros [= <-]. }
  split; [|split; [|split]].
  - intros blob_name entries Hts Hd.
    rewrite prefect_transform_result, plain_transform_dict, Hts, Hp, Hd.
    eexists. split; reflexivity.
  - intros blob_name json_data row Hts. rewrite prefect_transform_result.
    now apply Hstored.
  - intros infra results us Hc Hq Hnull Hin.
    pose proof (ledger_of_values infra results Hc Hq Hnull) as Hledger.
    destruct (ledger_step infra Hc) as (ev & E & _). rewrite E. cbn [result].
    exists (ledger_of infra). split; [reflexivity|].
    assert (Ht : t ∈ ledger_of infra).
    { apply Hledger. exists (mkTimestamp (fields_of t) us). split; [exact Hin|].
      exact (eq_sym Hback). }
    split; [exact Ht|].
    intros blob_name all_files new_files Hts. rewrite filter_new_files_result.
    intros [= <-] [_ Hnot]%in_new_files. apply Hnot. now rewrite Hts.
  - intros store table blob_name row new_files Hts Hin Hiso Hnull.
    rewrite work_set_result.
    cbn [System.infra_of bq_client gcs_list_blobs mbind outcome_bind].
    intros [= <-] [_ Hnew]%filter_In.
    rewrite (loaded_key_not_new store table blob_name row (fields_of t)) in Hnew;
      [discriminate | exact Hnull | exact Hin | now rewrite Hts | exact Hiso
      | now rewrite Hts].
Qed.

Lemma stored_timestamp_normalises_back_witness :
  matches_YYYYMMDD_HHMMSS "20260102_143000" = true /\
  exists dt, strptime "20260102_143000" = Returned dt /\
             System.parse_timestamp (isoformat dt) = Some dt /\
             strftime dt = "20260102_143000" /\
             exists row,
               result (Prefect.transform_to_bigquery_row (JDict []) key_1430) = Returned row /\
               data_fetched_at row = isoformat dt.
Proof.
  split; [reflexivity|].
  destruct (stored_timestamp_normalises_back "20260102_143000" eq_refl)
    as (dt & H1 & H2 & H3 & H4 & _).
  - apply Nat.leb_le. reflexivity.
  - exists dt. split; [exact H1|]. split; [exact H2|]. split; [exact H3|].
    exact (H4 key_1430 [] eq_refl eq_refl).
Defined.

(** C10, counterexample.  The string [09990102_143000] matches the
    grammar and [strptime] reads it as 999-01-02 14:30:00, which the
    transformer stores as [0999-01-02T14:30:00]; but [strftime] prints
    the year of that [datetime] without its leading zero, so the ledger
    holds [9990102_143000] and the row the first run loaded is loaded
    again by the second.  And a row that was loaded is taken again by a
    later run whose ledger query fails: its WorkSet holds the key. *)
Lemma short_year_does_not_normalise_back :
  let first := System.run short_year_store None in
  let second := System.run short_year_store first.2 in
  matches_YYYYMMDD_HHMMSS "09990102_143000" = true /\
  strptime "09990102_143000" = Returned (mkDatetime 999 1 2 14 30 0) /\
  isoformat (mkDatetime 999 1 2 14 30 0) = "0999-01-02T14:30:00" /\
  System.parse_timestamp "0999-01-02T14:30:00" = Some (mkDatetime 999 1 2 14 30 0) /\
  strftime (mkDatetime 999 1 2 14 30 0) = "9990102_143000" /\
  data_fetched_at <$> loaded_rows (trace first.1) = ["0999-01-02T14:30:00"] /\
  ledger_of (System.infra_of short_year_store first.2) = {[ "9990102_143000" ]} /\
  result (work_set (System.infra_of short_year_store first.2)) =
    Returned ["raw/station_status/status_09990102_143000.json"] /\
  data_fetched_at <$> loaded_rows (trace second.1) = ["0999-01-02T14:30:00"] /\
  result (work_set query_down_infra) = Returned [key_1430].
Proof. cbn zeta. repeat split; vm_compute; reflexivity. Qed.

(** ** The plain loader keeps the same isolation *)

Lemma loaded_rows_print msg tr : loaded_rows (Print msg :: tr) = loaded_rows tr.
Proof. reflexivity. Qed.

Lemma plain_process_file_eq infra i blob_name all_rows :
  exists tr,
    Plain.process_file infra i blob_name all_rows =
      mkM tr (Returned (all_rows ++ rows_of [item_outcome infra blob_name])) /\
    loaded_rows tr = [].
Proof.
  unfold Plain.process_file, item_outcome.
  destruct (read_json_from_gcs infra blob_name) as [json_data|e]; cbn [mbind outcome_bind].
  - destruct (Plain.transform_to_bigquery_row json_data blob_name) as [row|e].
    + destruct (v_data ← py_get json_data "data" (JDict []);
                v_stations ← py_get v_data "stations" (JList []);
                py_len v_stations);
        eexists; (split; [run_monad; reflexivity | reflexivity]).
    + eexists. split; [run_monad; cbn; rewrite app_nil_r; reflexivity | reflexivity].
  - eexists. split; [run_monad; cbn; rewrite app_nil_r; reflexivity | reflexivity].
Qed.

Lemma plain_process_files_eq infra i files all_rows :
  exists tr,
    Plain.process_files infra i files all_rows =
      mkM tr (Returned (all_rows ++ rows_of (List.map (item_outcome infra) files))) /\
    loaded_rows tr = [].
Proof.
  revert i all_rows. induction files as [|blob_name rest IH]; intros i all_rows.
  - exists []. cbn. rewrite app_nil_r. auto.
  - cbn [Plain.process_files].
    destruct (plain_process_file_eq infra i blob_name all_rows) as (tr1 & -> & L1).
    destruct (IH (S i) (all_rows ++ rows_of [item_outcome infra blob_name]))
      as (tr2 & E2 & L2).
    exists (tr1 ++ tr2). split.
    + unfold mbind at 1, M_bind. cbn [result trace]. rewrite E2. cbn [result trace].
      unfold rows_of. cbn [List.map flat_map]. rewrite <- !app_assoc. reflexivity.
    + now rewrite loaded_rows_app, L1, L2.
Qed.

(** The plain loader has no ledger: its batch is the rows of all the
    listed files that process, whatever the other files do. *)
Lemma plain_main_loads_what_processes infra names :
  gcs_list_blobs infra = Returned names ->
  (forall rows, bq_load_job infra rows = Returned tt) ->
  result (Plain.main infra) = Returned tt /\
  loaded_rows (trace (Plain.main infra)) =
    rows_of (List.map (item_outcome infra) (json_files_of names)).
Proof.
  intros Hlist Hload. unfold Plain.main, Plain.list_json_files. rewrite Hlist.
  run_monad. fold (json_files_of names).
  destruct (json_files_of names) as [|f fs]; [split; reflexivity|].
  destruct (plain_process_files_eq infra 1 (f :: fs) []) as (tr & -> & Ltr).
  cbn [app]. run_monad.
  destruct (rows_of (List.map (item_outcome infra) (f :: fs))) as [|r rs].
  - run_monad. rewrite !loaded_rows_print, loaded_rows_app, Ltr. split; reflexivity.
  - unfold Plain.load_to_bigquery. rewrite Hload. run_monad.
    rewrite !loaded_rows_print, loaded_rows_app, Ltr, !loaded_rows_print, loaded_rows_job.
    rewrite !loaded_rows_print. cbn. rewrite app_nil_r. split; reflexivity.
Qed.


(** ** Worked examples *)

Example filename_of_collector_key :
  filename_of key_1430 = "status_20260102_143000.json".
Proof. reflexivity. Qed.

Example timestamp_str_of_collector_key : timestamp_str_of key_1430 = "20260102_143000".
Proof. reflexivity. Qed.

Example replace_takes_every_occurrence :
  timestamp_str_of "a/status_status_x.json.jsonjson" = "xjson".
Proof. reflexivity. Qed.

Example strptime_padded :
  strptime "20260102_143000" = Returned (mkDatetime 2026 1 2 14 30 0).
Proof. reflexivity. Qed.

Example strptime_unpadded :
  strptime "2026012_143000" = Returned (mkDatetime 2026 1 2 14 30 0).
Proof. reflexivity. Qed.

Example strptime_backtracks :
  strptime "20260102_2359" = Returned (mkDatetime 2026 1 2 23 5 9).
Proof. reflexivity. Qed.

Example strptime_month_13 : strptime "20261301_143000" = Raised ValueError.
Proof. reflexivity. Qed.

Example strptime_february_30 : strptime "20260230_000000" = Raised ValueError.
Proof. reflexivity. Qed.

Example strptime_second_60 : strptime "20260102_143060" = Raised ValueError.
Proof. reflexivity. Qed.

Example strptime_trailing_text : strptime "20260102_143000x" = Raised ValueError.
Proof. reflexivity. Qed.

Example isoformat_sample : isoformat (mkDatetime 2026 1 2 15 0 0) = "2026-01-02T15:00:00".
Proof. reflexivity. Qed.

Example strftime_sample : strftime (mkDatetime 2026 1 2 14 30 0) = "20260102_143000".
Proof. reflexivity. Qed.

Example strftime_year_999 : strftime (mkDatetime 999 1 2 14 30 0) = "9990102_143000".
Proof. reflexivity. Qed.

Example strptime_of_strftime_year_999 :
  strptime (strftime (mkDatetime 999 1 2 14 30 0))
  = Returned (mkDatetime (10 * 999) 10 2 14 30 0).
Proof. reflexivity. Qed.

Example isoformat_year_999 : isoformat (mkDatetime 999 1 2 14 30 0) = "0999-01-02T14:30:00".
Proof. reflexivity. Qed.

Example json_dumps_not_a_number : json_dumps (JList [JFloat "nan"; JFloat "1.5"]) = "[NaN, 1.5]".
Proof. reflexivity. Qed.

Example json_dumps_sample :
  json_dumps (JList [JInt 1; JInt (-2); JNull; JBool true; JList []])
  = "[1, -2, null, true, []]".
Proof. reflexivity. Qed.

Example json_dumps_quotes :
  String.length (json_dumps (JDict [("a", JStr "x/y")])) = 12.
Proof. reflexivity. Qed.

Example plain_main_sample :
  List.length (loaded_rows (trace (Plain.main sample_infra))) = 2.
Proof. vm_compute. reflexivity. Qed.

(** * Further properties of the code *)

(** ** File names and timestamps *)

Lemma split_last_segment sep s :
  exists segs last,
    PyStr.split sep s = segs ++ [last] /\
    all_chars (is_not sep) last = true /\
    (s = last \/ exists dir, s = dir +:+ String sep last).
Proof.
  induction s as [|c s (segs & last & Hsplit & Hfree & Hshape)].
  - exists [], EmptyString. cbn. auto.
  - cbn [PyStr.split]. rewrite Hsplit. destruct (Ascii.eqb c sep) eqn:Ec.
    + apply Ascii.eqb_eq in Ec as ->.
      exists (EmptyString :: segs), last. split; [reflexivity|]. split; [exact Hfree|].
      right. destruct Hshape as [-> | [dir ->]].
      * now exists EmptyString.
      * now exists (String sep dir).
    + destruct segs as [|seg segs]; cbn [app].
      * exists [], (String c last). split; [reflexivity|]. split.
        -- cbn. unfold is_not at 1. now rewrite Ec, Hfree.
        -- left. destruct Hshape as [-> | [dir ->]]; [reflexivity|].
           (* a single segment cannot hold the separator *)
           exfalso. destruct (split_app sep dir last) as (seg & segs & E).
           rewrite E in Hsplit. destruct segs; cbn in Hsplit.
           ++ pose proof (split_nonempty sep last) as Hne.
              destruct (PyStr.split sep last); [contradiction | discriminate].
           ++ destruct segs; discriminate || (destruct (PyStr.split sep last); discriminate).
      * exists (String c seg :: segs), last. split; [reflexivity|]. split; [exact Hfree|].
        right. destruct Hshape as [-> | [dir ->]].
        -- exfalso. rewrite (split_free sep last Hfree) in Hsplit.
           destruct segs; discriminate.
        -- now exists (String c dir).
Qed.

(** X1. [blob_name.split('/')[-1]] is the part of the key after its
    last slash: it holds no slash, the key is either that name alone or a
    directory, a slash and that name, and taking the name of the name
    changes nothing. *)
Theorem filename_is_the_last_segment (blob_name : string) :
  all_chars (is_not "/") (filename_of blob_name) = true /\
  (blob_name = filename_of blob_name \/
   exists dir, blob_name = dir +:+ String "/" (filename_of blob_name)) /\
  filename_of (filename_of blob_name) = filename_of blob_name.
Proof.
  destruct (split_last_segment "/" blob_name) as (segs & last & Hs & Hfree & Hshape).
  assert (E : filename_of blob_name = last).
  { unfold filename_of. rewrite Hs, last_item_app by discriminate. reflexivity. }
  rewrite !E. split; [exact Hfree|]. split; [exact Hshape|]. now apply filename_of_bare.
Qed.

Lemma endswith_iff s suffix :
  PyStr.endswith s suffix = true <-> exists stem, s = stem +:+ suffix.
Proof.
  split.
  - induction s as [|c s IH]; cbn [PyStr.endswith]; intros H%orb_prop.
    + destruct H as [H%String.eqb_eq | H]; [|discriminate]. now exists EmptyString.
    + destruct H as [H%String.eqb_eq | H]; [now exists EmptyString|].
      destruct (IH H) as [stem ->]. now exists (String c stem).
  - intros [stem ->]. induction stem as [|c stem IH].
    + cbn [String.append]. destruct suffix; cbn [PyStr.endswith];
        now rewrite String.eqb_refl.
    + cbn [String.append PyStr.endswith]. rewrite IH. apply orb_true_r.
Qed.

(** X2. The ledger's normalisation and the transformer's parse are a
    round trip on the side of the stored values, for every valid value
    of a year from 1000 on: the reader's print of the value parses back
    to the value cut to the second and matches the grammar; and two
    values have the same print exactly when they agree to the second,
    so the ledger merges the values that differ in their microseconds
    only, and no others. *)
Theorem normalised_timestamp_parses_back (value1 value2 : bq_timestamp) :
  valid_datetime (to_second value1) = true -> 1000 <= year (to_second value1) ->
  valid_datetime (to_second value2) = true -> 1000 <= year (to_second value2) ->
  exists s1 s2,
    Prefect.row_timestamp_str (Some value1) = Returned s1 /\
    Prefect.row_timestamp_str (Some value2) = Returned s2 /\
    strptime s1 = Returned (to_second value1) /\
    matches_YYYYMMDD_HHMMSS s1 = true /\
    (s1 = s2 <-> to_second value1 = to_second value2).
Proof.
  intros Hv1 Hy1 Hv2 Hy2. eexists _, _. split; [reflexivity|]. split; [reflexivity|].
  split; [now apply strptime_strftime|]. split; [now apply matches_strftime|].
  split; [now apply strftime_injective | now intros ->].
Qed.

Lemma normalised_timestamp_parses_back_witness :
  exists s1 s2,
    Prefect.row_timestamp_str (Some (mkTimestamp (mkDatetime 2026 1 2 14 30 0) 0))
      = Returned s1 /\
    Prefect.row_timestamp_str (Some (mkTimestamp (mkDatetime 2026 1 2 14 30 0) 250))
      = Returned s2 /\
    strptime s1 = Returned (mkDatetime 2026 1 2 14 30 0) /\
    s1 = s2.
Proof.
  destruct (normalised_timestamp_parses_back
              (mkTimestamp (mkDatetime 2026 1 2 14 30 0) 0)
              (mkTimestamp (mkDatetime 2026 1 2 14 30 0) 250))
    as (s1 & s2 & H1 & H2 & H3 & _ & H5);
    [reflexivity | apply Nat.leb_le; reflexivity
    | reflexivity | apply Nat.leb_le; reflexivity |].
  exists s1, s2. split; [exact H1|]. split; [exact H2|]. split; [exact H3|].
  apply H5. reflexivity.
Defined.

Lemma first_success_inv {A B} (cands : list A) (k : A -> option B) b :
  first_success cands k = Some b -> exists a, In a cands /\ k a = Some b.
Proof.
  induction cands as [|a cands IH]; cbn [first_success]; [discriminate|].
  destruct (k a) as [b'|] eqn:E.
  - intros [= <-]. exists a. split; [now left | exact E].
  - intros H. destruct (IH H) as (a' & Hin & Ha'). exists a'. split; [now right | exact Ha'].
Qed.

(** The year [strptime] returns is the number its first four characters
    spell. *)
Lemma re_match_year s t rest :
  re_match_format s = Some (t, rest) ->
  exists tY s1, match_classes [digit; digit; digit; digit] s = Some (tY, s1) /\
                year t = int_of tY.
Proof.
  unfold re_match_format, re_Y. cbn [group_matches].
  destruct (match_classes [digit; digit; digit; digit] s) as [[tY s1]|]; [|discriminate].
  intros H. exists tY, s1. split; [reflexivity|].
  apply first_success_inv in H as (a & [<- | []] & H).
  apply first_success_inv in H as ([tm s2] & _ & H).
  apply first_success_inv in H as ([td s3] & _ & H).
  destruct s3 as [|c s4]; [discriminate|].
  assert (H' : first_success (group_matches re_H s4) (fun '(tH, s5) =>
               first_success (group_matches re_M s5) (fun '(tM, s6) =>
               first_success (group_matches re_S s6) (fun '(tS, s7) =>
                 Some (mkDatetime (int_of tY) (int_of tm) (int_of td)
                                  (int_of tH) (int_of tM) (int_of tS), s7))))
               = Some (t, rest)).
  { destruct c as [[] [] [] [] [] [] [] []]; first [discriminate H | exact H]. }
  clear H.
  apply first_success_inv in H' as ([tH s5] & _ & H).
  apply first_success_inv in H as ([tM s6] & _ & H).
  apply first_success_inv in H as ([tS s7] & _ & H).
  now injection H as <- _.
Qed.

Lemma strptime_year s t :
  strptime s = Returned t ->
  exists tY s1, match_classes [digit; digit; digit; digit] s = Some (tY, s1) /\
                year t = int_of tY.
Proof.
  unfold strptime. destruct (re_match_format s) as [[t' [|c rest]]|] eqn:E; try discriminate.
  destruct (valid_datetime t'); [|discriminate]. intros [= <-].
  now apply re_match_year in E.
Qed.

Lemma leading_digits a b c d rest :
  1 <= a < 10 -> b < 10 -> c < 10 -> d < 10 ->
  exists tY s1,
    match_classes [digit; digit; digit; digit]
      (String (digit_char a) (String (digit_char b) (String (digit_char c)
         (String (digit_char d) rest)))) = Some (tY, s1) /\
    1000 <= int_of tY.
Proof.
  intros Ha Hb Hc Hd. cbn [match_classes].
  rewrite !digit_digit_char by lia. eexists _, _. split; [reflexivity|].
  rewrite int_of_digits4 by lia. lia.
Qed.

(** What [strptime] reads as the year in a print of [strftime] is 1000
    or more. *)
Lemma strftime_leading_digits t :
  valid_datetime t = true ->
  exists tY s1,
    match_classes [digit; digit; digit; digit] (strftime t) = Some (tY, s1) /\
    1000 <= int_of tY.
Proof.
  intros Hv. destruct (valid_datetime_ranges t Hv) as (Hy & Hm & Hd & _).
  pose proof (days_in_month_le (year t) (month t)) as Hdim.
  destruct (split2 (month t)) as (Hm1 & Hm0 & _); [lia|].
  destruct (split2 (day t)) as (Hd1 & Hd0 & _); [lia|].
  unfold strftime, fmt_Y.
  destruct (Nat.ltb_spec (year t) 10) as [H10|H10].
  - unfold pad2 at 1 2. apply leading_digits; try assumption.
    rewrite Nat.mod_small by lia. lia.
  - destruct (Nat.ltb_spec (year t) 100) as [H100|H100].
    + destruct (split2 (year t)) as (Hy1 & Hy0 & Ey); [lia|].
      unfold pad2 at 1 2. apply leading_digits; try assumption. lia.
    + destruct (split4 (year t)) as (Hy3 & Hy2 & Hy1 & Hy0 & Ey); [lia|].
      destruct (Nat.ltb_spec (year t) 1000) as [H1000|H1000].
      * unfold pad2 at 1 2. apply leading_digits; try assumption.
        assert (E0 : year t / 1000 mod 10 = 0) by (now rewrite Nat.div_small by lia).
        lia.
      * unfold pad4, pad2 at 1. apply leading_digits; try assumption.
        assert (year t / 1000 < 10) by (apply Nat.Div0.div_lt_upper_bound; unfold MAXYEAR in *; lia).
        assert (1 <= year t / 1000) by (apply Nat.div_le_lower_bound; lia).
        rewrite Nat.mod_small by assumption. lia.
Qed.

(** A [datetime] that [strptime] reads off its own print is of a year
    from 1000 on. *)
Lemma prints_back_year t : strptime (strftime t) = Returned t -> 1000 <= year t.
Proof.
  intros Hp. pose proof (strptime_valid _ _ Hp) as Hv.
  destruct (strptime_year _ _ Hp) as (tY & s1 & E1 & ->).
  destruct (strftime_leading_digits t Hv) as (tY' & s1' & E2 & Hge).
  rewrite E1 in E2. now injection E2 as <- _.
Qed.

(** X3. The strings that survive parse-then-format are exactly the
    strings of the grammar that name a year from 1000 on: [strptime]
    returns [t] on [s] and [strftime] gives [s] back if and only if [s]
    matches [YYYYMMDD_HHMMSS], [t] is the [datetime] of its six fields
    and its year is 1000 or later.  Any other string that parses (a
    field without its leading zero, a year written with leading zeros)
    comes back changed. *)
Theorem prints_back_iff_matches (s : string) (t : datetime) :
  strptime s = Returned t /\ strftime t = s <->
  matches_YYYYMMDD_HHMMSS s = true /\ fields_of s = t /\ 1000 <= year t.
Proof.
  split.
  - intros [Hp Hf]. pose proof (strptime_valid _ _ Hp) as Hv.
    assert (Hy : 1000 <= year t) by (apply prints_back_year; now rewrite Hf).
    pose proof (matches_strftime t Hv Hy) as Hm. rewrite Hf in Hm. split; [exact Hm|].
    destruct (strptime_matches s Hm) as [Hp' _]. rewrite Hp in Hp'.
    split; [now injection Hp' | exact Hy].
  - intros (Hm & <- & Hy). destruct (strptime_matches s Hm) as [Hp Hf].
    split; [exact Hp|]. now rewrite strftime_padded.
Qed.

(** ** The lister, the filter and the ledger reader *)

Lemma filter_sublist {A} (f : A -> bool) (l : list A) : sublist (List.filter f l) l.
Proof.
  induction l as [|x l IH]; cbn [List.filter]; [constructor|].
  destruct (f x); now constructor.
Qed.

(** X4. Both listers keep exactly the names that end in [.json] (a stem
    followed by [.json]), in listing order, and log their number; when
    the listing raises, the lister raises the same exception and logs
    nothing.  An empty listing is an empty result, not an error. *)
Theorem lister_keeps_the_json_names (infra : Infra) :
  result (Plain.list_json_files infra) = result (Prefect.list_json_files infra) /\
  match gcs_list_blobs infra with
  | Raised e => Prefect.list_json_files infra = mkM [] (Raised e)
  | Returned names =>
      exists json_files,
        Prefect.list_json_files infra =
          mkM [Log INFO (FoundJsonFiles (List.length json_files))] (Returned json_files) /\
        sublist json_files names /\
        forall name, In name json_files <->
                     In name names /\ exists stem, name = stem +:+ ".json"
  end.
Proof.
  unfold Plain.list_json_files, Prefect.list_json_files.
  destruct (gcs_list_blobs infra) as [names|e]; [|split; reflexivity].
  split; [reflexivity|]. eexists. split; [reflexivity|]. split; [apply filter_sublist|].
  intros name. now rewrite filter_In, endswith_iff.
Qed.

Lemma filter_loop_trace files loaded new_files :
  trace (Prefect.filter_loop files loaded new_files) =
  List.map (fun blob_name =>
              Log INFO (if not_loaded loaded blob_name
                        then NewFileToLoad (filename_of blob_name)
                        else SkippingLoadedFile (filename_of blob_name))) files.
Proof.
  revert new_files. induction files as [|blob_name rest IH]; intros new_files;
    [reflexivity|].
  rewrite filter_loop_cons. cbn [List.map].
  destruct (not_loaded loaded blob_name); run_monad; now rewrite IH.
Qed.

(** X5. The log of the filter accounts for every file: one INFO record
    per listed file, in listing order, saying whether the file is new or
    already loaded, and then one record with the number of new files and
    the number of files; the first never exceeds the second. *)
Theorem filter_logs_every_file (all_files : list string) (loaded_timestamps : gset string) :
  let new_files := List.filter (not_loaded loaded_timestamps) all_files in
  Prefect.filter_new_files all_files loaded_timestamps =
    mkM (List.map (fun blob_name =>
                     Log INFO (if not_loaded loaded_timestamps blob_name
                               then NewFileToLoad (filename_of blob_name)
                               else SkippingLoadedFile (filename_of blob_name)))
                  all_files
         ++ [Log INFO (FoundNewFiles (List.length new_files) (List.length all_files))])
        (Returned new_files) /\
  List.length new_files <= List.length all_files.
Proof.
  cbn zeta. split; [|apply List.filter_length_le].
  unfold Prefect.filter_new_files.
  pose proof (filter_loop_trace all_files loaded_timestamps []) as Htr.
  destruct (filter_loop_eq all_files loaded_timestamps []) as (tr & E & _).
  rewrite E in Htr |- *. cbn [trace] in Htr. subst tr. reflexivity.
Qed.

Lemma not_loaded_mono (loaded loaded' : gset string) blob_name :
  loaded ⊆ loaded' -> not_loaded loaded' blob_name = true -> not_loaded loaded blob_name = true.
Proof.
  unfold not_loaded. rewrite !bool_decide_eq_true. set_solver.
Qed.

Lemma filter_filter_sublist {A} (f g : A -> bool) (l : list A) :
  (forall x, f x = true -> g x = true) -> sublist (List.filter f l) (List.filter g l).
Proof.
  intros Hfg. induction l as [|x l IH]; cbn [List.filter]; [constructor|].
  destruct (f x) eqn:Ef.
  - rewrite (Hfg x Ef). now constructor.
  - destruct (g x); [now constructor | exact IH].
Qed.

Lemma filter_idem {A} (f : A -> bool) (l : list A) :
  List.filter f (List.filter f l) = List.filter f l.
Proof.
  induction l as [|x l IH]; cbn [List.filter]; [reflexivity|].
  destruct (f x) eqn:Ef; [|exact IH]. cbn [List.filter]. now rewrite Ef, IH.
Qed.

(** X6. The filter only ever drops files.  With an empty ledger it
    returns the listing unchanged; for any ledger its result is a
    sub-list of the listing in the same order; filtering the result
    again with the same ledger changes nothing; and a larger ledger
    gives a sub-list of what a smaller one gives. *)
Theorem filter_only_drops_files
    (all_files : list string) (loaded_timestamps larger : gset string) :
  loaded_timestamps ⊆ larger ->
  result (Prefect.filter_new_files all_files ∅) = Returned all_files /\
  exists new_files fewer,
    result (Prefect.filter_new_files all_files loaded_timestamps) = Returned new_files /\
    sublist new_files all_files /\
    result (Prefect.filter_new_files new_files loaded_timestamps) = Returned new_files /\
    result (Prefect.filter_new_files all_files larger) = Returned fewer /\
    sublist fewer new_files.
Proof.
  intros Hsub. rewrite !filter_new_files_result. split.
  - f_equal. induction all_files as [|k l IH]; [reflexivity|]. cbn [List.filter].
    assert (not_loaded ∅ k = true) as -> by (apply bool_decide_eq_true; set_solver).
    now rewrite IH.
  - eexists _, _. split; [reflexivity|]. split; [apply filter_sublist|].
    rewrite ?filter_new_files_result, filter_idem. split; [reflexivity|].
    split; [reflexivity|].
    apply filter_filter_sublist. intros k. now apply not_loaded_mono.
Qed.

Lemma filter_only_drops_files_witness :
  result (Prefect.filter_new_files [key_1430; key_1500] ∅) = Returned [key_1430; key_1500] /\
  result (Prefect.filter_new_files [key_1430; key_1500] {[ "20260102_143000" ]})
    = Returned [key_1500].
Proof.
  destruct (filter_only_drops_files [key_1430; key_1500] ∅ {[ "20260102_143000" ]})
    as (H1 & _); [apply empty_subseteq|].
  split; [exact H1 | vm_compute; reflexivity].
Defined.

Lemma length_remove_dups `{EqDecision A} (l : list A) :
  List.length (remove_dups l) <= List.length l.
Proof.
  induction l as [|x l IH]; cbn [remove_dups length]; [lia|].
  destruct (decide_rel elem_of x l); cbn [length]; lia.
Qed.

(** X7. The count the ledger reader logs is the number of distinct
    timestamps to the second.  When the client is built and the query
    returns valid values of a year from 1000 on, none of them NULL, the
    set the reader returns has one element per value cut to the second
    (values that differ in their microseconds only count once), and its
    size is what the one INFO record says. *)
Theorem ledger_reader_counts_timestamps (infra : Infra) (values : list bq_timestamp) :
  bq_client infra = Returned tt ->
  bq_select_distinct infra = Returned (Some <$> values) ->
  Forall (fun value => valid_datetime (to_second value) = true /\
                       1000 <= year (to_second value)) values ->
  exists loaded : gset string,
    Prefect.get_already_loaded_timestamps infra =
      mkM [Log INFO (FoundLoadedTimestamps (size loaded))] (Returned loaded) /\
    size loaded = List.length (remove_dups (to_second <$> values)) /\
    size loaded <= List.length values.
Proof.
  intros Hc Hq Hv.
  assert (Hnull : ~ In None (Some <$> values)).
  { rewrite <- list_elem_of_In, list_elem_of_fmap. now intros (value & [=] & _). }
  rewrite get_already_loaded_timestamps_eq, Hc, Hq. cbn [mbind outcome_bind].
  destruct (add_loaded_timestamps_values (Some <$> values) ∅ Hnull) as (loaded & -> & Hl).
  exists loaded. split; [reflexivity|].
  assert (E : loaded = list_to_set (strftime <$> remove_dups (to_second <$> values))).
  { apply set_eq. intros s. rewrite Hl, elem_of_list_to_set, list_elem_of_fmap. split.
    - intros [H | (value & Hin & ->)]; [now apply not_elem_of_empty in H|].
      exists (to_second value). split; [reflexivity|].
      apply elem_of_remove_dups, list_elem_of_fmap. exists value. split; [reflexivity|].
      apply list_elem_of_In, list_elem_of_fmap in Hin as (value' & [= ->] & Hin).
      exact Hin.
    - intros (t & -> & Ht). apply elem_of_remove_dups, list_elem_of_fmap in Ht.
      destruct Ht as (value & -> & Hin). right. exists value. split; [|reflexivity].
      apply list_elem_of_In. apply list_elem_of_fmap. now exists value. }
  assert (Hsize : size loaded = List.length (remove_dups (to_second <$> values))).
  { rewrite E, size_list_to_set, length_fmap; [reflexivity|].
    apply NoDup_fmap_2_strong; [|apply NoDup_remove_dups].
    intros t1 t2 H1 H2 Et. rewrite List.Forall_forall in Hv.
    apply elem_of_remove_dups, list_elem_of_fmap in H1 as (v1 & -> & H1).
    apply elem_of_remove_dups, list_elem_of_fmap in H2 as (v2 & -> & H2).
    apply list_elem_of_In in H1, H2.
    destruct (Hv _ H1) as [Hv1 Hy1]. destruct (Hv _ H2) as [Hv2 Hy2].
    now apply strftime_injective. }
  split; [exact Hsize|]. rewrite Hsize.
  etransitivity; [apply length_remove_dups|]. now rewrite length_fmap.
Qed.

Lemma ledger_reader_counts_timestamps_witness :
  exists loaded : gset string,
    Prefect.get_already_loaded_timestamps
      (mkInfra (Returned tt)
               (Returned [Some (mkTimestamp (mkDatetime 2026 1 2 14 30 0) 0);
                          Some (mkTimestamp (mkDatetime 2026 1 2 14 30 0) 250);
                          Some (mkTimestamp (mkDatetime 2026 1 2 15 0 0) 0)])
               (Returned []) (fun _ => Raised NotFound) (fun _ => Returned tt)) =
      mkM [Log INFO (FoundLoadedTimestamps (size loaded))] (Returned loaded) /\
    size loaded = 2.
Proof.
  destruct (ledger_reader_counts_timestamps
           (mkInfra (Returned tt)
               (Returned [Some (mkTimestamp (mkDatetime 2026 1 2 14 30 0) 0);
                          Some (mkTimestamp (mkDatetime 2026 1 2 14 30 0) 250);
                          Some (mkTimestamp (mkDatetime 2026 1 2 15 0 0) 0)])
               (Returned []) (fun _ => Raised NotFound) (fun _ => Returned tt))
           [mkTimestamp (mkDatetime 2026 1 2 14 30 0) 0;
            mkTimestamp (mkDatetime 2026 1 2 14 30 0) 250;
            mkTimestamp (mkDatetime 2026 1 2 15 0 0) 0])
    as (loaded & H1 & H2 & _).
  - reflexivity.
  - reflexivity.
  - repeat (apply List.Forall_cons;
            [split; [reflexivity | apply Nat.leb_le; reflexivity]|]).
    apply List.Forall_nil.
  - exists loaded. split; [exact H1 | exact H2].
Defined.

(** ** The flow as a whole *)

Lemma load_jobs_app tr1 tr2 : load_jobs (tr1 ++ tr2) = load_jobs tr1 ++ load_jobs tr2.
Proof. unfold load_jobs. now rewrite flat_map_app. Qed.

Lemma load_jobs_log lvl msg tr : load_jobs (Log lvl msg :: tr) = load_jobs tr.
Proof. reflexivity. Qed.

Lemma load_jobs_job rows tr : load_jobs (LoadJob rows :: tr) = rows :: load_jobs tr.
Proof. reflexivity. Qed.

Lemma load_jobs_silent ev tr : silent ev = true -> load_jobs (ev :: tr) = load_jobs tr.
Proof. destruct ev; [reflexivity | reflexivity | discriminate]. Qed.

Ltac count_jobs :=
  repeat first
    [ rewrite load_jobs_app | rewrite load_jobs_log | rewrite load_jobs_job
    | rewrite load_jobs_silent by assumption ].

Lemma load_jobs_logs tr :
  Forall (fun ev => exists lvl msg, ev = Log lvl msg) tr -> load_jobs tr = [].
Proof.
  induction 1 as [|ev tr (lvl & msg & ->) _ IH]; [reflexivity|]. exact IH.
Qed.

Lemma process_file_logs infra blob_name all_rows :
  Forall (fun ev => exists lvl msg, ev = Log lvl msg)
         (trace (Prefect.process_file infra blob_name all_rows)).
Proof.
  unfold Prefect.process_file.
  destruct (read_json_from_gcs infra blob_name) as [json_data|e].
  - pose proof (prefect_transform_eq json_data blob_name) as E.
    destruct (Plain.transform_to_bigquery_row json_data blob_name) as [row|e];
      [destruct (strptime (timestamp_str_of blob_name)) as [t|e]|];
      unfold try_except, lift, mbind, M_bind; cbn; rewrite E; cbn;
      repeat constructor; eauto.
  - unfold try_except, lift, mbind, M_bind; cbn. repeat constructor; eauto.
Qed.

Lemma process_files_logs infra files all_rows :
  Forall (fun ev => exists lvl msg, ev = Log lvl msg)
         (trace (Prefect.process_files infra files all_rows)).
Proof.
  revert all_rows. induction files as [|blob_name rest IH]; intros all_rows;
    [constructor|].
  cbn [Prefect.process_files].
  pose proof (process_file_logs infra blob_name all_rows) as H1.
  destruct (process_file_eq infra blob_name all_rows) as (tr1 & E & _).
  rewrite E in H1 |- *. unfold mbind, M_bind. cbn [result trace] in *.
  apply Forall_app. split; [exact H1 | apply IH].
Qed.

Lemma last_two {A} (l : list A) (x y : A) : last (l ++ [x; y]) = Some y.
Proof. change (l ++ [x; y]) with (l ++ [x] ++ [y]). now rewrite app_assoc, last_snoc. Qed.

(** The load jobs of a run and the record its log ends with. *)
Lemma flow_shape infra :
  bq_client infra = Returned tt ->
  let run := Prefect.load_station_status_flow infra in
  match gcs_list_blobs infra with
  | Raised e => load_jobs (trace run) = []
  | Returned names =>
      match json_files_of names with
      | [] => load_jobs (trace run) = [] /\
              last (trace run) = Some (Log WARNING NoJsonFilesFound)
      | _ :: _ =>
          match work_set_of infra names with
          | [] => load_jobs (trace run) = [] /\ last (trace run) = Some (Log INFO NoNewFiles)
          | _ :: _ =>
              match batch_of infra names with
              | [] => load_jobs (trace run) = [] /\
                      last (trace run) = Some (Log WARNING NoRowsToLoad)
              | _ :: _ =>
                  match bq_load_job infra (batch_of infra names) with
                  | Returned _ =>
                      load_jobs (trace run) = [batch_of infra names] /\
                      last (trace run) =
                        Some (Log INFO (PipelineComplete (List.length (batch_of infra names))))
                  | Raised _ =>
                      load_jobs (trace run) = [] /\
                      last (trace run) =
                        Some (Log INFO (LoadingRows (List.length (batch_of infra names))))
                  end
              end
          end
      end
  end.
Proof.
  intros Hc. cbn zeta. unfold Prefect.load_station_status_flow, batch_of, work_set_of.
  destruct (ledger_step infra Hc) as (ev & -> & Hev).
  unfold Prefect.list_json_files.
  destruct (gcs_list_blobs infra) as [names|e].
  2:{ run_monad. now count_jobs. }
  unfold json_files_of. run_monad.
  destruct (List.filter (fun name => PyStr.endswith name ".json") names)
    as [|f fs] eqn:Efiles.
  { run_monad. split; [now count_jobs | reflexivity]. }
  destruct (filter_new_files_eq (f :: fs) (ledger_of infra)) as (trf & -> & Htrf).
  assert (Jf : load_jobs trf = []).
  { apply load_jobs_logs. eapply Forall_impl; [exact Htrf|].
    intros x [fn [-> | ->]]; eauto. }
  destruct (List.filter (not_loaded (ledger_of infra)) (f :: fs)) as [|nf nfs] eqn:Enew.
  { run_monad. split.
    - count_jobs. now rewrite Jf.
    - rewrite ?app_comm_cons, ?app_assoc. apply last_snoc. }
  run_monad.
  pose proof (process_files_logs infra (nf :: nfs) []) as Hp.
  destruct (process_files_eq infra (nf :: nfs) []) as (trp & Ep & _).
  rewrite Ep in Hp |- *. cbn [trace] in Hp. apply load_jobs_logs in Hp.
  cbn [app]. run_monad.
  destruct (rows_of (List.map (item_outcome infra) (nf :: nfs))) as [|r rs] eqn:Erows.
  { run_monad. split.
    - count_jobs. now rewrite Jf, Hp.
    - rewrite ?app_comm_cons, ?app_assoc. apply last_snoc. }
  unfold Prefect.load_to_bigquery. run_monad.
  destruct (bq_load_job infra (r :: rs)) as [[]|e]; run_monad.
  - split.
    + count_jobs. now rewrite Jf, Hp.
    + rewrite ?app_comm_cons, ?app_assoc.
      match goal with |- last (?l ++ [?a; ?b; ?c; ?d]) = _ =>
        change (l ++ [a; b; c; d]) with (l ++ [a; b; c] ++ [d]) end.
      rewrite app_assoc. apply last_snoc.
  - split.
    + count_jobs. now rewrite Jf, Hp.
    + rewrite ?app_comm_cons, ?app_assoc. apply last_snoc.
Qed.

(** X8. Every load job of a run carries the whole batch of the run,
    and never an empty one: whatever load job the trace of a run holds,
    its rows are the rows of all the keys of the WorkSet that process,
    in WorkSet order, and there is at least one.  So a run in which
    nothing processes starts no load job. *)
Theorem every_load_job_carries_the_whole_batch (infra : Infra) :
  let run := Prefect.load_station_status_flow infra in
  Forall (fun job =>
            job <> [] /\
            exists names, gcs_list_blobs infra = Returned names /\ job = batch_of infra names)
         (load_jobs (trace run)) /\
  (forall names, gcs_list_blobs infra = Returned names -> batch_of infra names = [] ->
                 load_jobs (trace run) = []).
Proof.
  cbn zeta. destruct (client_cases infra) as [Hc | [e Hc]].
  2:{ rewrite (flow_client_raised infra e Hc). split; [constructor | reflexivity]. }
  pose proof (flow_shape infra Hc) as Hshape. cbn zeta in Hshape.
  destruct (gcs_list_blobs infra) as [names|e].
  2:{ rewrite Hshape. split; [constructor | discriminate]. }
  assert (Hjobs : load_jobs (trace (Prefect.load_station_status_flow infra)) = [] \/
                  (batch_of infra names <> [] /\
                   load_jobs (trace (Prefect.load_station_status_flow infra))
                   = [batch_of infra names])).
  { destruct (json_files_of names); [left; tauto|].
    destruct (work_set_of infra names); [left; tauto|].
    destruct (batch_of infra names) as [|r rs]; [left; tauto|].
    destruct (bq_load_job infra (r :: rs)); [right | left; tauto].
    split; [discriminate | tauto]. }
  destruct Hjobs as [-> | [Hne ->]].
  - split; [constructor | reflexivity].
  - split.
    + repeat constructor; [exact Hne|]. now exists names.
    + intros names' [= <-] Hb. contradiction.
Qed.

(** X9. What makes a run fail.  The flow raises [e] exactly when the
    ledger reader cannot build its client and that raises [e], or the
    listing raises [e], or the batch is not empty and the load job
    raises [e].  A failed ledger query, a NULL value in its result and
    failed items never make it raise. *)
Theorem flow_fails_only_on_client_listing_or_load (infra : Infra) (e : exn) :
  result (Prefect.load_station_status_flow infra) = Raised e <->
  bq_client infra = Raised e \/
  (bq_client infra = Returned tt /\ gcs_list_blobs infra = Raised e) \/
  (bq_client infra = Returned tt /\
   exists names,
     gcs_list_blobs infra = Returned names /\ batch_of infra names <> [] /\
     bq_load_job infra (batch_of infra names) = Raised e).
Proof.
  destruct (client_cases infra) as [Hc | [e0 Hc]].
  2:{ rewrite (flow_client_raised infra e0 Hc), Hc. cbn [result]. split.
      - intros [= <-]. now left.
      - intros [[= <-] | [[[=] _] | [[=] _]]]. reflexivity. }
  pose proof (flow_summary infra Hc) as Hsum. cbn zeta in Hsum.
  rewrite Hc. unfold batch_of, work_set_of.
  destruct (gcs_list_blobs infra) as [names|e'].
  - destruct Hsum as (_ & _ & Hrows).
    destruct (rows_of _) as [|r rs] eqn:Eb.
    + destruct Hrows as [-> _]. split; [discriminate|].
      intros [[=] | [[_ [=]] | (_ & names' & [= <-] & Hne & _)]].
      rewrite Eb in Hne. contradiction.
    + destruct (bq_load_job infra (r :: rs)) as [[]|e''] eqn:El; destruct Hrows as [-> _].
      * split; [discriminate|].
        intros [[=] | [[_ [=]] | (_ & names' & [= <-] & _ & Hl)]].
        rewrite Eb, El in Hl. discriminate.
      * split.
        -- intros [= <-]. right. right. split; [reflexivity|]. exists names. rewrite Eb.
           repeat split; try discriminate; auto.
        -- intros [[=] | [[_ [=]] | (_ & names' & [= <-] & _ & Hl)]].
           rewrite Eb, El in Hl. exact Hl.
  - destruct Hsum as [-> _]. split.
    + intros [= <-]. right. now left.
    + intros [[=] | [[_ [= <-]] | (_ & names & [=] & _)]]. reflexivity.
Qed.

(** X10. The last record of the log tells how a run ended, whenever the
    listing and the load job succeed: a warning that no file was found,
    a note that nothing is new, a warning that every item failed, or the
    number of snapshots loaded.  In all four cases the run ends
    normally, so a run with nothing to do is not a failed run.  (These
    are the runs whose ledger reader built its client; in a run whose
    reader could not, the listing is never asked for: the run raises
    what the client raised, right after its first record.) *)
Theorem last_record_tells_how_the_run_ended (infra : Infra) (names : list string) :
  gcs_list_blobs infra = Returned names ->
  (forall rows, bq_load_job infra rows = Returned tt) ->
  let run := Prefect.load_station_status_flow infra in
  match bq_client infra with
  | Returned _ =>
      result run = Returned tt /\
      last (trace run) =
        Some (match json_files_of names, work_set_of infra names, batch_of infra names with
              | [], _, _ => Log WARNING NoJsonFilesFound
              | _ :: _, [], _ => Log INFO NoNewFiles
              | _ :: _, _ :: _, [] => Log WARNING NoRowsToLoad
              | _ :: _, _ :: _, r :: rs => Log INFO (PipelineComplete (List.length (r :: rs)))
              end)
  | Raised e =>
      result run = Raised e /\ last (trace run) = Some (Log INFO StartingPipeline)
  end.
Proof.
  intros Hlist Hload. cbn zeta.
  destruct (client_cases infra) as [Hc | [e Hc]].
  2:{ rewrite (flow_client_raised infra e Hc), Hc. split; reflexivity. }
  rewrite Hc.
  pose proof (flow_shape infra Hc) as Hshape. pose proof (flow_summary infra Hc) as Hsum.
  cbn zeta in Hshape, Hsum. rewrite Hlist in Hshape, Hsum.
  destruct Hsum as (_ & _ & Hrows). fold (work_set_of infra names) in Hrows.
  fold (batch_of infra names) in Hrows.
  split.
  - destruct (batch_of infra names); [tauto|]. rewrite Hload in Hrows. tauto.
  - destruct (json_files_of names); [tauto|].
    destruct (work_set_of infra names); [tauto|].
    destruct (batch_of infra names) eqn:Eb; [tauto|].
    rewrite Hload in Hshape. tauto.
Qed.

Lemma last_record_tells_how_the_run_ended_witness :
  last (trace (Prefect.load_station_status_flow sample_infra))
  = Some (Log INFO (PipelineComplete 2)) /\
  last (trace (Prefect.load_station_status_flow lone_corrupt_infra))
  = Some (Log WARNING NoRowsToLoad).
Proof.
  split.
  - exact (proj2 (last_record_tells_how_the_run_ended sample_infra
                    [key_1430; key_1500; key_1530] eq_refl (fun _ => eq_refl))).
  - exact (proj2 (last_record_tells_how_the_run_ended lone_corrupt_infra
                    [key_1500] eq_refl (fun _ => eq_refl))).
Defined.

Lemma rows_and_failures infra files :
  List.length (rows_of (List.map (item_outcome infra) files)) +
  List.length (List.filter (fails infra) files) = List.length files.
Proof.
  induction files as [|k files IH]; [reflexivity|].
  cbn [List.map List.filter]. rewrite rows_of_cons. unfold fails at 1.
  destruct (item_outcome infra k); cbn [returned negb length]; lia.
Qed.

(** X11. Every key of the WorkSet is accounted for exactly once: when
    the listing and the load job succeed, the number of rows loaded plus
    the number of items reported as failed is the size of the WorkSet,
    and the items reported are exactly the keys of the WorkSet whose read
    or transformation raised, in WorkSet order.  (Again for the runs
    whose ledger reader built its client; a run whose reader could not
    has no WorkSet: it loads nothing and reports nothing.) *)
Theorem every_work_set_key_is_loaded_or_reported (infra : Infra) (names : list string) :
  gcs_list_blobs infra = Returned names ->
  (forall rows, bq_load_job infra rows = Returned tt) ->
  let run := Prefect.load_station_status_flow infra in
  match bq_client infra with
  | Returned _ =>
      List.length (loaded_rows (trace run)) + List.length (failed_items (trace run))
        = List.length (work_set_of infra names) /\
      failed_items (trace run) = List.filter (fails infra) (work_set_of infra names) /\
      loaded_rows (trace run) = batch_of infra names
  | Raised _ => loaded_rows (trace run) = [] /\ failed_items (trace run) = []
  end.
Proof.
  intros Hlist Hload. cbn zeta.
  destruct (client_cases infra) as [Hc | [e Hc]].
  2:{ rewrite (flow_client_raised infra e Hc), Hc. split; reflexivity. }
  rewrite Hc.
  pose proof (flow_summary infra Hc) as Hsum. cbn zeta in Hsum. rewrite Hlist in Hsum.
  fold (work_set_of infra names) in Hsum. fold (batch_of infra names) in Hsum.
  destruct Hsum as (Hf & _ & Hrows).
  assert (Hl : loaded_rows (trace (Prefect.load_station_status_flow infra)) =
               batch_of infra names).
  { destruct (batch_of infra names) eqn:Eb; [tauto|]. rewrite Hload in Hrows. tauto. }
  rewrite Hl, Hf. split; [apply rows_and_failures | auto].
Qed.

Lemma every_work_set_key_is_loaded_or_reported_witness :
  let run := Prefect.load_station_status_flow sample_infra in
  List.length (loaded_rows (trace run)) + List.length (failed_items (trace run)) = 3.
Proof.
  exact (proj1 (every_work_set_key_is_loaded_or_reported sample_infra
                  [key_1430; key_1500; key_1530] eq_refl (fun _ => eq_refl))).
Defined.

Lemma process_files_ext infra1 infra2 files all_rows :
  (forall blob_name, In blob_name files ->
     read_json_from_gcs infra1 blob_name = read_json_from_gcs infra2 blob_name) ->
  Prefect.process_files infra1 files all_rows = Prefect.process_files infra2 files all_rows.
Proof.
  revert all_rows. induction files as [|blob_name rest IH]; intros all_rows Hread;
    [reflexivity|].
  cbn [Prefect.process_files]. unfold Prefect.process_file.
  rewrite (Hread blob_name) by now left.
  destruct (process_file_eq infra2 blob_name all_rows) as (tr & E & _).
  unfold Prefect.process_file in E. rewrite E. run_monad.
  rewrite IH; [reflexivity|]. intros k Hk. apply Hread. now right.
Qed.

(** X12. The flow reads no object outside its WorkSet.  Two runs whose
    services agree on the query, the listing and the load job, and that
    read the same thing at every key of the WorkSet, are the same run,
    whatever reading any other object (a file already in the ledger, a
    file that is not JSON) would give. *)
Theorem only_work_set_keys_are_read (infra1 infra2 : Infra) :
  same_but_reads infra1 infra2 ->
  (forall names blob_name,
      gcs_list_blobs infra1 = Returned names ->
      In blob_name (work_set_of infra1 names) ->
      read_json_from_gcs infra1 blob_name = read_json_from_gcs infra2 blob_name) ->
  Prefect.load_station_status_flow infra1 = Prefect.load_station_status_flow infra2.
Proof.
  intros (Hcl & Hq & Hl & Hj) Hread.
  assert (Ereader : Prefect.get_already_loaded_timestamps infra2 =
                    Prefect.get_already_loaded_timestamps infra1)
    by (rewrite !get_already_loaded_timestamps_eq; now rewrite Hcl, Hq).
  unfold Prefect.load_station_status_flow. rewrite Ereader.
  destruct (client_cases infra1) as [Hc | [e Hc]].
  2:{ now rewrite (client_raised infra1 e Hc). }
  destruct (ledger_step infra1 Hc) as (ev & -> & _).
  unfold Prefect.list_json_files. rewrite <- Hl.
  destruct (gcs_list_blobs infra1) as [names|e] eqn:Elist; [|reflexivity].
  specialize (Hread names). unfold work_set_of, json_files_of in Hread.
  run_monad.
  destruct (List.filter (fun name => PyStr.endswith name ".json") names) as [|f fs];
    [reflexivity|].
  destruct (filter_new_files_eq (f :: fs) (ledger_of infra1)) as (trf & -> & _).
  run_monad.
  destruct (List.filter (not_loaded (ledger_of infra1)) (f :: fs)) as [|nf nfs];
    [reflexivity|].
  rewrite <- (process_files_ext infra1 infra2 (nf :: nfs) [])
    by (intros k Hk; now apply Hread).
  destruct (process_files_eq infra1 (nf :: nfs) []) as (trp & -> & _).
  run_monad. destruct (rows_of _) as [|r rs]; [reflexivity|].
  unfold Prefect.load_to_bigquery. now rewrite Hj.
Qed.

Lemma only_work_set_keys_are_read_witness :
  Prefect.load_station_status_flow
    (mkInfra (Returned tt) (Returned [Some (mkTimestamp (mkDatetime 2026 1 2 14 30 0) 0)])
             (Returned [key_1430; key_1500])
             (fun _ => Returned sample_document) (fun _ => Returned tt)) =
  Prefect.load_station_status_flow
    (mkInfra (Returned tt) (Returned [Some (mkTimestamp (mkDatetime 2026 1 2 14 30 0) 0)])
             (Returned [key_1430; key_1500])
             (fun blob_name => if String.eqb blob_name key_1430 then Raised NotFound
                               else Returned sample_document)
             (fun _ => Returned tt)).
Proof.
  apply only_work_set_keys_are_read.
  - repeat split.
  - intros names blob_name [= <-]. vm_compute. intros [<- | []]. reflexivity.
Defined.

Lemma not_loaded_empty blob_name : not_loaded ∅ blob_name = true.
Proof. apply bool_decide_eq_true. set_solver. Qed.

Lemma filter_all {A} (f : A -> bool) (l : list A) :
  (forall x, f x = true) -> List.filter f l = l.
Proof.
  intros Hf. induction l as [|x l IH]; [reflexivity|].
  cbn [List.filter]. now rewrite Hf, IH.
Qed.

(** X13. Bootstrap.  When the destination table does not exist the
    ledger is empty, so a run takes every JSON file of the store as new:
    it ends normally and the table it leaves holds exactly the rows of
    the files that process, in listing order; the files that fail are
    the only ones missing. *)
Theorem missing_table_means_full_load (store : System.Store) :
  let infra := System.infra_of store None in
  let json_files := json_files_of (List.map fst store) in
  let run := System.run store None in
  result run.1 = Returned tt /\
  loaded_rows (trace run.1) = rows_of (List.map (item_outcome infra) json_files) /\
  System.rows_in run.2 = rows_of (List.map (item_outcome infra) json_files) /\
  List.length (System.rows_in run.2) + List.length (List.filter (fails infra) json_files)
    = List.length json_files.
Proof.
  cbn zeta. unfold System.run. cbn [fst snd].
  destruct (system_run_summary store None) as [Hr Hl].
  assert (Eledger : ledger_of (System.infra_of store None) = ∅) by reflexivity.
  rewrite Eledger, (filter_all _ _ not_loaded_empty) in Hl.
  rewrite rows_in_apply_trace, Hl. cbn [System.rows_in app].
  split; [exact Hr|]. split; [reflexivity|]. split; [reflexivity|].
  apply rows_and_failures.
Qed.

(** X14. The flow does not de-duplicate inside a run.  When the listing
    holds the same file name under two directories, the timestamp is not
    in the ledger and both documents are well formed, the run loads two
    rows, one per key, and both carry the same [data_fetched_at].  (In
    a run whose ledger reader could not build its client nothing is
    listed and nothing is loaded.) *)
Theorem same_name_twice_gives_two_rows
    (infra : Infra) (dir1 dir2 name : string) (doc1 doc2 : list (string * json))
    (t : datetime) :
  all_chars (is_not "/") name = true ->
  PyStr.endswith name ".json" = true ->
  strptime (PyStr.replace ".json" EmptyString (PyStr.replace "status_" EmptyString name))
    = Returned t ->
  PyStr.replace ".json" EmptyString (PyStr.replace "status_" EmptyString name)
    ∉ ledger_of infra ->
  gcs_list_blobs infra = Returned [dir1 +:+ "/" +:+ name; dir2 +:+ "/" +:+ name] ->
  read_json_from_gcs infra (dir1 +:+ "/" +:+ name) = Returned (JDict doc1) ->
  read_json_from_gcs infra (dir2 +:+ "/" +:+ name) = Returned (JDict doc2) ->
  data_is_dict doc1 = true ->
  data_is_dict doc2 = true ->
  (forall rows, bq_load_job infra rows = Returned tt) ->
  match bq_client infra with
  | Returned _ =>
      exists row1 row2,
        loaded_rows (trace (Prefect.load_station_status_flow infra)) = [row1; row2] /\
        data_fetched_at row1 = isoformat t /\
        data_fetched_at row2 = isoformat t
  | Raised e =>
      result (Prefect.load_station_status_flow infra) = Raised e /\
      loaded_rows (trace (Prefect.load_station_status_flow infra)) = []
  end.
Proof.
  intros Hname Hjson Hp Hnew Hlist Hr1 Hr2 Hd1 Hd2 Hload.
  destruct (client_cases infra) as [Hc | [e Hc]].
  2:{ rewrite (flow_client_raised infra e Hc), Hc. split; reflexivity. }
  rewrite Hc.
  pose proof (flow_summary infra Hc) as Hsum. cbn zeta in Hsum. rewrite Hlist in Hsum.
  assert (Hts : forall dir, timestamp_str_of (dir +:+ "/" +:+ name) =
                  PyStr.replace ".json" EmptyString
                    (PyStr.replace "status_" EmptyString name)).
  { intros dir. unfold timestamp_str_of.
    assert (E : filename_of (dir +:+ "/" +:+ name) = name) by now apply filename_of_dir.
    now rewrite E. }
  assert (Hends : forall dir, PyStr.endswith (dir +:+ "/" +:+ name) ".json" = true).
  { intros dir. apply endswith_iff. apply endswith_iff in Hjson as [stem ->].
    exists (dir +:+ "/" +:+ stem). now rewrite !append_assoc. }
  assert (Hnl : forall dir, not_loaded (ledger_of infra) (dir +:+ "/" +:+ name) = true).
  { intros dir. unfold not_loaded. rewrite Hts. now apply bool_decide_eq_true. }
  unfold json_files_of in Hsum. cbn [List.filter] in Hsum.
  rewrite !Hends in Hsum. cbn [List.filter] in Hsum. rewrite !Hnl in Hsum.
  cbn [List.map] in Hsum. rewrite !rows_of_cons in Hsum.
  unfold item_outcome in Hsum. rewrite Hr1, Hr2 in Hsum. cbn [mbind outcome_bind] in Hsum.
  rewrite !plain_transform_dict, !Hts, Hp, Hd1, Hd2 in Hsum.
  destruct Hsum as (_ & _ & Hrows). rewrite Hload in Hrows. destruct Hrows as [_ Hl].
  eexists _, _. split; [exact Hl|]. split; reflexivity.
Qed.

Lemma same_name_twice_gives_two_rows_witness :
  exists row1 row2,
    loaded_rows (trace (Prefect.load_station_status_flow
      (mkInfra (Returned tt) (Raised NotFound)
               (Returned ["raw/station_status/date=2026-01-02/status_20260102_143000.json";
                          "raw/station_status/date=2026-01-03/status_20260102_143000.json"])
               (fun _ => Returned (JDict [])) (fun _ => Returned tt)))) = [row1; row2] /\
    data_fetched_at row1 = "2026-01-02T14:30:00" /\
    data_fetched_at row2 = "2026-01-02T14:30:00".
Proof.
  apply (same_name_twice_gives_two_rows
           (mkInfra (Returned tt) (Raised NotFound)
              (Returned ["raw/station_status/date=2026-01-02/status_20260102_143000.json";
                         "raw/station_status/date=2026-01-03/status_20260102_143000.json"])
              (fun _ => Returned (JDict [])) (fun _ => Returned tt))
           "raw/station_status/date=2026-01-02" "raw/station_status/date=2026-01-03"
           "status_20260102_143000.json" [] [] (mkDatetime 2026 1 2 14 30 0));
    try reflexivity.
  rewrite ledger_of_query_raised with (e := NotFound) by reflexivity.
  apply not_elem_of_empty.
Defined.

(** X15. With an empty ledger the orchestrated flow loads what the
    plain loader loads: when the ledger query fails (no table yet) and
    the listing and the load job succeed, both end normally with the same
    batch, the rows of all the JSON files that process.  (When the
    ledger reader cannot even build its client, the flow raises and
    loads nothing, while the plain loader, which has no reader, loads
    the same batch as before.) *)
Theorem empty_ledger_flow_loads_like_plain_loader
    (infra : Infra) (e : exn) (names : list string) :
  bq_select_distinct infra = Raised e ->
  gcs_list_blobs infra = Returned names ->
  (forall rows, bq_load_job infra rows = Returned tt) ->
  result (Plain.main infra) = Returned tt /\
  loaded_rows (trace (Plain.main infra)) =
  rows_of (List.map (item_outcome infra) (json_files_of names)) /\
  match bq_client infra with
  | Returned _ =>
      result (Prefect.load_station_status_flow infra) = Returned tt /\
      loaded_rows (trace (Prefect.load_station_status_flow infra)) =
      loaded_rows (trace (Plain.main infra))
  | Raised e' =>
      result (Prefect.load_station_status_flow infra) = Raised e' /\
      loaded_rows (trace (Prefect.load_station_status_flow infra)) = []
  end.
Proof.
  intros Hq Hlist Hload.
  destruct (plain_main_loads_what_processes infra names Hlist Hload) as [Hpr Hpl].
  split; [exact Hpr|]. split; [exact Hpl|].
  destruct (client_cases infra) as [Hc | [e' Hc]].
  2:{ rewrite (flow_client_raised infra e' Hc), Hc. split; reflexivity. }
  rewrite Hc.
  pose proof (flow_summary infra Hc) as Hsum. cbn zeta in Hsum. rewrite Hlist in Hsum.
  rewrite (ledger_of_query_raised infra e Hq), (filter_all _ _ not_loaded_empty) in Hsum.
  destruct Hsum as (_ & _ & Hrows). rewrite Hpl.
  destruct (rows_of _) as [|r rs]; [tauto|]. rewrite Hload in Hrows. tauto.
Qed.

Lemma empty_ledger_flow_loads_like_plain_loader_witness :
  loaded_rows (trace (Prefect.load_station_status_flow sample_infra)) =
  loaded_rows (trace (Plain.main sample_infra)).
Proof.
  exact (proj2 (proj2 (proj2 (empty_ledger_flow_loads_like_plain_loader sample_infra
           NotFound [key_1430; key_1500; key_1530] eq_refl eq_refl (fun _ => eq_refl))))).
Defined.

(** X16. The plain loader is not incremental: it has no ledger, so each
    run loads the rows of every JSON file that processes, whatever the
    table holds.  Two runs in a row over the same store load the same
    batch twice. *)
Theorem plain_loader_reloads_everything (store : System.Store) (table : System.Table) :
  let batch := rows_of (List.map (item_outcome (System.infra_of store table))
                                 (json_files_of (List.map fst store))) in
  let first := run_plain store table in
  let second := run_plain store first.2 in
  loaded_rows (trace first.1) = batch /\
  loaded_rows (trace second.1) = batch /\
  System.rows_in second.2 = System.rows_in table ++ batch ++ batch.
Proof.
  cbn zeta. unfold run_plain. cbn [fst snd].
  set (table1 := System.apply_trace table (trace (Plain.main (System.infra_of store table)))).
  destruct (plain_main_loads_what_processes (System.infra_of store table)
              (List.map fst store) eq_refl (fun _ => eq_refl)) as [_ H1].
  destruct (plain_main_loads_what_processes (System.infra_of store table1)
              (List.map fst store) eq_refl (fun _ => eq_refl)) as [_ H2].
  change (item_outcome (System.infra_of store table1))
    with (item_outcome (System.infra_of store table)) in H2.
  split; [exact H1|]. split; [exact H2|].
  rewrite rows_in_apply_trace, H2. unfold table1.
  now rewrite rows_in_apply_trace, H1, app_assoc.
Qed.

Lemma error_lines_app tr1 tr2 : error_lines (tr1 ++ tr2) = error_lines tr1 ++ error_lines tr2.
Proof. unfold error_lines. now rewrite flat_map_app. Qed.

Lemma plain_process_file_len_error infra i blob_name all_rows json_data row e :
  read_json_from_gcs infra blob_name = Returned json_data ->
  Plain.transform_to_bigquery_row json_data blob_name = Returned row ->
  (v_data ← py_get json_data "data" (JDict []);
   v_stations ← py_get v_data "stations" (JList []);
   py_len v_stations) = Raised e ->
  Plain.process_file infra i blob_name all_rows =
    mkM [Print (ProcessingFile i blob_name); Print (ErrorLine e)]
        (Returned (all_rows ++ [row])).
Proof.
  intros Hread Htr Hlen. unfold Plain.process_file. now rewrite Hread, Htr, Hlen.
Qed.

Lemma plain_process_files_error infra i files all_rows blob_name json_data row e :
  In blob_name files ->
  read_json_from_gcs infra blob_name = Returned json_data ->
  Plain.transform_to_bigquery_row json_data blob_name = Returned row ->
  (v_data ← py_get json_data "data" (JDict []);
   v_stations ← py_get v_data "stations" (JList []);
   py_len v_stations) = Raised e ->
  In e (error_lines (trace (Plain.process_files infra i files all_rows))).
Proof.
  intros Hin Hread Htr Hlen. revert i all_rows.
  induction files as [|k rest IH]; intros i all_rows; [contradiction|].
  cbn [Plain.process_files].
  destruct (plain_process_file_eq infra i k all_rows) as (tr1 & E1 & _).
  destruct Hin as [-> | Hin].
  - rewrite (plain_process_file_len_error infra i blob_name all_rows json_data row e)
      by assumption.
    run_monad. cbn. now left.
  - rewrite E1. run_monad. rewrite error_lines_app. apply in_or_app. right.
    now apply IH.
Qed.

(** X17. In the plain loader an item can be both loaded and reported as
    an error.  The line that reports the number of stations is printed
    inside the [try], after the row was appended: when a listed JSON file
    processes but its station list has no length (it is null, a number),
    the run still loads its row and also prints an error line for it. *)
Theorem plain_loader_reports_a_loaded_row
    (infra : Infra) (names : list string) (blob_name : string)
    (json_data : json) (row : Row) (e : exn) :
  gcs_list_blobs infra = Returned names ->
  (forall rows, bq_load_job infra rows = Returned tt) ->
  In blob_name (json_files_of names) ->
  read_json_from_gcs infra blob_name = Returned json_data ->
  Plain.transform_to_bigquery_row json_data blob_name = Returned row ->
  (v_data ← py_get json_data "data" (JDict []);
   v_stations ← py_get v_data "stations" (JList []);
   py_len v_stations) = Raised e ->
  In row (loaded_rows (trace (Plain.main infra))) /\
  In e (error_lines (trace (Plain.main infra))).
Proof.
  intros Hlist Hload Hin Hread Htr Hlen.
  destruct (plain_main_loads_what_processes infra names Hlist Hload) as [_ Hl].
  split.
  - rewrite Hl. apply (rows_of_in infra blob_name); [exact Hin|].
    unfold item_outcome. now rewrite Hread.
  - pose proof (plain_process_files_error infra 1 (json_files_of names) [] blob_name
                  json_data row e Hin Hread Htr Hlen) as He.
    unfold Plain.main, Plain.list_json_files. rewrite Hlist. run_monad.
    fold (json_files_of names).
    destruct (json_files_of names) as [|f fs]; [contradiction|].
    destruct (plain_process_files_eq infra 1 (f :: fs) []) as (tr & E & _).
    rewrite E in He |- *. cbn [trace] in He. run_monad.
    change (Print StartingPipeline :: Print (FoundJsonFiles (List.length (f :: fs))) :: ?l)
      with ([Print StartingPipeline; Print (FoundJsonFiles (List.length (f :: fs)))] ++ l).
    destruct (match rows_of (List.map (item_outcome infra) (f :: fs)) with
              | [] => _ | _ :: _ => _ end) as [tr' res'].
    cbn [trace]. rewrite !error_lines_app. apply in_or_app. right.
    apply in_or_app. now left.
Qed.

Lemma plain_loader_reports_a_loaded_row_witness :
  let infra := mkInfra (Returned tt) (Raised NotFound) (Returned [key_1430])
                 (fun _ => Returned (JDict [("data", JDict [("stations", JNull)])]))
                 (fun _ => Returned tt) in
  In (mkRow JNull JNull JNull "2026-01-02T14:30:00" "2026-01-02" "null")
     (loaded_rows (trace (Plain.main infra))) /\
  In TypeError (error_lines (trace (Plain.main infra))).
Proof.
  cbn zeta.
  apply (plain_loader_reports_a_loaded_row _ [key_1430] key_1430
           (JDict [("data", JDict [("stations", JNull)])])); try reflexivity.
  now left.
Defined.

(** ** The transformer on any payload *)

(** X18. The outcome of the transformer for every payload and every key.
    A file name whose timestamp does not parse raises [ValueError]
    whatever the payload is, a bad name being found before a bad
    payload; otherwise a payload that is not a [dict], or whose [data]
    entry is present without being a [dict], raises [AttributeError];
    otherwise a row is returned, with one INFO record.  Nothing is
    logged when it raises, and the plain function gives the same
    outcome. *)
Theorem transformer_outcome_on_any_payload (json_data : json) (blob_name : string) :
  result (Prefect.transform_to_bigquery_row json_data blob_name) =
  Plain.transform_to_bigquery_row json_data blob_name /\
  match strptime (timestamp_str_of blob_name), json_data with
  | Raised _, _ =>
      Prefect.transform_to_bigquery_row json_data blob_name = mkM [] (Raised ValueError)
  | Returned t, JDict entries =>
      if data_is_dict entries then
        exists row,
          Prefect.transform_to_bigquery_row json_data blob_name =
            mkM [Log INFO (TransformedData t)] (Returned row) /\
          data_fetched_at row = isoformat t /\ date_partition row = date_isoformat t /\
          stations row = json_dumps (stations_of entries)
      else Prefect.transform_to_bigquery_row json_data blob_name
           = mkM [] (Raised AttributeError)
  | Returned _, _ =>
      Prefect.transform_to_bigquery_row json_data blob_name = mkM [] (Raised AttributeError)
  end.
Proof.
  split; [apply prefect_transform_result|].
  rewrite prefect_transform_eq.
  destruct (strptime (timestamp_str_of blob_name)) as [t|e] eqn:Hp.
  - destruct json_data;
      try (rewrite plain_transform_not_dict, Hp by discriminate; reflexivity).
    rewrite plain_transform_dict, Hp.
    destruct (data_is_dict entries); [|reflexivity].
    eexists. split; [reflexivity|]. auto.
  - pose proof (strptime_raises _ _ Hp) as ->.
    destruct json_data;
      try (rewrite plain_transform_not_dict, Hp by discriminate; reflexivity).
    now rewrite plain_transform_dict, Hp.
Qed.

(** X19. The transformer reads four entries of the payload and nothing
    else: two [dict] payloads with the same [last_updated], [ttl],
    [version] and [data] entries give the same outcome, whatever other
    entries they hold and in whatever order. *)
Theorem transformer_reads_four_entries
    (entries1 entries2 : list (string * json)) (blob_name : string) :
  assoc "last_updated" entries1 = assoc "last_updated" entries2 ->
  assoc "ttl" entries1 = assoc "ttl" entries2 ->
  assoc "version" entries1 = assoc "version" entries2 ->
  assoc "data" entries1 = assoc "data" entries2 ->
  Prefect.transform_to_bigquery_row (JDict entries1) blob_name =
  Prefect.transform_to_bigquery_row (JDict entries2) blob_name /\
  Plain.transform_to_bigquery_row (JDict entries1) blob_name =
  Plain.transform_to_bigquery_row (JDict entries2) blob_name.
Proof.
  intros Hl Ht Hv Hd.
  assert (E : Plain.transform_to_bigquery_row (JDict entries1) blob_name =
              Plain.transform_to_bigquery_row (JDict entries2) blob_name).
  { rewrite !plain_transform_dict. unfold data_is_dict, stations_of, get_or_null.
    now rewrite Hl, Ht, Hv, Hd. }
  split; [|exact E]. now rewrite !prefect_transform_eq, E.
Qed.

Lemma transformer_reads_four_entries_witness :
  Plain.transform_to_bigquery_row
    (JDict [("ttl", JInt 60); ("feed", JStr "bkn"); ("ttl", JInt 5)]) key_1430 =
  Plain.transform_to_bigquery_row (JDict [("ttl", JInt 60)]) key_1430.
Proof.
  exact (proj2 (transformer_reads_four_entries
                  [("ttl", JInt 60); ("feed", JStr "bkn"); ("ttl", JInt 5)]
                  [("ttl", JInt 60)] key_1430 eq_refl eq_refl eq_refl eq_refl)).
Defined.

(** ** The collector *)




(** X21. What a call of the collector leaves behind.  It writes at most
    one object, under the key built from the two clock readings and with
    the serialised document as content; it writes nothing exactly when
    the fetch raised, the fetched document is falsy (an empty object, an
    empty list, null, zero) or the upload raised, and those are exactly
    the calls it answers with an error and status 500.  When it wrote
    the object it either answers success with its timestamp, or raises
    [AttributeError] or [TypeError] while counting the stations. *)
Theorem collector_writes_at_most_one_object
    (svc : Collector.Services) (now_1 now_2 : datetime) :
  let run := Collector.collect_bike_data svc now_1 now_2 in
  let blob_name := collector_blob_name (strftime_date now_2) (strftime now_1) in
  (Collector.uploads run.1 = [] <->
   exists message, run.2 = Returned (Collector.ServerError message)) /\
  (Collector.uploads run.1 = [] <->
   match Collector.http_get_json svc Collector.station_status_url with
   | Raised _ => True
   | Returned document =>
       truthy document = false \/
       exists e, Collector.upload_from_string svc Collector.bucket_name blob_name
                   (json_dumps document) = Raised e
   end) /\
  (Collector.uploads run.1 <> [] ->
   exists document,
     Collector.http_get_json svc Collector.station_status_url = Returned document /\
     Collector.uploads run.1 = [(Collector.bucket_name, blob_name, json_dumps document)] /\
     ((exists n, run.2 = Returned (Collector.Success n (strftime now_1))) \/
      run.2 = Raised AttributeError \/ run.2 = Raised TypeError)).
Proof.
  cbn zeta. unfold Collector.collect_bike_data, Collector.fetch_station_data.
  destruct (Collector.http_get_json svc Collector.station_status_url) as [document|e].
  2:{ cbn. repeat split; eauto; try tauto. }
  destruct (truthy document) eqn:Htruthy.
  2:{ cbn. repeat split; eauto; try tauto. }
  unfold Collector.upload_to_gcs.
  destruct (Collector.upload_from_string svc Collector.bucket_name _ (json_dumps document))
    as [[]|e] eqn:Eup.
  2:{ cbn. repeat split; eauto; try tauto. }
  assert (Hlen : (exists n, (v_data ← py_get document "data" (JDict []);
                             v_stations ← py_get v_data "stations" (JList []);
                             py_len v_stations) = Returned n) \/
                 (v_data ← py_get document "data" (JDict []);
                  v_stations ← py_get v_data "stations" (JList []);
                  py_len v_stations) = Raised AttributeError \/
                 (v_data ← py_get document "data" (JDict []);
                  v_stations ← py_get v_data "stations" (JList []);
                  py_len v_stations) = Raised TypeError).
  { destruct document; cbn; auto.
    destruct (match assoc "data" entries with Some v => v | None => JDict [] end); cbn; auto.
    destruct (match assoc "stations" entries0 with Some v => v | None => JList [] end);
      cbn; eauto. }
  destruct Hlen as [[n Hn] | [Hn | Hn]]; rewrite Hn; cbn;
    (split; [split; [discriminate | intros [m [=]]]|]);
    (split; [split; [discriminate | intros [[=] | [e' [=]]]]|]);
    intros _; exists document; repeat split; eauto.
Qed.
